(** * InvestWise: market-condition classifier and portfolio-allocation optimizer

    A shallow embedding of the decision logic of the InvestWise application:

    - [client/src/components/portfolio/mcp/utils.ts]    ([Utils]),
    - [server/services/prediction.ts]                   ([Prediction]),
    - [server/services/market.ts]                       ([Market]),
    - the [/api/portfolio/optimize] route of the server ([Routes]).

    The two optimizers are embedded a second time over the store of objects
    ([Store]), where what a call reads and writes outside of itself can be
    stated.

    JavaScript numbers are modelled as rationals ([Q]); a decimal literal of
    the code is the rational it denotes.  NaN and the infinities are not
    represented.  Where the properties below depend on arithmetic, IEEE
    doubles and rationals agree:

    - the allocation tables hold small integers whose totals are 100, so the
      scaling factor is exactly 1 (or the quotient by 100 is off by one unit in
      the last place, which [Math.round] removes);
    - the signal weights 1.0, 1.5, 1.0 and 1.2 add up, bucket by bucket, to
      sums that are either equal in both arithmetics (one signal of weight 1.0
      against the other) or at least 0.2 apart.

    Calls to the data provider and to the trend and sentiment sources are
    computations over an explicit world ([Async]); [console] output is left
    out. *)

From Stdlib Require Import ZArith QArith Qround Qminmax Lia Lqa List Ascii String.
From stdpp Require Import base strings gmap.
Import ListNotations.

(** ** JavaScript number primitives *)

Module Js.

Local Open Scope Q_scope.

(** [x > y] on numbers. *)
Definition gt (x y : Q) : bool := negb (Qle_bool x y).

(** [x < y] on numbers. *)
Definition lt (x y : Q) : bool := negb (Qle_bool y x).

(** [x !== y] on numbers. *)
Definition neq (x y : Q) : bool := negb (Qeq_bool x y).

(** [Math.max(x, y)] and [Math.min(x, y)]. *)
Definition Math_max (x y : Q) : Q := Qmax x y.
Definition Math_min (x y : Q) : Q := Qmin x y.

(** [Math.round(x)]: the nearest integer, halves rounded towards
    plus infinity. *)
Definition Math_round (x : Q) : Q := inject_Z (Qfloor (x + 0.5)).

(** [x || d] for an optional number [x]. *)
Definition or_else (x : option Q) (d : Q) : Q :=
  match x with
  | Some v => if neq v 0 then v else d
  | None => d
  end.

End Js.

(** ** Shared enumerations ([@shared/schema]) *)

Inductive RiskProfile : Set := conservative | moderate | aggressive.

Inductive MarketCondition : Set := bearish | neutral | bullish.

Inductive Trend : Set := up | down | sideways.

Definition MarketCondition_eqb (a b : MarketCondition) : bool :=
  match a, b with
  | bearish, bearish | neutral, neutral | bullish, bullish => true
  | _, _ => false
  end.

(** ** [client/src/components/portfolio/mcp/utils.ts] *)

Module Utils.

Import Js.
Local Open Scope Q_scope.

Record AssetAllocation : Set := mkAllocation
  { equity : Q; debt : Q; gold : Q; cash : Q }.

Definition baseAllocations (riskProfile : RiskProfile) : AssetAllocation :=
  match riskProfile with
  | conservative => {| equity := 30; debt := 45; gold := 15; cash := 10 |}
  | moderate => {| equity := 50; debt := 30; gold := 12; cash := 8 |}
  | aggressive => {| equity := 70; debt := 15; gold := 10; cash := 5 |}
  end.

Definition marketAdjustments (marketCondition : MarketCondition)
  : AssetAllocation :=
  match marketCondition with
  | bullish => {| equity := 10; debt := -5; gold := -3; cash := -2 |}
  | bearish => {| equity := -15; debt := 8; gold := 5; cash := 2 |}
  | neutral => {| equity := 0; debt := 0; gold := 0; cash := 0 |}
  end.

(** "Apply adjustments": the sum of base and adjustment, each bucket
    clamped to its own bounds. *)
Definition applyAdjustments (base adjustment : AssetAllocation)
  : AssetAllocation :=
  {| equity := Math_max 10 (Math_min 90 (equity base + equity adjustment));
     debt := Math_max 10 (Math_min 70 (debt base + debt adjustment));
     gold := Math_max 0 (Math_min 30 (gold base + gold adjustment));
     cash := Math_max 0 (Math_min 30 (cash base + cash adjustment)) |}.

Definition sumOf (a : AssetAllocation) : Q :=
  equity a + debt a + gold a + cash a.

(** "Normalize to ensure sum is 100%".  The floors of [applyAdjustments]
    keep [total] at 20 or more, so the division is always by a positive
    number. *)
Definition normalize (adjusted : AssetAllocation) : AssetAllocation :=
  let total := sumOf adjusted in
  let factor := 100 / total in
  {| equity := Math_round (equity adjusted * factor);
     debt := Math_round (debt adjusted * factor);
     gold := Math_round (gold adjusted * factor);
     cash := Math_round (cash adjusted * factor) |}.

(** "Final adjustment to ensure we add up to exactly 100". *)
Definition finalAdjustment (adjusted : AssetAllocation) : AssetAllocation :=
  let finalTotal := sumOf adjusted in
  if neq finalTotal 100
  then {| equity := equity adjusted + (100 - finalTotal);
          debt := debt adjusted;
          gold := gold adjusted;
          cash := cash adjusted |}
  else adjusted.

(** The body of [calculateOptimalAllocation] once [base] and [adjustment]
    have been read from the tables. *)
Definition allocate (base adjustment : AssetAllocation) : AssetAllocation :=
  finalAdjustment (normalize (applyAdjustments base adjustment)).

Definition calculateOptimalAllocation
    (riskProfile : RiskProfile) (marketCondition : MarketCondition)
  : AssetAllocation :=
  let base := baseAllocations riskProfile in
  let adjustment := marketAdjustments marketCondition in
  allocate base adjustment.

End Utils.

(** ** [server/services/prediction.ts] *)

Module Prediction.

Import Js.
Local Open Scope Q_scope.

(** Result of [predictMarketMovement]. *)
Record MarketPrediction : Set := mkPrediction
  { prediction : list Q; confidence : Q; trend : Trend }.

Inductive Emotion : Set := positive | negative | neutral_emotion.

(** Result of [analyzeNewsSentiment]; its [confidence] field is named
    [sentiment_confidence] here, apart from the one of [MarketPrediction]. *)
Record SentimentAnalysis : Set := mkSentiment
  { score : Q; emotion : Emotion; sentiment_confidence : Q }.

Record Buckets : Set := mkBuckets
  { stocks : Q; bonds : Q; cash : Q; alternatives : Q }.

Record CategoryShare : Set := mkShare
  { category : string; percentage : Q }.

Record OptimizedPortfolio : Set := mkPortfolio
  { allocation : list CategoryShare; expectedReturn : Q; riskLevel : Q }.

Definition baseAllocations (riskProfile : RiskProfile) : Buckets :=
  match riskProfile with
  | conservative =>
      {| stocks := 30; bonds := 45; cash := 15; alternatives := 10 |}
  | moderate =>
      {| stocks := 50; bonds := 30; cash := 10; alternatives := 10 |}
  | aggressive =>
      {| stocks := 70; bonds := 15; cash := 5; alternatives := 10 |}
  end.

Definition marketAdjustments (marketCondition : MarketCondition) : Buckets :=
  match marketCondition with
  | bearish => {| stocks := -10; bonds := 5; cash := 5; alternatives := 0 |}
  | neutral => {| stocks := 0; bonds := 0; cash := 0; alternatives := 0 |}
  | bullish => {| stocks := 10; bonds := -5; cash := -5; alternatives := 0 |}
  end.

Definition applyAdjustments (base adjustment : Buckets) : Buckets :=
  {| stocks := Math_max 0 (Math_min 100 (stocks base + stocks adjustment));
     bonds := Math_max 0 (Math_min 100 (bonds base + bonds adjustment));
     cash := Math_max 0 (Math_min 100 (cash base + cash adjustment));
     alternatives :=
       Math_max 0
         (Math_min 100 (alternatives base + alternatives adjustment)) |}.

(** [Object.entries] and [Object.values] enumerate the keys in the order
    the object literal lists them. *)
Definition Object_entries (o : Buckets) : list (string * Q) :=
  [ ("stocks"%string, stocks o); ("bonds"%string, bonds o);
    ("cash"%string, cash o); ("alternatives"%string, alternatives o) ].

Definition Object_values (o : Buckets) : list Q :=
  map snd (Object_entries o).

Definition expectedReturns : gmap string Q :=
  list_to_map [ ("stocks"%string, 10); ("bonds"%string, 5);
                ("cash"%string, 2); ("alternatives"%string, 8) ].

Definition riskLevels : gmap string Q :=
  list_to_map [ ("stocks"%string, 16); ("bonds"%string, 6);
                ("cash"%string, 1); ("alternatives"%string, 12) ].

(** [table[key] || 0]. *)
Definition weightOf (table : gmap string Q) (key : string) : Q :=
  or_else (table !! key) 0.

(** [allocation.reduce((total, item) => total + (w * item.percentage / 100), 0)]
    with [w = table[item.category] || 0]. *)
Definition weighted (table : gmap string Q) (allocation : list CategoryShare)
  : Q :=
  fold_left
    (fun total item =>
       total + (weightOf table (category item) * percentage item / 100))
    allocation 0.

Definition optimizePortfolio
    (riskProfile : RiskProfile) (marketCondition : MarketCondition)
  : OptimizedPortfolio :=
  let base := baseAllocations riskProfile in
  let adjustment := marketAdjustments marketCondition in
  let optimizedAllocation := applyAdjustments base adjustment in
  let total :=
    fold_left (fun sum val => sum + val) (Object_values optimizedAllocation) 0 in
  let allocation :=
    map (fun '(category, percentage) =>
           {| category := category;
              percentage := Math_round ((percentage / total) * 100) |})
        (Object_entries optimizedAllocation) in
  {| allocation := allocation;
     expectedReturn := weighted expectedReturns allocation;
     riskLevel := weighted riskLevels allocation |}.

End Prediction.

(** ** Asynchronous calls that may reject

    An awaited call either yields a value or throws, and in both cases it may
    have changed the outside world (the data provider answers differently
    from one call to the next).  [M World A] threads the world through and
    keeps it when a call throws. *)

Module Async.

Definition M (World A : Type) : Type := World -> option A * World.

Definition ret {World A : Type} (a : A) : M World A :=
  fun w => (Some a, w).

Definition throw {World A : Type} : M World A :=
  fun w => (None, w).

Definition bind {World A B : Type} (c : M World A) (k : A -> M World B)
  : M World B :=
  fun w =>
    match c w with
    | (Some a, w') => k a w'
    | (None, w') => (None, w')
    end.

(** [try { body } catch (error) { handler }]. *)
Definition try_catch {World A : Type} (body handler : M World A)
  : M World A :=
  fun w =>
    match body w with
    | (Some a, w') => (Some a, w')
    | (None, w') => handler w'
    end.

End Async.

Notation "x <- c ;; k" := (Async.bind c (fun x => k))
  (at level 100, c at next level, right associativity).

(** ** [server/services/market.ts] *)

Module Market.

Import Js Async.
Local Open Scope Q_scope.

Record IndexSymbol : Set := mkIndexSymbol
  { symbol : string; name : string }.

Record Symbols : Set := mkSymbols
  { volatilityIndex : string;
    mainIndex : string;
    additionalIndices : list IndexSymbol }.

(** A market index as reported to the caller. *)
Record MarketIndices : Set := mkMarketIndices
  { index_name : string; value : Q; change : Q }.

Record Indicators : Set := mkIndicators
  { indicator_volatilityIndex : Q; indicator_mainIndex : Q;
    indicator_trend : Trend }.

Record MarketData : Set := mkMarketData
  { condition : MarketCondition;
    locale : string;
    indicators : Indicators;
    localIndices : list MarketIndices }.

(** What [yf.quote] resolves to; either field may be [undefined]. *)
Record Quote : Set := mkQuote
  { regularMarketPrice : option Q;
    regularMarketChangePercent : option Q }.

(** The keys are upper-case; the properties every object inherits all
    have a lower-case letter in their name, so that a look-up by an
    upper-cased key sees the four entries of the literal only. *)
Definition MARKET_SYMBOLS : gmap string Symbols :=
  list_to_map
    [ ("US"%string,
        {| volatilityIndex := "^VIX"; mainIndex := "^GSPC";
           additionalIndices :=
             [ mkIndexSymbol "^IXIC" "NASDAQ";
               mkIndexSymbol "^DJI" "Dow Jones";
               mkIndexSymbol "^RUT" "Russell 2000" ] |});
      ("IN"%string,
        {| volatilityIndex := "^INDIAVIX"; mainIndex := "^NSEI";
           additionalIndices :=
             [ mkIndexSymbol "^BSESN" "Sensex";
               mkIndexSymbol "^NSEBANK" "Bank Nifty";
               mkIndexSymbol "^CNXIT" "Nifty IT" ] |});
      ("UK"%string,
        {| volatilityIndex := "^FTSE"; mainIndex := "^FTSE";
           additionalIndices :=
             [ mkIndexSymbol "^FTMC" "FTSE 250";
               mkIndexSymbol "^FTLC" "FTSE 100" ] |});
      ("SG"%string,
        {| volatilityIndex := "^STI"; mainIndex := "^STI";
           additionalIndices :=
             [ mkIndexSymbol "^STI" "Straits Times Index" ] |}) ].

Record DefaultData : Set := mkDefaultData
  { default_volatilityIndex : Q;
    default_mainIndex : Q;
    default_additionalIndices : list MarketIndices }.

Definition DEFAULT_MARKET_DATA_US : DefaultData :=
  {| default_volatilityIndex := 20;
     default_mainIndex := 4000;
     default_additionalIndices :=
       [ mkMarketIndices "NASDAQ" 12000 (-0.5);
         mkMarketIndices "Dow Jones" 33000 (-0.3) ] |}.

Definition DEFAULT_MARKET_DATA_IN : DefaultData :=
  {| default_volatilityIndex := 16;
     default_mainIndex := 21500;
     default_additionalIndices :=
       [ mkMarketIndices "Sensex" 72000 (-0.4);
         mkMarketIndices "Bank Nifty" 44000 (-0.6) ] |}.

(** *** The weighted model of [determineMarketCondition] *)

(** 1. "Use VIX as a measure of fear/volatility". *)
Definition vixSignal (vixValue : Q) : MarketCondition :=
  if gt vixValue 25 then bearish
  else if lt vixValue 15 then bullish
  else neutral.

(** 2. "Use ML prediction for trend". *)
Definition predictionSignal (marketPrediction : Prediction.MarketPrediction)
  : MarketCondition :=
  match Prediction.trend marketPrediction with
  | up =>
      if gt (Prediction.confidence marketPrediction) 0.4
      then bullish else neutral
  | down =>
      if gt (Prediction.confidence marketPrediction) 0.4
      then bearish else neutral
  | sideways => neutral
  end.

(** 3. "Use sentiment analysis". *)
Definition sentimentSignal (sentimentAnalysis : Prediction.SentimentAnalysis)
  : MarketCondition :=
  if gt (Prediction.score sentimentAnalysis) 1.5
     && gt (Prediction.sentiment_confidence sentimentAnalysis) 0.4
  then bullish
  else if lt (Prediction.score sentimentAnalysis) (-1.5)
          && gt (Prediction.sentiment_confidence sentimentAnalysis) 0.4
  then bearish
  else neutral.

(** 4. "Use current market performance". *)
Definition currentSignal (mainIndexChange : Q) : MarketCondition :=
  if gt mainIndexChange 1 then bullish
  else if lt mainIndexChange (-1) then bearish
  else neutral.

Record Signal : Set := mkSignal
  { type : string; signal_value : MarketCondition; weight : Q }.

Definition signals
    (vixValue mainIndexChange : Q)
    (marketPrediction : Prediction.MarketPrediction)
    (sentimentAnalysis : Prediction.SentimentAnalysis)
  : list Signal :=
  [ {| type := "vix"; signal_value := vixSignal vixValue; weight := 1.0 |};
    {| type := "prediction";
       signal_value := predictionSignal marketPrediction; weight := 1.5 |};
    {| type := "sentiment";
       signal_value := sentimentSignal sentimentAnalysis; weight := 1.0 |};
    {| type := "current";
       signal_value := currentSignal mainIndexChange; weight := 1.2 |} ].

Record Scores : Set := mkScores
  { bearishScore : Q; bullishScore : Q; neutralScore : Q }.

(** The body of the [forEach] over the signals. *)
Definition addSignal (scores : Scores) (signal : Signal) : Scores :=
  match signal_value signal with
  | bearish =>
      {| bearishScore := bearishScore scores + weight signal;
         bullishScore := bullishScore scores;
         neutralScore := neutralScore scores |}
  | bullish =>
      {| bearishScore := bearishScore scores;
         bullishScore := bullishScore scores + weight signal;
         neutralScore := neutralScore scores |}
  | neutral =>
      {| bearishScore := bearishScore scores;
         bullishScore := bullishScore scores;
         neutralScore := neutralScore scores + weight signal |}
  end.

Definition weightedScores (l : list Signal) : Scores :=
  fold_left addSignal l
    {| bearishScore := 0; bullishScore := 0; neutralScore := 0 |}.

(** "Determine final condition based on weighted scores". *)
Definition finalCondition (scores : Scores) : MarketCondition :=
  if gt (bearishScore scores) (bullishScore scores)
     && gt (bearishScore scores) (neutralScore scores)
  then bearish
  else if gt (bullishScore scores) (bearishScore scores)
          && gt (bullishScore scores) (neutralScore scores)
  then bullish
  else neutral.

(** "Fallback to simpler model if AI prediction fails". *)
Definition fallbackCondition (vixValue mainIndexChange : Q)
  : MarketCondition :=
  if gt vixValue 25 then
    if lt mainIndexChange (-0.5) then bearish else neutral
  else if lt vixValue 15 then
    if gt mainIndexChange 0.5 then bullish else neutral
  else if gt mainIndexChange 1 then bullish
  else if lt mainIndexChange (-1) then bearish
  else neutral.

(** The "simple calculation" of [determineMarketTrend]. *)
Definition simpleTrend (change : Q) : Trend :=
  if gt change 0.5 then up
  else if lt change (-0.5) then down
  else sideways.

Section Collaborators.

Context {World : Type}.

(** [String.prototype.toUpperCase]. *)
Variable toUpperCase : string -> string.

(** [yf.quote(symbol)]. *)
Variable yf_quote : string -> M World Quote.

(** [predictMarketMovement(symbol, days)] and
    [analyzeNewsSentiment(symbol)], the trend and sentiment sources. *)
Variable predictMarketMovement :
  string -> Z -> M World Prediction.MarketPrediction.
Variable analyzeNewsSentiment :
  string -> M World Prediction.SentimentAnalysis.

Definition determineMarketCondition
    (vixValue mainIndexChange : Q) (mainIndexSymbol : string)
  : M World MarketCondition :=
  try_catch
    (marketPrediction <- predictMarketMovement mainIndexSymbol 5%Z ;;
     sentimentAnalysis <- analyzeNewsSentiment mainIndexSymbol ;;
     ret (finalCondition
            (weightedScores
               (signals vixValue mainIndexChange
                  marketPrediction sentimentAnalysis))))
    (ret (fallbackCondition vixValue mainIndexChange)).

Definition determineMarketTrend (change : Q) (symbol : string)
  : M World Trend :=
  try_catch
    (prediction <- predictMarketMovement symbol 5%Z ;;
     if gt (Prediction.confidence prediction) 0.5
     then ret (Prediction.trend prediction)
     else ret (simpleTrend change))
    (ret (simpleTrend change)).

(** The loop over [symbols.additionalIndices]; a quote that throws is
    logged and skipped. *)
Fixpoint additionalQuotes
    (indices : list IndexSymbol) (localIndices : list MarketIndices)
  : M World (list MarketIndices) :=
  match indices with
  | [] => ret localIndices
  | index :: rest =>
      localIndices' <-
        try_catch
          (result <- yf_quote (symbol index) ;;
           ret (match regularMarketPrice result with
                | Some price =>
                    if neq price 0
                    then localIndices ++
                         [ {| index_name := name index;
                              value := price;
                              change :=
                                or_else
                                  (regularMarketChangePercent result) 0 |} ]
                    else localIndices
                | None => localIndices
                end))
          (ret localIndices) ;;
      additionalQuotes rest localIndices'
  end.

(** "Normalize locale to uppercase and ensure it's supported". *)
Definition normalizeLocale (locale : string) : string :=
  let locale := toUpperCase locale in
  match MARKET_SYMBOLS !! locale with
  | None => "IN"%string
  | Some _ => locale
  end.

(** The [try] block of [getMarketCondition] after the locale has been
    normalized. *)
Definition fetchMarketData (locale : string) : M World MarketData :=
  match MARKET_SYMBOLS !! locale with
  | None => throw
  | Some symbols =>
      vixResult <- yf_quote (volatilityIndex symbols) ;;
      let vixValue := or_else (regularMarketPrice vixResult) 0 in
      mainIndexResult <- yf_quote (mainIndex symbols) ;;
      let mainIndexValue := or_else (regularMarketPrice mainIndexResult) 0 in
      let mainIndexChange :=
        or_else (regularMarketChangePercent mainIndexResult) 0 in
      localIndices <- additionalQuotes (additionalIndices symbols) [] ;;
      marketCondition <-
        determineMarketCondition vixValue mainIndexChange
          (mainIndex symbols) ;;
      marketTrend <-
        determineMarketTrend mainIndexChange (mainIndex symbols) ;;
      ret {| condition := marketCondition;
             locale := locale;
             indicators :=
               {| indicator_volatilityIndex := vixValue;
                  indicator_mainIndex := mainIndexValue;
                  indicator_trend := marketTrend |};
             localIndices := localIndices |}
  end.

(** The [catch] block of [getMarketCondition]: "Fallback to default
    data". *)
Definition defaultMarketData (locale : string) : MarketData :=
  let defaultData :=
    if String.eqb locale "US"
    then DEFAULT_MARKET_DATA_US else DEFAULT_MARKET_DATA_IN in
  {| condition := neutral;
     locale := locale;
     indicators :=
       {| indicator_volatilityIndex := default_volatilityIndex defaultData;
          indicator_mainIndex := default_mainIndex defaultData;
          indicator_trend := sideways |};
     localIndices := default_additionalIndices defaultData |}.

(** [getMarketCondition(locale = 'IN')]; [None] is a call without the
    argument.  The assignments to [locale] are the first statements of
    the [try] block and cannot throw on a string, so the [catch] block
    sees the normalized locale. *)
Definition getMarketCondition (locale : option string)
  : M World MarketData :=
  let locale := default "IN"%string locale in
  let locale := normalizeLocale locale in
  try_catch (fetchMarketData locale) (ret (defaultMarketData locale)).

End Collaborators.

End Market.

(** ** The [/api/portfolio/optimize] route *)

Module Routes.

Import Js.
Local Open Scope Q_scope.

(** A value of a parsed JSON body; [JObject] stands for any object or
    array, [JUndefined] for an absent field. *)
Inductive JsValue : Set :=
| JUndefined
| JNull
| JBoolean (b : bool)
| JNumber (q : Q)
| JString (s : string)
| JObject.

(** [!!v]. *)
Definition truthy (v : JsValue) : bool :=
  match v with
  | JUndefined | JNull => false
  | JBoolean b => b
  | JNumber q => neq q 0
  | JString s => negb (String.eqb s "")
  | JObject => true
  end.

(** [names.includes(v)] for an array of string literals. *)
Definition includes (names : list string) (v : JsValue) : bool :=
  match v with
  | JString s => existsb (String.eqb s) names
  | _ => false
  end.

(** The keys of the tables of [optimizePortfolio]: what indexing
    [baseAllocations] and [marketAdjustments] by a string finds. *)
Definition asRiskProfile (v : JsValue) : option RiskProfile :=
  match v with
  | JString s =>
      if String.eqb s "conservative" then Some conservative
      else if String.eqb s "moderate" then Some moderate
      else if String.eqb s "aggressive" then Some aggressive
      else None
  | _ => None
  end.

Definition asMarketCondition (v : JsValue) : option MarketCondition :=
  match v with
  | JString s =>
      if String.eqb s "bearish" then Some bearish
      else if String.eqb s "neutral" then Some neutral
      else if String.eqb s "bullish" then Some bullish
      else None
  | _ => None
  end.

(** [req.body] as the JSON body parser leaves it: an object whose two
    fields of interest may hold any value or be absent. *)
Record OptimizeBody : Set := mkBody
  { riskProfile : JsValue; marketCondition : JsValue }.

Inductive Json : Set :=
| ErrorJson (error : string)
| PortfolioJson (portfolio : Prediction.OptimizedPortfolio).

Record Response : Set := mkResponse { status : Z; json : Json }.

(** [app.post("/api/portfolio/optimize", ...)].  Indexing a table of
    [optimizePortfolio] by a key it does not have yields [undefined],
    whose use throws into the [catch] block of the handler. *)
Definition optimizeRoute (body : OptimizeBody) : Response :=
  let riskProfile := riskProfile body in
  let marketCondition := marketCondition body in
  if negb (truthy riskProfile) || negb (truthy marketCondition) then
    {| status := 400;
       json := ErrorJson "Risk profile and market condition are required" |}
  else if negb (includes ["conservative"; "moderate"; "aggressive"]%string
                  riskProfile) then
    {| status := 400; json := ErrorJson "Invalid risk profile" |}
  else if negb (includes ["bearish"; "neutral"; "bullish"]%string
                  marketCondition) then
    {| status := 400; json := ErrorJson "Invalid market condition" |}
  else
    match asRiskProfile riskProfile, asMarketCondition marketCondition with
    | Some r, Some c =>
        {| status := 200;
           json := PortfolioJson (Prediction.optimizePortfolio r c) |}
    | _, _ =>
        {| status := 500; json := ErrorJson "Failed to optimize portfolio" |}
    end.

End Routes.

(** ** Vocabulary of the specification *)

Module Spec.

Local Open Scope Q_scope.

(** A number without fractional part. *)
Definition is_integer (x : Q) : Prop := inject_Z (Qfloor x) == x.

Definition total (l : list Q) : Q := fold_right Qplus 0 l.

(** Non-negative integer percentages that add up to exactly 100. *)
Definition valid_percentages (l : list Q) : Prop :=
  Forall (fun x => is_integer x /\ 0 <= x) l /\ total l == 100.

(** The four buckets of an allocation. *)
Definition buckets (a : Utils.AssetAllocation) : list Q :=
  [Utils.equity a; Utils.debt a; Utils.gold a; Utils.cash a].

(** Base plus delta, bucket by bucket, before any clamping. *)
Definition plus_delta (base delta : Utils.AssetAllocation)
  : Utils.AssetAllocation :=
  {| Utils.equity := Utils.equity base + Utils.equity delta;
     Utils.debt := Utils.debt base + Utils.debt delta;
     Utils.gold := Utils.gold base + Utils.gold delta;
     Utils.cash := Utils.cash base + Utils.cash delta |}.

(** The asset-class bounds of step 3. *)
Definition within_bounds (a : Utils.AssetAllocation) : Prop :=
  (10 <= Utils.equity a <= 90) /\ (10 <= Utils.debt a <= 70) /\
  (0 <= Utils.gold a <= 30) /\ (0 <= Utils.cash a <= 30).

(** A scenario in which neither the clamps, nor the scaling, nor the
    final adjustment change anything: the result is base plus delta. *)
Definition untouched
    (riskProfile : RiskProfile) (marketCondition : MarketCondition) : Prop :=
  let base := Utils.baseAllocations riskProfile in
  let delta := Utils.marketAdjustments marketCondition in
  Utils.applyAdjustments base delta = plus_delta base delta /\
  Utils.normalize (Utils.applyAdjustments base delta) = plus_delta base delta /\
  Js.neq (Utils.sumOf (Utils.normalize (Utils.applyAdjustments base delta)))
    100 = false.

(** *** The signal classifier *)

(** Volatility: above 25 bearish, below 15 bullish, otherwise neutral. *)
Definition volatility_rule (vix : Q) (s : MarketCondition) : Prop :=
  (25 < vix -> s = bearish) /\
  (vix < 15 -> s = bullish) /\
  (15 <= vix <= 25 -> s = neutral).

(** Trend: up or down counts when the confidence exceeds 0.4. *)
Definition trend_rule (t : Trend) (confidence : Q) (s : MarketCondition)
  : Prop :=
  (t = up -> 0.4 < confidence -> s = bullish) /\
  (t = down -> 0.4 < confidence -> s = bearish) /\
  (t = sideways \/ confidence <= 0.4 -> s = neutral).

(** Sentiment: a score beyond 1.5 either way counts when the confidence
    exceeds 0.4. *)
Definition sentiment_rule (score confidence : Q) (s : MarketCondition)
  : Prop :=
  (1.5 < score -> 0.4 < confidence -> s = bullish) /\
  (score < -1.5 -> 0.4 < confidence -> s = bearish) /\
  (-1.5 <= score <= 1.5 \/ confidence <= 0.4 -> s = neutral).

(** Recent change: above 1 bullish, below -1 bearish, otherwise neutral. *)
Definition change_rule (change : Q) (s : MarketCondition) : Prop :=
  (1 < change -> s = bullish) /\
  (change < -1 -> s = bearish) /\
  (-1 <= change <= 1 -> s = neutral).

(** The weighted sum of the votes cast for bucket [b]. *)
Definition weightedSum (b : MarketCondition)
    (votes : list (MarketCondition * Q)) : Q :=
  total (map snd (List.filter (fun v => MarketCondition_eqb (fst v) b) votes)).

Definition strictly_greatest (b : MarketCondition)
    (votes : list (MarketCondition * Q)) : Prop :=
  forall b' : MarketCondition,
    b' <> b -> weightedSum b' votes < weightedSum b votes.

(** The bucket with the strictly greatest weighted sum wins; when there is
    none, the outcome is neutral. *)
Definition winner (votes : list (MarketCondition * Q))
    (result : MarketCondition) : Prop :=
  (forall b, strictly_greatest b votes -> result = b) /\
  ((forall b, ~ strictly_greatest b votes) -> result = neutral).

(** The full model: four signals weighted 1.0, 1.5, 1.0 and 1.2. *)
Definition weighted_vote
    (vix change : Q) (t : Trend) (trendConfidence : Q)
    (score sentimentConfidence : Q) (result : MarketCondition) : Prop :=
  exists v p s c : MarketCondition,
    volatility_rule vix v /\
    trend_rule t trendConfidence p /\
    sentiment_rule score sentimentConfidence s /\
    change_rule change c /\
    winner [(v, 1.0); (p, 1.5); (s, 1.0); (c, 1.2)] result.

(** The votes of a list of signals. *)
Definition votes (l : list Market.Signal) : list (MarketCondition * Q) :=
  map (fun s => (Market.signal_value s, Market.weight s)) l.

(** The two-signal model as the specification words it: the thresholds of
    the full model, volatility decided first, and the recent change
    consulted only when the volatility is in the neutral band. *)
Definition two_signal_model (vix change : Q) : MarketCondition :=
  if Qlt_le_dec 25 vix then bearish
  else if Qlt_le_dec vix 15 then bullish
  else if Qlt_le_dec 1 change then bullish
  else if Qlt_le_dec change (-1) then bearish
  else neutral.

(** The two-signal table the code follows: outside the neutral band the
    volatility signal stands only when the recent change confirms it by
    more than 0.5, inside the band the recent change decides with the
    thresholds of the full model. *)
Definition fallback_rule (vix change : Q) (result : MarketCondition)
  : Prop :=
  (25 < vix -> change < -0.5 -> result = bearish) /\
  (25 < vix -> -0.5 <= change -> result = neutral) /\
  (vix < 15 -> 0.5 < change -> result = bullish) /\
  (vix < 15 -> change <= 0.5 -> result = neutral) /\
  (15 <= vix <= 25 -> 1 < change -> result = bullish) /\
  (15 <= vix <= 25 -> change < -1 -> result = bearish) /\
  (15 <= vix <= 25 -> -1 <= change <= 1 -> result = neutral).

(** *** Locales *)

Definition supported_locales : list string :=
  ["US"; "IN"; "UK"; "SG"]%string.

(** *** Requests to optimize a portfolio *)

Definition valid_riskProfile (v : Routes.JsValue) : Prop :=
  v = Routes.JString "conservative" \/ v = Routes.JString "moderate" \/
  v = Routes.JString "aggressive".

Definition valid_marketCondition (v : Routes.JsValue) : Prop :=
  v = Routes.JString "bearish" \/ v = Routes.JString "neutral" \/
  v = Routes.JString "bullish".

End Spec.

(** ** Sample collaborators

    A world that counts the calls made to the data provider, sources that
    answer with a fixed value or throw, and upper-casing of ASCII letters. *)

Module Sample.

Import Async.

Definition World : Set := nat.

Definition answers {A : Type} (a : A) : M World A :=
  fun calls => (Some a, S calls).

Definition unavailable {A : Type} : M World A :=
  fun calls => (None, S calls).

Definition upper_ascii (c : ascii) : ascii :=
  let n := nat_of_ascii c in
  if (97 <=? n)%nat && (n <=? 122)%nat then ascii_of_nat (n - 32) else c.

Fixpoint toUpperCase (s : string) : string :=
  match s with
  | EmptyString => EmptyString
  | String c rest => String (upper_ascii c) (toUpperCase rest)
  end.

Definition risingPrediction : Prediction.MarketPrediction :=
  {| Prediction.prediction := [101; 102; 103; 104; 105]%Q;
     Prediction.confidence := 0.8%Q;
     Prediction.trend := up |}.

Definition calmSentiment : Prediction.SentimentAnalysis :=
  {| Prediction.score := 0%Q;
     Prediction.emotion := Prediction.neutral_emotion;
     Prediction.sentiment_confidence := 0.1%Q |}.

Definition flatQuote : Market.Quote :=
  {| Market.regularMarketPrice := Some 20%Q;
     Market.regularMarketChangePercent := Some 0%Q |}.

End Sample.

(** ** The two optimizers over the store of objects

    [Utils.calculateOptimalAllocation] and [Prediction.optimizePortfolio]
    give the values the two functions compute.  Here the same two bodies are
    followed statement by statement over the store of JavaScript objects:
    an object literal or an array allocates a new object, a property access
    reads the object an address names, an assignment to a property writes it.
    The store a call starts from is arbitrary: it stands for everything that
    exists outside the call (module-level objects, the results of earlier
    calls, objects of other callers).

    A run that would raise a [TypeError], or whose arithmetic would leave
    the numbers (an operand that is not a number), has no result.  The
    built-ins [Math.max], [Math.min], [Math.round], [Object.values],
    [Object.entries], [map] and [reduce] are the ones of the language.
    Inside one expression the objects are allocated as their values become
    available, a nested literal before the literal that holds it and the
    results of a callback before the array of [map]; the language allocates
    the holder first, which a program cannot tell apart, since it cannot
    observe an address. *)

Module Store.

Import Js.
Local Open Scope Q_scope.

Definition loc := nat.

Inductive Value : Set :=
| VUndefined
| VNum (q : Q)
| VStr (s : string)
| VRef (l : loc).

(** An object with its properties in insertion order, or an array. *)
Inductive Obj : Set :=
| Fields (fields : list (string * Value))
| Items (items : list Value).

Definition Heap := list Obj.

Definition Run (A : Type) : Type := Heap -> option (A * Heap).

Definition ret {A : Type} (a : A) : Run A :=
  fun heap => Some (a, heap).

Definition fail {A : Type} : Run A :=
  fun _ => None.

Definition bind {A B : Type} (c : Run A) (k : A -> Run B) : Run B :=
  fun heap =>
    match c heap with
    | Some (a, heap') => k a heap'
    | None => None
    end.

Notation "x <~ c ;; k" := (bind c (fun x => k))
  (at level 100, c at next level, right associativity).

(** A new object takes the next free address. *)
Definition alloc (o : Obj) : Run loc :=
  fun heap => Some (length heap, heap ++ [o]).

Definition load (l : loc) : Run Obj :=
  fun heap =>
    match heap !! l with
    | Some o => Some (o, heap)
    | None => None
    end.

Definition store (l : loc) (o : Obj) : Run unit :=
  fun heap =>
    match heap !! l with
    | Some _ => Some (tt, <[l:=o]> heap)
    | None => None
    end.

Fixpoint lookupField (key : string) (fields : list (string * Value))
  : Value :=
  match fields with
  | [] => VUndefined
  | (k, v) :: rest => if String.eqb k key then v else lookupField key rest
  end.

Fixpoint hasField (key : string) (fields : list (string * Value)) : bool :=
  match fields with
  | [] => false
  | (k, _) :: rest => String.eqb k key || hasField key rest
  end.

Fixpoint replaceField (key : string) (v : Value)
    (fields : list (string * Value)) : list (string * Value) :=
  match fields with
  | [] => []
  | (k, old) :: rest =>
      if String.eqb k key then (k, v) :: rest
      else (k, old) :: replaceField key v rest
  end.

(** [{ ... }]. *)
Definition newObject (fields : list (string * Value)) : Run loc :=
  alloc (Fields fields).

(** [[ ... ]]. *)
Definition newArray (items : list Value) : Run loc :=
  alloc (Items items).

Definition loadFields (l : loc) : Run (list (string * Value)) :=
  o <~ load l ;;
  match o with
  | Fields fields => ret fields
  | Items _ => fail
  end.

Definition loadItems (l : loc) : Run (list Value) :=
  o <~ load l ;;
  match o with
  | Items items => ret items
  | Fields _ => fail
  end.

(** [object[key]] and [object.key]. *)
Definition getProperty (l : loc) (key : string) : Run Value :=
  fields <~ loadFields l ;;
  ret (lookupField key fields).

(** [object.key = v]. *)
Definition setProperty (l : loc) (key : string) (v : Value) : Run unit :=
  fields <~ loadFields l ;;
  store l (Fields (if hasField key fields
                   then replaceField key v fields
                   else fields ++ [(key, v)])).

(** A value used as an operand of arithmetic. *)
Definition asNumber (v : Value) : Run Q :=
  match v with
  | VNum q => ret q
  | _ => fail
  end.

(** A value whose property is read. *)
Definition asObject (v : Value) : Run loc :=
  match v with
  | VRef l => ret l
  | _ => fail
  end.

(** A value used as a property key. *)
Definition asKey (v : Value) : Run string :=
  match v with
  | VStr s => ret s
  | _ => fail
  end.

Definition getNumber (l : loc) (key : string) : Run Q :=
  v <~ getProperty l key ;; asNumber v.

Definition getObject (l : loc) (key : string) : Run loc :=
  v <~ getProperty l key ;; asObject v.

Definition getString (l : loc) (key : string) : Run string :=
  v <~ getProperty l key ;; asKey v.

Fixpoint mapM {A B : Type} (f : A -> Run B) (xs : list A) : Run (list B) :=
  match xs with
  | [] => ret []
  | x :: rest =>
      y <~ f x ;;
      ys <~ mapM f rest ;;
      ret (y :: ys)
  end.

Fixpoint foldM {A B : Type} (f : B -> A -> Run B) (xs : list A) (b : B)
  : Run B :=
  match xs with
  | [] => ret b
  | x :: rest => b' <~ f b x ;; foldM f rest b'
  end.

(** [Object.values(object)]: a new array of the property values. *)
Definition Object_values (l : loc) : Run loc :=
  fields <~ loadFields l ;;
  newArray (map snd fields).

(** [Object.entries(object)]: a new array of new [[key, value]] arrays. *)
Definition Object_entries (l : loc) : Run loc :=
  fields <~ loadFields l ;;
  entries <~ mapM (fun '(key, v) => newArray [VStr key; v]) fields ;;
  newArray (map VRef entries).

(** [array.map(callback)]: a new array of the callback's results. *)
Definition Array_map (array : loc) (callback : Value -> Run Value)
  : Run loc :=
  items <~ loadItems array ;;
  results <~ mapM callback items ;;
  newArray results.

(** [array.reduce(callback, initial)]. *)
Definition Array_reduce {B : Type} (array : loc)
    (callback : B -> Value -> Run B) (initial : B) : Run B :=
  items <~ loadItems array ;;
  foldM callback items initial.

(** [v || 0] as an operand of arithmetic. *)
Definition numberOrZero (v : Value) : Run Q :=
  match v with
  | VUndefined => ret 0
  | VNum q => ret (or_else (Some q) 0)
  | VStr _ | VRef _ => fail
  end.

(** [object[key] || 0]. *)
Definition getNumberOrZero (l : loc) (key : string) : Run Q :=
  v <~ getProperty l key ;; numberOrZero v.

Definition riskProfileKey (riskProfile : RiskProfile) : string :=
  match riskProfile with
  | conservative => "conservative"
  | moderate => "moderate"
  | aggressive => "aggressive"
  end.

Definition marketConditionKey (marketCondition : MarketCondition) : string :=
  match marketCondition with
  | bullish => "bullish"
  | bearish => "bearish"
  | neutral => "neutral"
  end.

(** A literal [{ equity: e, debt: d, gold: g, cash: c }]. *)
Definition allocationLiteral (e d g c : Q) : list (string * Value) :=
  [ ("equity"%string, VNum e); ("debt"%string, VNum d);
    ("gold"%string, VNum g); ("cash"%string, VNum c) ].

(** [calculateOptimalAllocation] of [utils.ts]. *)
Definition calculateOptimalAllocation
    (riskProfile : RiskProfile) (marketCondition : MarketCondition)
  : Run loc :=
  conservativeRow <~ newObject (allocationLiteral 30 45 15 10) ;;
  moderateRow <~ newObject (allocationLiteral 50 30 12 8) ;;
  aggressiveRow <~ newObject (allocationLiteral 70 15 10 5) ;;
  baseAllocations <~
    newObject [ ("conservative"%string, VRef conservativeRow);
                ("moderate"%string, VRef moderateRow);
                ("aggressive"%string, VRef aggressiveRow) ] ;;
  bullishRow <~ newObject (allocationLiteral 10 (-5) (-3) (-2)) ;;
  bearishRow <~ newObject (allocationLiteral (-15) 8 5 2) ;;
  neutralRow <~ newObject (allocationLiteral 0 0 0 0) ;;
  marketAdjustments <~
    newObject [ ("bullish"%string, VRef bullishRow);
                ("bearish"%string, VRef bearishRow);
                ("neutral"%string, VRef neutralRow) ] ;;
  base <~ getObject baseAllocations (riskProfileKey riskProfile) ;;
  adjustment <~ getObject marketAdjustments
                  (marketConditionKey marketCondition) ;;
  base_equity <~ getNumber base "equity" ;;
  adjustment_equity <~ getNumber adjustment "equity" ;;
  base_debt <~ getNumber base "debt" ;;
  adjustment_debt <~ getNumber adjustment "debt" ;;
  base_gold <~ getNumber base "gold" ;;
  adjustment_gold <~ getNumber adjustment "gold" ;;
  base_cash <~ getNumber base "cash" ;;
  adjustment_cash <~ getNumber adjustment "cash" ;;
  adjusted <~
    newObject
      (allocationLiteral
         (Math_max 10 (Math_min 90 (base_equity + adjustment_equity)))
         (Math_max 10 (Math_min 70 (base_debt + adjustment_debt)))
         (Math_max 0 (Math_min 30 (base_gold + adjustment_gold)))
         (Math_max 0 (Math_min 30 (base_cash + adjustment_cash)))) ;;
  equity <~ getNumber adjusted "equity" ;;
  debt <~ getNumber adjusted "debt" ;;
  gold <~ getNumber adjusted "gold" ;;
  cash <~ getNumber adjusted "cash" ;;
  let total := equity + debt + gold + cash in
  let factor := 100 / total in
  equity <~ getNumber adjusted "equity" ;;
  debt <~ getNumber adjusted "debt" ;;
  gold <~ getNumber adjusted "gold" ;;
  cash <~ getNumber adjusted "cash" ;;
  adjusted <~
    newObject
      (allocationLiteral
         (Math_round (equity * factor)) (Math_round (debt * factor))
         (Math_round (gold * factor)) (Math_round (cash * factor))) ;;
  equity <~ getNumber adjusted "equity" ;;
  debt <~ getNumber adjusted "debt" ;;
  gold <~ getNumber adjusted "gold" ;;
  cash <~ getNumber adjusted "cash" ;;
  let finalTotal := equity + debt + gold + cash in
  _ <~ (if neq finalTotal 100
        then equity <~ getNumber adjusted "equity" ;;
             setProperty adjusted "equity"
               (VNum (equity + (100 - finalTotal)))
        else ret tt) ;;
  ret adjusted.

(** A literal [{ stocks: s, bonds: b, cash: c, alternatives: a }]. *)
Definition bucketsLiteral (s b c a : Q) : list (string * Value) :=
  [ ("stocks"%string, VNum s); ("bonds"%string, VNum b);
    ("cash"%string, VNum c); ("alternatives"%string, VNum a) ].

(** [allocation.reduce((total, item) => total + (w * item.percentage / 100), 0)]
    with [w = table[item.category] || 0]. *)
Definition weighted (table allocation : loc) : Run Q :=
  Array_reduce allocation
    (fun total item =>
       item <~ asObject item ;;
       category <~ getString item "category" ;;
       weight <~ getNumberOrZero table category ;;
       percentage <~ getNumber item "percentage" ;;
       ret (total + (weight * percentage / 100)))
    0.

(** [optimizePortfolio] of [prediction.ts]. *)
Definition optimizePortfolio
    (riskProfile : RiskProfile) (marketCondition : MarketCondition)
  : Run loc :=
  conservativeRow <~ newObject (bucketsLiteral 30 45 15 10) ;;
  moderateRow <~ newObject (bucketsLiteral 50 30 10 10) ;;
  aggressiveRow <~ newObject (bucketsLiteral 70 15 5 10) ;;
  baseAllocations <~
    newObject [ ("conservative"%string, VRef conservativeRow);
                ("moderate"%string, VRef moderateRow);
                ("aggressive"%string, VRef aggressiveRow) ] ;;
  bearishRow <~ newObject (bucketsLiteral (-10) 5 5 0) ;;
  neutralRow <~ newObject (bucketsLiteral 0 0 0 0) ;;
  bullishRow <~ newObject (bucketsLiteral 10 (-5) (-5) 0) ;;
  marketAdjustments <~
    newObject [ ("bearish"%string, VRef bearishRow);
                ("neutral"%string, VRef neutralRow);
                ("bullish"%string, VRef bullishRow) ] ;;
  base <~ getObject baseAllocations (riskProfileKey riskProfile) ;;
  adjustment <~ getObject marketAdjustments
                  (marketConditionKey marketCondition) ;;
  base_stocks <~ getNumber base "stocks" ;;
  adjustment_stocks <~ getNumber adjustment "stocks" ;;
  base_bonds <~ getNumber base "bonds" ;;
  adjustment_bonds <~ getNumber adjustment "bonds" ;;
  base_cash <~ getNumber base "cash" ;;
  adjustment_cash <~ getNumber adjustment "cash" ;;
  base_alternatives <~ getNumber base "alternatives" ;;
  adjustment_alternatives <~ getNumber adjustment "alternatives" ;;
  optimizedAllocation <~
    newObject
      (bucketsLiteral
         (Math_max 0 (Math_min 100 (base_stocks + adjustment_stocks)))
         (Math_max 0 (Math_min 100 (base_bonds + adjustment_bonds)))
         (Math_max 0 (Math_min 100 (base_cash + adjustment_cash)))
         (Math_max 0
            (Math_min 100 (base_alternatives + adjustment_alternatives)))) ;;
  values <~ Object_values optimizedAllocation ;;
  total <~ Array_reduce values
             (fun sum val => val <~ asNumber val ;; ret (sum + val)) 0 ;;
  entries <~ Object_entries optimizedAllocation ;;
  allocation <~
    Array_map entries
      (fun entry =>
         entry <~ asObject entry ;;
         pair <~ loadItems entry ;;
         let category := nth 0 pair VUndefined in
         percentage <~ asNumber (nth 1 pair VUndefined) ;;
         item <~ newObject
                   [ ("category"%string, category);
                     ("percentage"%string,
                      VNum (Math_round ((percentage / total) * 100))) ] ;;
         ret (VRef item)) ;;
  expectedReturns <~ newObject (bucketsLiteral 10 5 2 8) ;;
  riskLevels <~ newObject (bucketsLiteral 16 6 1 12) ;;
  expectedReturn <~ weighted expectedReturns allocation ;;
  riskLevel <~ weighted riskLevels allocation ;;
  newObject [ ("allocation"%string, VRef allocation);
              ("expectedReturn"%string, VNum expectedReturn);
              ("riskLevel"%string, VNum riskLevel) ].

(** What a caller reads from the object [calculateOptimalAllocation]
    returns. *)
Definition readAllocation (l : loc) : Run Utils.AssetAllocation :=
  equity <~ getNumber l "equity" ;;
  debt <~ getNumber l "debt" ;;
  gold <~ getNumber l "gold" ;;
  cash <~ getNumber l "cash" ;;
  ret {| Utils.equity := equity; Utils.debt := debt;
         Utils.gold := gold; Utils.cash := cash |}.

(** What a caller reads from the object [optimizePortfolio] returns. *)
Definition readPortfolio (l : loc) : Run Prediction.OptimizedPortfolio :=
  allocation <~ getObject l "allocation" ;;
  items <~ loadItems allocation ;;
  shares <~
    mapM (fun item =>
            item <~ asObject item ;;
            category <~ getString item "category" ;;
            percentage <~ getNumber item "percentage" ;;
            ret {| Prediction.category := category;
                   Prediction.percentage := percentage |})
         items ;;
  expectedReturn <~ getNumber l "expectedReturn" ;;
  riskLevel <~ getNumber l "riskLevel" ;;
  ret {| Prediction.allocation := shares;
         Prediction.expectedReturn := expectedReturn;
         Prediction.riskLevel := riskLevel |}.

(** What the caller of [run] observes when it reads the result with
    [read], starting from the store [heap]. *)
Definition outcome {A : Type} (run : Run loc) (read : loc -> Run A)
    (heap : Heap) : option A :=
  match (l <~ run ;; read l) heap with
  | Some (a, _) => Some a
  | None => None
  end.

(** [run] neither reads nor writes what exists outside the call: from every
    store it returns, it leaves every object of that store in place and
    unchanged, the object it returns is a new one, and what the caller reads
    from it is [result] whatever the objects outside the call hold, then or
    later. *)
Definition isolated {A : Type} (run : Run loc) (read : loc -> Run A)
    (result : A) : Prop :=
  forall heap : Heap,
  exists (l : loc) (created : list Obj),
    run heap = Some (l, heap ++ created) /\
    (length heap <= l)%nat /\
    forall outside : Heap,
      length outside = length heap ->
      exists heap' : Heap,
        read l (outside ++ created) = Some (result, heap').

End Store.

(** ** The scaling step in machine arithmetic

    On the tables of the code doubles and rationals agree.  On other tables
    the sum [total], the quotient [100 / total] and the four products
    [bucket * factor] are each rounded to a double, and a product that is
    exactly halfway between two integers in the rationals may fall on either
    side of it in the machine.  Every finite double is a rational, so the
    four products as the machine has them are an allocation [scaled], and
    [scaling] asks of it only to be within a hundredth of the exact
    products: with buckets of at most 90 and a factor of at most 5, the
    doubles are within 1e-12 of them.  [Math.round], the sum of the four
    rounded buckets and the final adjustment are exact on doubles, as they
    are on rationals. *)

Module Doubles.

Import Js.
Local Open Scope Q_scope.

(** The four products of "Normalize to ensure sum is 100%", exactly. *)
Definition exactly (adjusted : Utils.AssetAllocation)
  : Utils.AssetAllocation :=
  let total := Utils.sumOf adjusted in
  let factor := 100 / total in
  {| Utils.equity := Utils.equity adjusted * factor;
     Utils.debt := Utils.debt adjusted * factor;
     Utils.gold := Utils.gold adjusted * factor;
     Utils.cash := Utils.cash adjusted * factor |}.

(** [Math.round] of each product. *)
Definition round (scaled : Utils.AssetAllocation) : Utils.AssetAllocation :=
  {| Utils.equity := Math_round (Utils.equity scaled);
     Utils.debt := Math_round (Utils.debt scaled);
     Utils.gold := Math_round (Utils.gold scaled);
     Utils.cash := Math_round (Utils.cash scaled) |}.




End Doubles.

(** ** The portfolio model ([model.ts] of the portfolio component) *)

Module Model.

Import Js.
Local Open Scope Q_scope.

Inductive AssetType : Set := equity | debt | gold | cash.

Inductive Risk : Set := low | medium | high.

Record Asset : Set := mkAsset
  { id : string;
    name : string;
    type : AssetType;
    allocation : Q;
    expectedReturn : Q;
    risk : Risk }.

Record PortfolioModel : Set := mkModel
  { userId : Z;
    riskProfile : RiskProfile;
    baseAllocation : Utils.AssetAllocation;
    currentAllocation : Utils.AssetAllocation;
    assets : list Asset }.

Definition DEFAULT_ALLOCATIONS (riskProfile : RiskProfile)
  : Utils.AssetAllocation :=
  match riskProfile with
  | conservative =>
      {| Utils.equity := 30; Utils.debt := 45;
         Utils.gold := 15; Utils.cash := 10 |}
  | moderate =>
      {| Utils.equity := 50; Utils.debt := 30;
         Utils.gold := 12; Utils.cash := 8 |}
  | aggressive =>
      {| Utils.equity := 70; Utils.debt := 15;
         Utils.gold := 10; Utils.cash := 5 |}
  end.

(** [{ ...asset, allocation }]. *)
Definition withAllocation (asset : Asset) (allocation : Q) : Asset :=
  {| id := id asset;
     name := name asset;
     type := type asset;
     allocation := allocation;
     expectedReturn := expectedReturn asset;
     risk := risk asset |}.

(** The body of the [map] that [optimizePortfolio], [rebalancePortfolio]
    and [changeRiskProfile] each apply to the assets: an asset takes the
    percentage of the bucket of its type. *)
Definition matchAllocation (target : Utils.AssetAllocation) (asset : Asset)
  : Asset :=
  match type asset with
  | equity => withAllocation asset (Utils.equity target)
  | debt => withAllocation asset (Utils.debt target)
  | gold => withAllocation asset (Utils.gold target)
  | cash => withAllocation asset (Utils.cash target)
  end.

Definition optimizePortfolio
    (model : PortfolioModel) (marketCondition : MarketCondition)
  : PortfolioModel :=
  let optimizedAllocation :=
    Utils.calculateOptimalAllocation (riskProfile model) marketCondition in
  let newBaseAllocation := optimizedAllocation in
  let newAssets := map (matchAllocation newBaseAllocation) (assets model) in
  {| userId := userId model;
     riskProfile := riskProfile model;
     baseAllocation := newBaseAllocation;
     currentAllocation := newBaseAllocation;
     assets := newAssets |}.

Definition rebalancePortfolio
    (model : PortfolioModel) (targetAllocation : Utils.AssetAllocation)
  : PortfolioModel :=
  let newCurrentAllocation := targetAllocation in
  let newAssets := map (matchAllocation newCurrentAllocation) (assets model) in
  {| userId := userId model;
     riskProfile := riskProfile model;
     baseAllocation := baseAllocation model;
     currentAllocation := newCurrentAllocation;
     assets := newAssets |}.

Definition addAsset (model : PortfolioModel) (asset : Asset)
  : PortfolioModel :=
  {| userId := userId model;
     riskProfile := riskProfile model;
     baseAllocation := baseAllocation model;
     currentAllocation := currentAllocation model;
     assets := assets model ++ [asset] |}.

Definition removeAsset (model : PortfolioModel) (assetId : string)
  : PortfolioModel :=
  {| userId := userId model;
     riskProfile := riskProfile model;
     baseAllocation := baseAllocation model;
     currentAllocation := currentAllocation model;
     assets :=
       List.filter (fun asset => negb (String.eqb (id asset) assetId))
         (assets model) |}.

(** The reducer of [updateAssetAllocation]: the bucket of the asset's type
    is overwritten with the asset's percentage. *)
Definition recordAllocation (acc : Utils.AssetAllocation) (asset : Asset)
  : Utils.AssetAllocation :=
  match type asset with
  | equity =>
      {| Utils.equity := allocation asset; Utils.debt := Utils.debt acc;
         Utils.gold := Utils.gold acc; Utils.cash := Utils.cash acc |}
  | debt =>
      {| Utils.equity := Utils.equity acc; Utils.debt := allocation asset;
         Utils.gold := Utils.gold acc; Utils.cash := Utils.cash acc |}
  | gold =>
      {| Utils.equity := Utils.equity acc; Utils.debt := Utils.debt acc;
         Utils.gold := allocation asset; Utils.cash := Utils.cash acc |}
  | cash =>
      {| Utils.equity := Utils.equity acc; Utils.debt := Utils.debt acc;
         Utils.gold := Utils.gold acc; Utils.cash := allocation asset |}
  end.

Definition updateAssetAllocation
    (model : PortfolioModel) (assetId : string) (allocation : Q)
  : PortfolioModel :=
  let newAssets :=
    map (fun asset =>
           if String.eqb (id asset) assetId
           then withAllocation asset allocation
           else asset)
        (assets model) in
  let newCurrentAllocation :=
    fold_left recordAllocation newAssets
      {| Utils.equity := 0; Utils.debt := 0;
         Utils.gold := 0; Utils.cash := 0 |} in
  {| userId := userId model;
     riskProfile := riskProfile model;
     baseAllocation := baseAllocation model;
     currentAllocation := newCurrentAllocation;
     assets := newAssets |}.

Definition changeRiskProfile
    (model : PortfolioModel) (riskProfile : RiskProfile) : PortfolioModel :=
  let newBaseAllocation := DEFAULT_ALLOCATIONS riskProfile in
  let newAssets := map (matchAllocation newBaseAllocation) (assets model) in
  {| userId := userId model;
     riskProfile := riskProfile;
     baseAllocation := newBaseAllocation;
     currentAllocation := newBaseAllocation;
     assets := newAssets |}.

(** The optional third argument of [createPortfolioModel]. *)
Record Options : Set := mkOptions
  { option_baseAllocation : option Utils.AssetAllocation;
    option_currentAllocation : option Utils.AssetAllocation;
    option_assets : option (list Asset) }.

Section Create.

Context {World : Type}.

(** [generateId()] of [utils.ts]: a fresh identifier drawn from
    [Math.random]; it cannot throw. *)
Variable generateId : World -> string * World.

(** The four assets of a model created without assets; the identifiers are
    drawn in the order of the array literal. *)
Definition defaultAssets (baseAllocation : Utils.AssetAllocation) (w : World)
  : list Asset * World :=
  let '(id1, w1) := generateId w in
  let '(id2, w2) := generateId w1 in
  let '(id3, w3) := generateId w2 in
  let '(id4, w4) := generateId w3 in
  ([ {| id := id1; name := "Core Equity ETF"; type := equity;
        allocation := Utils.equity baseAllocation;
        expectedReturn := 10; risk := medium |};
     {| id := id2; name := "Fixed Income Fund"; type := debt;
        allocation := Utils.debt baseAllocation;
        expectedReturn := 5; risk := low |};
     {| id := id3; name := "Gold ETF"; type := gold;
        allocation := Utils.gold baseAllocation;
        expectedReturn := 6; risk := medium |};
     {| id := id4; name := "Money Market Fund"; type := cash;
        allocation := Utils.cash baseAllocation;
        expectedReturn := 3; risk := low |} ],
   w4).

(** [createPortfolioModel(userId, riskProfile = 'moderate', options?)];
    [None] is an argument left out.  An object or an array is always
    truthy, so each [||] falls through exactly when the option is
    absent. *)
Definition createPortfolioModel
    (userId : Z) (riskProfile : option RiskProfile) (options : option Options)
    (w : World) : PortfolioModel * World :=
  let riskProfile := default moderate riskProfile in
  let baseAllocation :=
    default (DEFAULT_ALLOCATIONS riskProfile)
      (mbind option_baseAllocation options) in
  let currentAllocation :=
    default baseAllocation (mbind option_currentAllocation options) in
  let '(assets, w') :=
    match mbind option_assets options with
    | Some assets => (assets, w)
    | None => defaultAssets baseAllocation w
    end in
  ({| userId := userId;
      riskProfile := riskProfile;
      baseAllocation := baseAllocation;
      currentAllocation := currentAllocation;
      assets := assets |},
   w').

End Create.

(** *** Vocabulary *)

(** The percentage an allocation gives to the bucket of an asset type. *)
Definition bucket (a : Utils.AssetAllocation) (t : AssetType) : Q :=
  match t with
  | equity => Utils.equity a
  | debt => Utils.debt a
  | gold => Utils.gold a
  | cash => Utils.cash a
  end.

(** Every asset carries the percentage of the bucket of its type. *)
Definition in_step (a : Utils.AssetAllocation) (l : list Asset) : Prop :=
  Forall (fun asset => allocation asset = bucket a (type asset)) l.

(** The assets of one type. *)
Definition ofType (t : AssetType) (l : list Asset) : list Asset :=
  List.filter
    (fun asset =>
       match type asset, t with
       | equity, equity | debt, debt | gold, gold | cash, cash => true
       | _, _ => false
       end) l.

End Model.

(** ** The portfolio protocol ([protocol.ts])

    The protocol object closes over [model], [context] and [listeners].  A
    listener is a function known by its identity only; calling it is an
    event, recorded with the state it was handed.  Listeners are taken to
    return normally and not to call back into the protocol while they are
    being notified. *)

Module Protocol.

Record Goal : Set := mkGoal { goal_type : string; timeframe : Q }.

Record PortfolioContext : Set := mkContext
  { marketCondition : MarketCondition;
    userAge : option Q;
    userGoals : option (list Goal) }.

Definition createDefaultContext : PortfolioContext :=
  {| marketCondition := neutral; userAge := None; userGoals := None |}.

Inductive PortfolioAction : Set :=
| OPTIMIZE_PORTFOLIO (marketCondition : MarketCondition)
| REBALANCE_PORTFOLIO (targetAllocation : Utils.AssetAllocation)
| ADD_ASSET (asset : Model.Asset)
| REMOVE_ASSET (assetId : string)
| UPDATE_ASSET_ALLOCATION (assetId : string) (allocation : Q)
| CHANGE_RISK_PROFILE (riskProfile : RiskProfile).

(** What [getState] returns and a listener receives. *)
Record State : Set := mkState
  { state_model : Model.PortfolioModel; state_context : PortfolioContext }.

(** The identity of a listener function. *)
Definition Listener : Set := nat.

(** The variables the protocol closes over. *)
Record Protocol : Set := mkProtocol
  { model : Model.PortfolioModel;
    context : PortfolioContext;
    listeners : list Listener }.

(** A call [listener(state)]. *)
Definition Call : Set := (Listener * State)%type.

Definition createPortfolioProtocol
    (initialModel : Model.PortfolioModel) (initialContext : PortfolioContext)
  : Protocol :=
  {| model := initialModel; context := initialContext; listeners := [] |}.

Definition getState (p : Protocol) : State :=
  {| state_model := model p; state_context := context p |}.

Definition notifyListeners (p : Protocol) : list Call :=
  let state := getState p in
  map (fun listener => (listener, state)) (listeners p).

(** The [switch] of [dispatch].  Its [default] branch answers action types
    outside the union [PortfolioAction], which a typed caller cannot
    build. *)
Definition reduce (p : Protocol) (action : PortfolioAction) : Protocol :=
  match action with
  | OPTIMIZE_PORTFOLIO marketCondition =>
      {| model := Model.optimizePortfolio (model p) marketCondition;
         context :=
           {| marketCondition := marketCondition;
              userAge := userAge (context p);
              userGoals := userGoals (context p) |};
         listeners := listeners p |}
  | REBALANCE_PORTFOLIO targetAllocation =>
      {| model := Model.rebalancePortfolio (model p) targetAllocation;
         context := context p;
         listeners := listeners p |}
  | ADD_ASSET asset =>
      {| model := Model.addAsset (model p) asset;
         context := context p;
         listeners := listeners p |}
  | REMOVE_ASSET assetId =>
      {| model := Model.removeAsset (model p) assetId;
         context := context p;
         listeners := listeners p |}
  | UPDATE_ASSET_ALLOCATION assetId allocation =>
      {| model := Model.updateAssetAllocation (model p) assetId allocation;
         context := context p;
         listeners := listeners p |}
  | CHANGE_RISK_PROFILE riskProfile =>
      {| model := Model.changeRiskProfile (model p) riskProfile;
         context := context p;
         listeners := listeners p |}
  end.

(** [dispatch(action)]: the new protocol and the calls made to the
    listeners. *)
Definition dispatch (p : Protocol) (action : PortfolioAction)
  : Protocol * list Call :=
  let p' := reduce p action in
  (p', notifyListeners p').

(** [subscribe(listener)]: the listener is appended and called at once with
    the current state. *)
Definition subscribe (p : Protocol) (listener : Listener)
  : Protocol * list Call :=
  let p' :=
    {| model := model p; context := context p;
       listeners := listeners p ++ [listener] |} in
  (p', [(listener, getState p')]).

(** [listeners.indexOf(listener)] followed by [splice(index, 1)] when the
    index is not -1: the first occurrence is removed. *)
Fixpoint removeFirst (listener : Listener) (l : list Listener)
  : list Listener :=
  match l with
  | [] => []
  | x :: rest =>
      if Nat.eqb x listener then rest else x :: removeFirst listener rest
  end.

(** The function [subscribe(listener)] returns. *)
Definition unsubscribe (p : Protocol) (listener : Listener) : Protocol :=
  {| model := model p; context := context p;
     listeners := removeFirst listener (listeners p) |}.

(** *** Vocabulary *)

(** A sequence of [dispatch] calls, with all the calls made to listeners. *)
Fixpoint dispatchAll (p : Protocol) (actions : list PortfolioAction)
  : Protocol * list Call :=
  match actions with
  | [] => (p, [])
  | action :: rest =>
      let '(p1, calls1) := dispatch p action in
      let '(p2, calls2) := dispatchAll p1 rest in
      (p2, calls1 ++ calls2)
  end.

(** The states the protocol goes through, one after each action. *)
Fixpoint statesAfter (p : Protocol) (actions : list PortfolioAction)
  : list State :=
  match actions with
  | [] => []
  | action :: rest =>
      getState (reduce p action) :: statesAfter (reduce p action) rest
  end.

(** The states a listener was called with, in order. *)
Definition received (listener : Listener) (calls : list Call) : list State :=
  map snd (List.filter (fun call => Nat.eqb (fst call) listener) calls).

(** The market condition of the last [OPTIMIZE_PORTFOLIO] among the
    actions, or [initial] when there is none. *)
Fixpoint lastOptimized (initial : MarketCondition)
    (actions : list PortfolioAction) : MarketCondition :=
  match actions with
  | [] => initial
  | OPTIMIZE_PORTFOLIO marketCondition :: rest =>
      lastOptimized marketCondition rest
  | _ :: rest => lastOptimized initial rest
  end.

End Protocol.

(** ** The trend and sentiment sources of [server/services/prediction.ts]

    [predictMarketMovement], [generateSimplePrediction] and
    [analyzeNewsSentiment], over the services they call: the data provider,
    the regression and sentiment libraries and [Math.random]. *)

Module Sources.

Import Js Async.
Local Open Scope Q_scope.

(** What [yahooFinance.quoteSummary] resolves to, as far as it is read. *)
Record SummaryProfile : Set := mkProfile
  { longBusinessSummary : option string }.

Record StockData : Set := mkStockData
  { summaryProfile : option SummaryProfile }.

(** The services; each call may throw, except [Math.random].
    [historical] yields the closing prices of the rows, or [None] for
    [null]; a regression is an opaque object of the library.
    [regression_score] is the score of the library where it is a number;
    where it is not one, the confidence of the regression path is not a
    number either, which is not represented, and no property below bounds
    the confidence of that path. *)
Record Services (World : Type) : Type := mkServices
  { historical : string -> M World (option (list Q));
    quote : string -> M World Market.Quote;
    quoteSummary : string -> M World StockData;
    Math_random : World -> Q * World;
    Regression : Type;
    PolynomialRegression :
      list (list Q) -> list Q -> Z -> M World Regression;
    regression_predict : Regression -> list Q -> M World Q;
    regression_score : Regression -> list (list Q) -> list Q -> M World Q;
    sentimentAnalyzer_analyze : string -> M World Q }.

Arguments historical {World}.
Arguments quote {World}.
Arguments quoteSummary {World}.
Arguments Math_random {World}.
Arguments Regression {World}.
Arguments PolynomialRegression {World}.
Arguments regression_predict {World}.
Arguments regression_score {World}.
Arguments sentimentAnalyzer_analyze {World}.

(** The trend read off [((predicted - current) / current) * 100] against
    [threshold] and its opposite.  The division by a current price of 0 is
    written out as IEEE arithmetic has it: the quotient is plus or minus
    infinity with the sign of [predicted], and not a number, which compares
    false both ways, when [predicted] is 0 too.  [predicted] is [None] when
    there is no prediction to read; the change is not a number then. *)
Definition changeTrend (predicted : option Q) (current threshold : Q)
  : Trend :=
  match predicted with
  | None => sideways
  | Some predicted =>
      if Qeq_bool current 0 then
        if gt predicted 0 then up
        else if lt predicted 0 then down
        else sideways
      else
        let percentChange := ((predicted - current) / current) * 100 in
        if gt percentChange threshold then up
        else if lt percentChange (- threshold) then down
        else sideways
  end.

Section WithServices.

Context {World : Type}.
Variable services : Services World.

(** The loop of [generateSimplePrediction]: [n] steps, each moving the
    price by a random change between -1% and 1%. *)
Fixpoint randomWalk (n : nat) (lastPrice : Q) (w : World)
  : list Q * World :=
  match n with
  | O => ([], w)
  | S n' =>
      let '(random, w1) := Math_random services w in
      let randomChange := (random * 2 - 1) / 100 in
      let lastPrice := lastPrice * (1 + randomChange) in
      let '(predictions, w2) := randomWalk n' lastPrice w1 in
      (lastPrice :: predictions, w2)
  end.

Definition generateSimplePrediction (symbol : string)
  : M World Prediction.MarketPrediction :=
  try_catch
    (quote <- quote services symbol ;;
     fun w =>
       let currentPrice := Market.regularMarketPrice quote in
       let '(predictions, w') := randomWalk 5 (or_else currentPrice 0) w in
       let percentChange :=
         match currentPrice with
         | Some price =>
             if neq price 0
             then ((List.last predictions 0 - price) / price) * 100
             else 0
         | None => 0
         end in
       let trend :=
         if gt percentChange 0.5 then up
         else if lt percentChange (-0.5) then down
         else sideways in
       (Some {| Prediction.prediction := predictions;
                Prediction.confidence := 0.3;
                Prediction.trend := trend |},
        w'))
    (ret {| Prediction.prediction := [0; 0; 0; 0; 0];
            Prediction.confidence := 0;
            Prediction.trend := sideways |}).

(** The loop [for (let i = 1; i <= days; i++)] of [predictMarketMovement],
    from day [i] on, [n] days. *)
Fixpoint predictDays (regression : Regression services)
    (lastDayIndex i : Z) (n : nat) : M World (list Q) :=
  match n with
  | O => ret []
  | S n' =>
      predictedValue <-
        regression_predict services regression
          [inject_Z (lastDayIndex + i)] ;;
      predictions <- predictDays regression lastDayIndex (i + 1) n' ;;
      ret (predictedValue :: predictions)
  end.

(** The [try] block of [predictMarketMovement]; [None] stands for its
    [return generateSimplePrediction(symbol)]. *)
Definition regressionPrediction (symbol : string) (days : Z)
  : M World (option Prediction.MarketPrediction) :=
  historicalData <- historical services symbol ;;
  match historicalData with
  | None => ret None
  | Some closes =>
      if (length closes <? 10)%nat then ret None
      else
        let x :=
          map (fun i => [inject_Z (Z.of_nat i)]) (seq 0 (length closes)) in
        let y := closes in
        let degree := 3%Z in
        regression <- PolynomialRegression services x y degree ;;
        let lastDayIndex := (Z.of_nat (length closes) - 1)%Z in
        predictions <-
          predictDays regression lastDayIndex 1 (Z.to_nat days) ;;
        rSquared <- regression_score services regression x y ;;
        let currentPrice := List.last closes 0 in
        let predictedPrice := last predictions in
        ret (Some
               {| Prediction.prediction := predictions;
                  Prediction.confidence := Math_max 0 (Math_min 1 rSquared);
                  Prediction.trend :=
                    changeTrend predictedPrice currentPrice 1.5 |})
  end.

(** [predictMarketMovement(symbol, days = 5)].  The promise of
    [generateSimplePrediction] is returned without being awaited inside the
    [try] block, on the early return as in the [catch] block, so that call
    is made outside of the block in both cases. *)
Definition predictMarketMovement (symbol : string) (days : Z)
  : M World Prediction.MarketPrediction :=
  outcome <- try_catch (regressionPrediction symbol days) (ret None) ;;
  match outcome with
  | Some prediction => ret prediction
  | None => generateSimplePrediction symbol
  end.

(** The template string analysed when there is no business summary. *)
Definition genericText (symbol : string) : string :=
  ("The market for " ++ symbol
   ++ " has been experiencing typical fluctuations in recent trading sessions.")%string.

(** The text [analyzeNewsSentiment] analyses; an empty summary is falsy. *)
Definition analysedText (symbol : string) (stockData : StockData) : string :=
  match summaryProfile stockData with
  | Some profile =>
      match longBusinessSummary profile with
      | Some summary =>
          if String.eqb summary "" then genericText symbol else summary
      | None => genericText symbol
      end
  | None => genericText symbol
  end.

Definition analyzeNewsSentiment (symbol : string)
  : M World Prediction.SentimentAnalysis :=
  try_catch
    (stockData <- quoteSummary services symbol ;;
     let text := analysedText symbol stockData in
     result_score <- sentimentAnalyzer_analyze services text ;;
     let normalizedScore := Math_max (-5) (Math_min 5 (result_score / 2)) in
     let emotion :=
       if gt normalizedScore 1 then Prediction.positive
       else if lt normalizedScore (-1) then Prediction.negative
       else Prediction.neutral_emotion in
     let confidence :=
       Math_min 1 (inject_Z (Z.of_nat (String.length text)) / 1000) in
     ret {| Prediction.score := normalizedScore;
            Prediction.emotion := emotion;
            Prediction.sentiment_confidence := confidence |})
    (ret {| Prediction.score := 0;
            Prediction.emotion := Prediction.neutral_emotion;
            Prediction.sentiment_confidence := 0 |}).

End WithServices.

End Sources.

(** ** The [/api/market/condition] route *)

Module MarketRoute.

Import Async.

(** The query parameters the handler reads; [None] is an absent parameter.
    A parameter given once is a string, which is what the handler takes it
    to be. *)
Record Query : Set := mkQuery
  { query_locale : option string; query_location : option string }.

(** Truthiness of an optional string: absent and empty are falsy. *)
Definition truthy (v : option string) : bool :=
  match v with
  | Some s => negb (String.eqb s "")
  | None => false
  end.

(** [s.split('_').pop()]: what follows the last underscore, the whole string
    when there is none; [segment] is the part read since the last
    underscore. *)
Fixpoint lastSegmentFrom (s segment : string) : string :=
  match s with
  | EmptyString => segment
  | String c rest =>
      if Ascii.eqb c "_"
      then lastSegmentFrom rest EmptyString
      else lastSegmentFrom rest (segment ++ String c EmptyString)
  end.

Definition lastSegment (s : string) : string :=
  lastSegmentFrom s EmptyString.

(** [codes.includes(s)]. *)
Definition includes (codes : list string) (s : string) : bool :=
  existsb (String.eqb s) codes.

Section Handler.

Context {World : Type}.
Variable toUpperCase : string -> string.
Variable yf_quote : string -> M World Market.Quote.
Variable predictMarketMovement :
  string -> Z -> M World Prediction.MarketPrediction.
Variable analyzeNewsSentiment :
  string -> M World Prediction.SentimentAnalysis.

(** The locale the handler settles on. *)
Definition selectLocale (query : Query) : string :=
  let locale := "IN"%string in
  if truthy (query_locale query) then
    let requestedLocale := toUpperCase (default ""%string (query_locale query)) in
    if includes ["IN"; "US"; "UK"; "SG"]%string requestedLocale
    then requestedLocale else locale
  else if truthy (query_location query) then
    let location := default ""%string (query_location query) in
    let countryCode := toUpperCase (lastSegment location) in
    if negb (String.eqb countryCode "")
       && includes ["IN"; "US"; "UK"; "SG"]%string countryCode
    then countryCode else locale
  else locale.

(** [app.get("/api/market/condition", ...)]: the market data sent as the
    response. *)
Definition marketConditionRoute (query : Query) : M World Market.MarketData :=
  let locale := selectLocale query in
  Market.getMarketCondition toUpperCase yf_quote predictMarketMovement
    analyzeNewsSentiment (Some locale).

End Handler.

End MarketRoute.

(** ** Allocation for a goal and the portfolio chart

    [getPortfolioAllocationForGoal] of the goal manager, and the data the
    dynamic portfolio chart draws. *)

Module Charts.

Import Js.
Local Open Scope Q_scope.

Inductive GoalType : Set := retirement | education | homebuying | other.

Record Goal : Set := mkGoal
  { type : GoalType; targetAmount : Q; timeframe : Q; description : string }.

(** A slice of a pie chart. *)
Record Slice : Set := mkSlice { name : string; value : Q }.

Definition getPortfolioAllocationForGoal (goal : Goal) : list Slice :=
  let equity := 50 in
  let debt := 30 in
  let gold := 10 in
  let cash := 10 in
  let '(equity, debt, gold, cash) :=
    if gt (timeframe goal) 15 then (70, 20, 5, 5)
    else if lt (timeframe goal) 5 then (30, 40, 15, 15)
    else (equity, debt, gold, cash) in
  let '(equity, debt, gold, cash) :=
    match type goal with
    | education =>
        if lt (timeframe goal) 3 then (20, 50, 15, 15)
        else (equity, debt, gold, cash)
    | homebuying =>
        if lt (timeframe goal) 3 then (20, 45, 20, 15)
        else (equity, debt, gold, cash)
    | _ => (equity, debt, gold, cash)
    end in
  [ {| name := "Equity"; value := equity |};
    {| name := "Debt"; value := debt |};
    {| name := "Gold"; value := gold |};
    {| name := "Cash"; value := cash |} ].

(** The chart data of the dynamic portfolio chart: the slices of the
    optimizer's allocation that are above 0; [None] is a user without risk
    profile, taken as moderate. *)
Definition chartData
    (riskProfile : option RiskProfile) (marketCondition : MarketCondition)
  : list Slice :=
  let riskProfile := default moderate riskProfile in
  let allocation :=
    Utils.calculateOptimalAllocation riskProfile marketCondition in
  List.filter (fun item => gt (value item) 0)
    [ {| name := "Equity"; value := Utils.equity allocation |};
      {| name := "Debt"; value := Utils.debt allocation |};
      {| name := "Gold"; value := Utils.gold allocation |};
      {| name := "Cash"; value := Utils.cash allocation |} ].

(** The allocation the chart draws while it has no chart data. *)
Definition defaultData (marketCondition : MarketCondition) : list Slice :=
  let defaultEquity :=
    match marketCondition with bullish => 70 | bearish => 40 | neutral => 55 end in
  let defaultDebt :=
    match marketCondition with bullish => 20 | bearish => 35 | neutral => 25 end in
  let defaultGold :=
    match marketCondition with bullish => 5 | bearish => 15 | neutral => 12 end in
  let defaultCash :=
    match marketCondition with bullish => 5 | bearish => 10 | neutral => 8 end in
  [ {| name := "Equity"; value := defaultEquity |};
    {| name := "Debt"; value := defaultDebt |};
    {| name := "Gold"; value := defaultGold |};
    {| name := "Cash"; value := defaultCash |} ].

(** The percentage of the slice called [label], 0 when there is none. *)
Definition slice (label : string) (slices : list Slice) : Q :=
  match List.find (fun item => String.eqb (name item) label) slices with
  | Some item => value item
  | None => 0
  end.

End Charts.

(** ** Sample models and protocols *)

Module Fixtures.

Definition coreEquity : Model.Asset :=
  Model.mkAsset "eq-1" "Core Equity ETF" Model.equity 50 10 Model.medium.

Definition goldFund : Model.Asset :=
  Model.mkAsset "au-1" "Gold ETF" Model.gold 12 6 Model.medium.

Definition moderateModel : Model.PortfolioModel :=
  Model.mkModel 7 moderate (Model.DEFAULT_ALLOCATIONS moderate)
    (Model.DEFAULT_ALLOCATIONS moderate) [coreEquity; goldFund].

(** A protocol on [moderateModel] to which listener 1 is subscribed. *)
Definition watched : Protocol.Protocol :=
  Protocol.mkProtocol moderateModel Protocol.createDefaultContext [1%nat].

(** Services without price history and without a business summary: the
    quote is flat, the random numbers are all 0.5, the analyser scores 4. *)
Definition services : Sources.Services Sample.World :=
  {| Sources.historical := fun _ => Sample.unavailable;
     Sources.quote := fun _ => Sample.answers Sample.flatQuote;
     Sources.quoteSummary :=
       fun _ => Sample.answers (Sources.mkStockData None);
     Sources.Math_random := fun calls => (0.5%Q, S calls);
     Sources.Regression := unit;
     Sources.PolynomialRegression := fun _ _ _ => Sample.unavailable;
     Sources.regression_predict := fun _ _ => Sample.unavailable;
     Sources.regression_score := fun _ _ _ => Sample.unavailable;
     Sources.sentimentAnalyzer_analyze := fun _ => Sample.answers 4%Q |}.


End Fixtures.

(** * Properties *)

(** Closed numeric goals are settled by evaluation. *)
Ltac by_evaluation :=
  vm_compute; first [ reflexivity | discriminate | congruence ].

Local Open Scope Q_scope.

(** ** Number primitives *)

Lemma gt_true_iff (x y : Q) : Js.gt x y = true <-> y < x.
Proof.
  unfold Js.gt. rewrite negb_true_iff, <- not_true_iff_false, Qle_bool_iff.
  split; [apply Qnot_le_lt | apply Qlt_not_le].
Qed.

Lemma gt_false_iff (x y : Q) : Js.gt x y = false <-> x <= y.
Proof.
  unfold Js.gt. rewrite negb_false_iff. apply Qle_bool_iff.
Qed.

Lemma lt_true_iff (x y : Q) : Js.lt x y = true <-> x < y.
Proof. apply (gt_true_iff y x). Qed.

Lemma lt_false_iff (x y : Q) : Js.lt x y = false <-> y <= x.
Proof. apply (gt_false_iff y x). Qed.

Lemma neq_false_iff (x y : Q) : Js.neq x y = false <-> x == y.
Proof.
  unfold Js.neq. rewrite negb_false_iff. apply Qeq_bool_iff.
Qed.

(** [Math.max(lo, Math.min(hi, x))] lies between [lo] and [hi]. *)
Lemma clamp_between (lo hi x : Q) :
  lo <= hi -> lo <= Js.Math_max lo (Js.Math_min hi x) <= hi.
Proof.
  intros Hlohi. unfold Js.Math_max, Js.Math_min. split.
  - apply Q.le_max_l.
  - apply Q.max_lub; [exact Hlohi | apply Q.le_min_l].
Qed.

(** A value already within the bounds is left alone. *)
Lemma clamp_inside (lo hi x : Q) :
  lo <= x -> x <= hi -> Js.Math_max lo (Js.Math_min hi x) == x.
Proof.
  intros Hlo Hhi. unfold Js.Math_max, Js.Math_min.
  rewrite (Q.min_r hi x Hhi). apply Q.max_r, Hlo.
Qed.

(** ** The allocation optimizer *)

(** Whatever enters it, the final adjustment returns buckets that add up to
    100. *)
Lemma finalAdjustment_total (a : Utils.AssetAllocation) :
  Utils.sumOf (Utils.finalAdjustment a) == 100.
Proof.
  unfold Utils.finalAdjustment.
  destruct (Js.neq (Utils.sumOf a) 100) eqn:E.
  - unfold Utils.sumOf; simpl. ring.
  - apply neq_false_iff, E.
Qed.

Lemma allocate_total (base adjustment : Utils.AssetAllocation) :
  Utils.sumOf (Utils.allocate base adjustment) == 100.
Proof. apply finalAdjustment_total. Qed.

Lemma total_buckets (a : Utils.AssetAllocation) :
  Spec.total (Spec.buckets a) == Utils.sumOf a.
Proof. unfold Spec.total, Spec.buckets, Utils.sumOf; simpl. ring. Qed.

(** C1.  For every risk profile and every market condition, both
    [calculateOptimalAllocation] and [optimizePortfolio] return four
    non-negative integer percentages that add up to exactly 100. *)
Theorem allocation_percentages_valid :
  forall (riskProfile : RiskProfile) (marketCondition : MarketCondition),
    Spec.valid_percentages
      (Spec.buckets
         (Utils.calculateOptimalAllocation riskProfile marketCondition)) /\
    length
      (Prediction.allocation
         (Prediction.optimizePortfolio riskProfile marketCondition)) = 4%nat /\
    Spec.valid_percentages
      (map Prediction.percentage
         (Prediction.allocation
            (Prediction.optimizePortfolio riskProfile marketCondition))).
Proof.
  intros riskProfile marketCondition. split; [split | split; [| split]].
  - destruct riskProfile, marketCondition;
      repeat constructor; by_evaluation.
  - rewrite total_buckets. apply allocate_total.
  - reflexivity.
  - destruct riskProfile, marketCondition;
      repeat constructor; by_evaluation.
  - destruct riskProfile, marketCondition; by_evaluation.
Qed.

(** C4.  After the deltas are added and the buckets clamped, every bucket is
    within its asset-class bound (equity 10..90, debt 10..70, gold 0..30,
    cash 0..30), whatever the base and the delta; an equity delta of +30 on
    the aggressive base of 70 gives 90. *)
Theorem applyAdjustments_within_bounds :
  (forall base adjustment : Utils.AssetAllocation,
      Spec.within_bounds (Utils.applyAdjustments base adjustment)) /\
  Utils.equity
    (Utils.applyAdjustments (Utils.baseAllocations aggressive)
       {| Utils.equity := 30; Utils.debt := 0;
          Utils.gold := 0; Utils.cash := 0 |}) == 90.
Proof.
  split.
  - intros base adjustment. unfold Spec.within_bounds, Utils.applyAdjustments.
    cbn [Utils.equity Utils.debt Utils.gold Utils.cash].
    repeat split; apply clamp_between; by_evaluation.
  - by_evaluation.
Qed.

(** C6.  The two scenarios of the specification: conservative in a bearish
    market gives 15/53/20/12 and aggressive in a bullish market gives
    80/10/7/3; both add up to 100, and neither the clamps nor the final
    adjustment change anything. *)
Theorem specification_scenarios :
  Utils.calculateOptimalAllocation conservative bearish
  = {| Utils.equity := 15; Utils.debt := 53;
       Utils.gold := 20; Utils.cash := 12 |} /\
  Utils.calculateOptimalAllocation aggressive bullish
  = {| Utils.equity := 80; Utils.debt := 10;
       Utils.gold := 7; Utils.cash := 3 |} /\
  Utils.sumOf (Utils.calculateOptimalAllocation conservative bearish) == 100 /\
  Utils.sumOf (Utils.calculateOptimalAllocation aggressive bullish) == 100 /\
  Spec.untouched conservative bearish /\
  Spec.untouched aggressive bullish.
Proof.
  repeat split; first [ apply allocate_total | by_evaluation ].
Qed.

(** ** The optimizers over the store *)

Lemma run_ret {A B : Type} (a : A) (k : A -> Store.Run B) (heap : Store.Heap) :
  Store.bind (Store.ret a) k heap = k a heap.
Proof. reflexivity. Qed.

Lemma run_bind {A B C : Type} (c : Store.Run A) (f : A -> Store.Run B)
    (k : B -> Store.Run C) (heap : Store.Heap) :
  Store.bind (Store.bind c f) k heap
  = Store.bind c (fun a => Store.bind (f a) k) heap.
Proof.
  unfold Store.bind. destruct (c heap) as [[a heap'] |]; reflexivity.
Qed.

Lemma alloc_created (o : Store.Obj) (heap : Store.Heap)
    (created created' : list Store.Obj) (n : nat) :
  length created = n -> created ++ [o] = created' ->
  Store.alloc o (heap ++ created)
  = Some ((length heap + n)%nat, heap ++ created').
Proof.
  intros <- <-. unfold Store.alloc.
  rewrite length_app, <- app_assoc. reflexivity.
Qed.

Lemma run_alloc {B : Type} (o : Store.Obj) (k : Store.loc -> Store.Run B)
    (heap : Store.Heap) (created created' : list Store.Obj) (n : nat) :
  length created = n -> created ++ [o] = created' ->
  Store.bind (Store.alloc o) k (heap ++ created)
  = k (length heap + n)%nat (heap ++ created').
Proof.
  intros Hn Hcreated. unfold Store.bind.
  rewrite (alloc_created o heap created created' n Hn Hcreated). reflexivity.
Qed.

Lemma lookup_created (heap created : list Store.Obj) (j : nat) :
  (heap ++ created) !! (length heap + j)%nat = created !! j.
Proof.
  rewrite lookup_app_r by lia. f_equal. lia.
Qed.

Lemma run_load {B : Type} (j : nat) (o : Store.Obj)
    (k : Store.Obj -> Store.Run B)
    (heap : Store.Heap) (created : list Store.Obj) :
  created !! j = Some o ->
  Store.bind (Store.load (length heap + j)%nat) k (heap ++ created)
  = k o (heap ++ created).
Proof.
  intros Hj. unfold Store.bind, Store.load.
  rewrite lookup_created, Hj. reflexivity.
Qed.

Lemma run_store {B : Type} (j : nat) (old o : Store.Obj)
    (k : unit -> Store.Run B)
    (heap : Store.Heap) (created created' : list Store.Obj) :
  created !! j = Some old -> <[j:=o]> created = created' ->
  Store.bind (Store.store (length heap + j)%nat o) k (heap ++ created)
  = k tt (heap ++ created').
Proof.
  intros Hj <-. unfold Store.bind, Store.store.
  rewrite lookup_created, Hj.
  pose proof (insert_app_r heap created j o) as Hinsert.
  unfold Store.Heap in *. rewrite <- Hinsert. reflexivity.
Qed.

Lemma run_loadFields {B : Type} (j : nat) (fields : list (string * Store.Value))
    (k : list (string * Store.Value) -> Store.Run B)
    (heap : Store.Heap) (created : list Store.Obj) :
  created !! j = Some (Store.Fields fields) ->
  Store.bind (Store.loadFields (length heap + j)%nat) k (heap ++ created)
  = k fields (heap ++ created).
Proof.
  intros Hj. unfold Store.loadFields.
  rewrite run_bind, (run_load j _ _ heap created Hj). reflexivity.
Qed.

Lemma run_loadItems {B : Type} (j : nat) (items : list Store.Value)
    (k : list Store.Value -> Store.Run B)
    (heap : Store.Heap) (created : list Store.Obj) :
  created !! j = Some (Store.Items items) ->
  Store.bind (Store.loadItems (length heap + j)%nat) k (heap ++ created)
  = k items (heap ++ created).
Proof.
  intros Hj. unfold Store.loadItems.
  rewrite run_bind, (run_load j _ _ heap created Hj). reflexivity.
Qed.

(** A property read whose value is used as [convert] expects. *)
Lemma run_property {A B : Type} (convert : Store.Value -> Store.Run A)
    (j : nat) (key : string) (fields : list (string * Store.Value)) (a : A)
    (k : A -> Store.Run B)
    (heap : Store.Heap) (created : list Store.Obj) :
  created !! j = Some (Store.Fields fields) ->
  convert (Store.lookupField key fields) = Store.ret a ->
  Store.bind (Store.bind (Store.getProperty (length heap + j)%nat key) convert)
    k (heap ++ created)
  = k a (heap ++ created).
Proof.
  intros Hj Hconvert. unfold Store.getProperty.
  rewrite run_bind, run_bind, (run_loadFields j _ _ heap created Hj).
  rewrite run_ret, Hconvert. reflexivity.
Qed.

Lemma run_setProperty {B : Type} (j : nat) (key : string) (v : Store.Value)
    (fields : list (string * Store.Value))
    (k : unit -> Store.Run B)
    (heap : Store.Heap) (created created' : list Store.Obj) :
  created !! j = Some (Store.Fields fields) ->
  <[j:=Store.Fields (if Store.hasField key fields
                     then Store.replaceField key v fields
                     else fields ++ [(key, v)])]> created = created' ->
  Store.bind (Store.setProperty (length heap + j)%nat key v) k
    (heap ++ created)
  = k tt (heap ++ created').
Proof.
  intros Hj Hcreated. unfold Store.setProperty.
  rewrite run_bind, (run_loadFields j _ _ heap created Hj).
  apply (run_store j _ _ _ heap created created' Hj Hcreated).
Qed.

(** What is computed between two accesses to the store. *)
Ltac run_glue :=
  lazy beta iota zeta
    delta [Store.mapM Store.foldM Store.asNumber Store.asObject Store.asKey
           Store.newObject Store.newArray Store.Object_values
           Store.Object_entries Store.Array_map Store.Array_reduce
           Store.weighted Store.allocationLiteral Store.bucketsLiteral
           map snd nth].

(** One step of a run over a store [heap ++ created] in which the run has
    used the addresses of [created] only. *)
Ltac run_step :=
  lazymatch goal with
  | |- Store.bind (Store.bind _ _) _ _ = _ =>
      eapply eq_trans; [apply run_bind |]
  | |- Store.bind (Store.ret _) _ _ = _ =>
      eapply eq_trans; [apply run_ret |]
  | |- Store.bind (Store.alloc _) _ _ = _ =>
      eapply eq_trans;
      [eapply run_alloc; [cbn [length] | cbn [app]]; reflexivity |]
  | |- Store.bind (Store.loadFields _) _ _ = _ =>
      eapply eq_trans; [eapply run_loadFields; reflexivity |]
  | |- Store.bind (Store.loadItems _) _ _ = _ =>
      eapply eq_trans; [eapply run_loadItems; reflexivity |]
  | |- Store.bind (Store.getNumber _ _) _ _ = _ =>
      eapply eq_trans;
      [eapply (run_property Store.asNumber); reflexivity |]
  | |- Store.bind (Store.getObject _ _) _ _ = _ =>
      eapply eq_trans;
      [eapply (run_property Store.asObject); reflexivity |]
  | |- Store.bind (Store.getString _ _) _ _ = _ =>
      eapply eq_trans;
      [eapply (run_property Store.asKey); reflexivity |]
  | |- Store.bind (Store.getNumberOrZero _ _) _ _ = _ =>
      eapply eq_trans;
      [eapply (run_property Store.numberOrZero); reflexivity |]
  | |- Store.bind (Store.setProperty _ _ _) _ _ = _ =>
      eapply eq_trans;
      [eapply run_setProperty; [reflexivity | vm_compute; reflexivity] |]
  | |- Store.bind (if Js.neq ?a ?b then _ else _) _ _ = _ =>
      let v := eval vm_compute in (Js.neq a b) in
      change (Js.neq a b) with v
  | |- Store.alloc _ _ = _ =>
      eapply alloc_created; [cbn [length] | cbn [app]]; reflexivity
  | |- Store.ret _ _ = Some (?result, _) =>
      tryif is_evar result then reflexivity
      else (unfold Store.ret; do 2 f_equal; by_evaluation)
  end;
  try run_glue.

Ltac run_all :=
  lazy beta zeta
    delta [Store.calculateOptimalAllocation Store.optimizePortfolio
           Store.readAllocation Store.readPortfolio];
  run_glue;
  repeat run_step.

(** A run that only allocates, and reads and writes only what it allocated,
    is isolated; what it returns is found by running it. *)
Ltac isolated_by_running :=
  let heap := fresh "heap" in
  let outside := fresh "outside" in
  let Hlength := fresh "Hlength" in
  intros heap; eexists; eexists; split; [| split];
  [ rewrite <- (app_nil_r heap) at 1; run_all
  | lia
  | intros outside Hlength; rewrite <- Hlength; eexists; run_all ].

Lemma calculateOptimalAllocation_isolated
    (r : RiskProfile) (c : MarketCondition) :
  Store.isolated (Store.calculateOptimalAllocation r c) Store.readAllocation
    (Utils.calculateOptimalAllocation r c).
Proof.
  destruct r, c; isolated_by_running.
Qed.


Lemma optimizePortfolio_isolated
    (r : RiskProfile) (c : MarketCondition) :
  Store.isolated (Store.optimizePortfolio r c) Store.readPortfolio
    (Prediction.optimizePortfolio r c).
Proof.
  destruct r, c; isolated_by_running.
Qed.

(** From every store, the caller of an isolated run reads its result. *)
Lemma isolated_outcome {A : Type} (run : Store.Run Store.loc)
    (read : Store.loc -> Store.Run A) (result : A) :
  Store.isolated run read result ->
  forall heap : Store.Heap, Store.outcome run read heap = Some result.
Proof.
  intros Hisolated heap.
  destruct (Hisolated heap) as (l & created & Hrun & _ & Hread).
  destruct (Hread heap eq_refl) as [heap' Hresult].
  unfold Store.outcome, Store.bind. rewrite Hrun, Hresult. reflexivity.
Qed.

(** A run that reads an object of the store it starts from is not isolated:
    the object need not exist. *)
Lemma read_outside_not_isolated {A : Type} (l : Store.loc) (key : string)
    (read : Store.loc -> Store.Run A) (result : A) :
  ~ Store.isolated
      (Store.bind (Store.getProperty l key)
         (fun v => Store.newObject [(key, v)]))
      read result.
Proof.
  intros Hisolated.
  destruct (Hisolated []) as (l' & created & Hrun & _).
  unfold Store.getProperty, Store.loadFields, Store.load, Store.bind in Hrun.
  cbn in Hrun. discriminate Hrun.
Qed.

(** Nor is a run that hands out an object of the store it starts from. *)
Lemma return_outside_not_isolated {A : Type} (l : Store.loc)
    (read : Store.loc -> Store.Run A) (result : A) :
  ~ Store.isolated (Store.ret l) read result.
Proof.
  intros Hisolated.
  destruct (Hisolated (replicate (S l) (Store.Items [])))
    as (l' & created & Hrun & Hnew & _).
  unfold Store.ret in Hrun. injection Hrun as <- _.
  rewrite length_replicate in Hnew. lia.
Qed.

(** C7.  Any two invocations with the same risk profile and the same market
    condition yield the same output, whatever exists outside of the call.
    Run from any two stores of objects, [calculateOptimalAllocation] returns
    objects from which the caller reads the same values, and so does
    [optimizePortfolio].  From every store the run returns; it leaves every
    object of that store in place and unchanged; the object it returns is
    one it has created; and what is read from that object is the value of
    the two arguments alone, whatever the objects outside of the call hold,
    then or later. *)
Theorem optimizer_deterministic :
  forall (riskProfile : RiskProfile) (marketCondition : MarketCondition),
    (forall heap1 heap2 : Store.Heap,
        Store.outcome
          (Store.calculateOptimalAllocation riskProfile marketCondition)
          Store.readAllocation heap1
        = Store.outcome
            (Store.calculateOptimalAllocation riskProfile marketCondition)
            Store.readAllocation heap2) /\
    (forall heap1 heap2 : Store.Heap,
        Store.outcome (Store.optimizePortfolio riskProfile marketCondition)
          Store.readPortfolio heap1
        = Store.outcome (Store.optimizePortfolio riskProfile marketCondition)
            Store.readPortfolio heap2) /\
    Store.isolated
      (Store.calculateOptimalAllocation riskProfile marketCondition)
      Store.readAllocation
      (Utils.calculateOptimalAllocation riskProfile marketCondition) /\
    Store.isolated (Store.optimizePortfolio riskProfile marketCondition)
      Store.readPortfolio
      (Prediction.optimizePortfolio riskProfile marketCondition).
Proof.
  intros riskProfile marketCondition.
  pose proof (calculateOptimalAllocation_isolated riskProfile marketCondition)
    as Hallocation.
  pose proof (optimizePortfolio_isolated riskProfile marketCondition)
    as Hportfolio.
  repeat split; try assumption; intros heap1 heap2.
  - rewrite (isolated_outcome _ _ _ Hallocation heap1).
    rewrite (isolated_outcome _ _ _ Hallocation heap2). reflexivity.
  - rewrite (isolated_outcome _ _ _ Hportfolio heap1).
    rewrite (isolated_outcome _ _ _ Hportfolio heap2). reflexivity.
Qed.

(** C8.  In a neutral market the optimizer returns the base row of the risk
    profile: the clamps, the scaling with rounding and the final adjustment
    each leave the row as it is. *)
Theorem neutral_market_is_identity :
  forall riskProfile : RiskProfile,
    let base := Utils.baseAllocations riskProfile in
    Utils.calculateOptimalAllocation riskProfile neutral = base /\
    Utils.applyAdjustments base (Utils.marketAdjustments neutral) = base /\
    Utils.normalize base = base /\
    Utils.finalAdjustment base = base /\
    base
    = match riskProfile with
      | conservative =>
          {| Utils.equity := 30; Utils.debt := 45;
             Utils.gold := 15; Utils.cash := 10 |}
      | moderate =>
          {| Utils.equity := 50; Utils.debt := 30;
             Utils.gold := 12; Utils.cash := 8 |}
      | aggressive =>
          {| Utils.equity := 70; Utils.debt := 15;
             Utils.gold := 10; Utils.cash := 5 |}
      end.
Proof.
  intros riskProfile base. subst base.
  destruct riskProfile; repeat split; by_evaluation.
Qed.

(** C9.  In every market condition the equity percentage grows strictly
    with the risk profile: conservative below moderate below aggressive. *)
Theorem equity_increases_with_risk :
  forall marketCondition : MarketCondition,
    Utils.equity (Utils.calculateOptimalAllocation conservative marketCondition)
    < Utils.equity (Utils.calculateOptimalAllocation moderate marketCondition)
    /\
    Utils.equity (Utils.calculateOptimalAllocation moderate marketCondition)
    < Utils.equity (Utils.calculateOptimalAllocation aggressive marketCondition).
Proof.
  intros marketCondition. destruct marketCondition; split; by_evaluation.
Qed.

(** ** The signal classifier *)

Lemma vixSignal_rule (vixValue : Q) :
  Spec.volatility_rule vixValue (Market.vixSignal vixValue).
Proof.
  unfold Spec.volatility_rule, Market.vixSignal.
  destruct (Js.gt vixValue 25) eqn:Hhigh;
    [apply gt_true_iff in Hhigh | apply gt_false_iff in Hhigh];
    (destruct (Js.lt vixValue 15) eqn:Hlow;
       [apply lt_true_iff in Hlow | apply lt_false_iff in Hlow]);
    repeat split; intros; try reflexivity; exfalso; lra.
Qed.

Lemma predictionSignal_rule (marketPrediction : Prediction.MarketPrediction) :
  Spec.trend_rule (Prediction.trend marketPrediction)
    (Prediction.confidence marketPrediction)
    (Market.predictionSignal marketPrediction).
Proof.
  unfold Spec.trend_rule, Market.predictionSignal.
  destruct (Prediction.trend marketPrediction);
    (destruct (Js.gt (Prediction.confidence marketPrediction) 0.4) eqn:Hc;
       [apply gt_true_iff in Hc | apply gt_false_iff in Hc]);
    repeat split; intros; try reflexivity; try discriminate;
    exfalso; intuition (try discriminate; lra).
Qed.

Lemma sentimentSignal_rule (sentimentAnalysis : Prediction.SentimentAnalysis) :
  Spec.sentiment_rule (Prediction.score sentimentAnalysis)
    (Prediction.sentiment_confidence sentimentAnalysis)
    (Market.sentimentSignal sentimentAnalysis).
Proof.
  unfold Spec.sentiment_rule, Market.sentimentSignal.
  destruct (Js.gt (Prediction.score sentimentAnalysis) 1.5) eqn:Hpos;
    [apply gt_true_iff in Hpos | apply gt_false_iff in Hpos];
    (destruct (Js.lt (Prediction.score sentimentAnalysis) (-1.5)) eqn:Hneg;
       [apply lt_true_iff in Hneg | apply lt_false_iff in Hneg]);
    (destruct (Js.gt (Prediction.sentiment_confidence sentimentAnalysis) 0.4)
       eqn:Hc; [apply gt_true_iff in Hc | apply gt_false_iff in Hc]);
    cbn [andb]; repeat split; intros; try reflexivity;
    exfalso; intuition lra.
Qed.

Lemma currentSignal_rule (mainIndexChange : Q) :
  Spec.change_rule mainIndexChange (Market.currentSignal mainIndexChange).
Proof.
  unfold Spec.change_rule, Market.currentSignal.
  destruct (Js.gt mainIndexChange 1) eqn:Hup;
    [apply gt_true_iff in Hup | apply gt_false_iff in Hup];
    (destruct (Js.lt mainIndexChange (-1)) eqn:Hdown;
       [apply lt_true_iff in Hdown | apply lt_false_iff in Hdown]);
    repeat split; intros; try reflexivity; exfalso; lra.
Qed.

(** The [forEach] loop adds, to each running score, the weights of the
    signals that vote for its bucket. *)
Lemma fold_addSignal_scores (l : list Market.Signal) :
  forall acc : Market.Scores,
    Market.bearishScore (fold_left Market.addSignal l acc)
    == Market.bearishScore acc + Spec.weightedSum bearish (Spec.votes l) /\
    Market.bullishScore (fold_left Market.addSignal l acc)
    == Market.bullishScore acc + Spec.weightedSum bullish (Spec.votes l) /\
    Market.neutralScore (fold_left Market.addSignal l acc)
    == Market.neutralScore acc + Spec.weightedSum neutral (Spec.votes l).
Proof.
  induction l as [| signal rest IH]; intros acc.
  - unfold Spec.weightedSum; simpl. repeat split; ring.
  - cbn [fold_left].
    destruct (IH (Market.addSignal acc signal)) as (Hbear & Hbull & Hneut).
    rewrite Hbear, Hbull, Hneut. clear IH Hbear Hbull Hneut.
    unfold Market.addSignal, Spec.weightedSum, Spec.votes.
    cbn [map List.filter fst].
    destruct (Market.signal_value signal); simpl; repeat split; ring.
Qed.

Lemma weightedScores_sums (l : list Market.Signal) :
  Market.bearishScore (Market.weightedScores l)
  == Spec.weightedSum bearish (Spec.votes l) /\
  Market.bullishScore (Market.weightedScores l)
  == Spec.weightedSum bullish (Spec.votes l) /\
  Market.neutralScore (Market.weightedScores l)
  == Spec.weightedSum neutral (Spec.votes l).
Proof.
  unfold Market.weightedScores.
  destruct (fold_addSignal_scores l
              {| Market.bearishScore := 0; Market.bullishScore := 0;
                 Market.neutralScore := 0 |}) as (Hbear & Hbull & Hneut).
  rewrite Hbear, Hbull, Hneut. simpl. repeat split; ring.
Qed.

(** The final comparison picks the bucket whose weighted sum is strictly
    the greatest, and neutral when no bucket is. *)
Lemma finalCondition_winner (l : list Market.Signal) :
  Spec.winner (Spec.votes l) (Market.finalCondition (Market.weightedScores l)).
Proof.
  destruct (weightedScores_sums l) as (Hbear & Hbull & Hneut).
  unfold Market.finalCondition.
  set (scores := Market.weightedScores l) in *.
  destruct (Js.gt (Market.bearishScore scores) (Market.bullishScore scores))
    eqn:E1; [apply gt_true_iff in E1 | apply gt_false_iff in E1];
  (destruct (Js.gt (Market.bearishScore scores) (Market.neutralScore scores))
    eqn:E2; [apply gt_true_iff in E2 | apply gt_false_iff in E2]);
  (destruct (Js.gt (Market.bullishScore scores) (Market.bearishScore scores))
    eqn:E3; [apply gt_true_iff in E3 | apply gt_false_iff in E3]);
  (destruct (Js.gt (Market.bullishScore scores) (Market.neutralScore scores))
    eqn:E4; [apply gt_true_iff in E4 | apply gt_false_iff in E4]);
  cbn [andb]; rewrite Hbear, Hbull, Hneut in *; clear Hbear Hbull Hneut;
  (split;
   [ intros b Hb;
     pose proof (Hb bearish) as Gbear;
     pose proof (Hb bullish) as Gbull;
     pose proof (Hb neutral) as Gneut;
     destruct b; try reflexivity; exfalso;
     first [ assert (H := Gbear ltac:(discriminate)); lra
           | assert (H := Gbull ltac:(discriminate)); lra
           | assert (H := Gneut ltac:(discriminate)); lra ]
   | intros Hnone; try reflexivity; exfalso;
     first [ apply (Hnone bearish); intros b' Hb'; destruct b';
             [congruence | lra | lra]
           | apply (Hnone bullish); intros b' Hb'; destruct b';
             [lra | lra | congruence] ] ]).
Qed.

(** The relation [Spec.weighted_vote] leaves no choice: the inputs determine
    the outcome. *)
Lemma volatility_rule_functional (vix : Q) (a b : MarketCondition) :
  Spec.volatility_rule vix a -> Spec.volatility_rule vix b -> a = b.
Proof.
  intros (A1 & A2 & A3) (B1 & B2 & B3).
  destruct (Qlt_le_dec 25 vix) as [Hhigh | Hhigh];
    [transitivity bearish; [apply A1 | symmetry; apply B1]; assumption |].
  destruct (Qlt_le_dec vix 15) as [Hlow | Hlow];
    [transitivity bullish; [apply A2 | symmetry; apply B2]; assumption |].
  transitivity neutral; [apply A3 | symmetry; apply B3]; split; assumption.
Qed.

Lemma trend_rule_functional (t : Trend) (confidence : Q)
    (a b : MarketCondition) :
  Spec.trend_rule t confidence a -> Spec.trend_rule t confidence b -> a = b.
Proof.
  intros (A1 & A2 & A3) (B1 & B2 & B3).
  destruct (Qlt_le_dec 0.4 confidence) as [Hc | Hc];
    [| transitivity neutral; [apply A3 | symmetry; apply B3]; right; exact Hc].
  destruct t.
  - transitivity bullish; [apply A1 | symmetry; apply B1]; auto.
  - transitivity bearish; [apply A2 | symmetry; apply B2]; auto.
  - transitivity neutral; [apply A3 | symmetry; apply B3]; left; reflexivity.
Qed.

Lemma sentiment_rule_functional (score confidence : Q)
    (a b : MarketCondition) :
  Spec.sentiment_rule score confidence a ->
  Spec.sentiment_rule score confidence b -> a = b.
Proof.
  intros (A1 & A2 & A3) (B1 & B2 & B3).
  destruct (Qlt_le_dec 0.4 confidence) as [Hc | Hc];
    [| transitivity neutral; [apply A3 | symmetry; apply B3]; right; exact Hc].
  destruct (Qlt_le_dec 1.5 score) as [Hpos | Hpos];
    [transitivity bullish; [apply A1 | symmetry; apply B1]; assumption |].
  destruct (Qlt_le_dec score (-1.5)) as [Hneg | Hneg];
    [transitivity bearish; [apply A2 | symmetry; apply B2]; assumption |].
  transitivity neutral; [apply A3 | symmetry; apply B3];
    left; split; assumption.
Qed.

Lemma change_rule_functional (change : Q) (a b : MarketCondition) :
  Spec.change_rule change a -> Spec.change_rule change b -> a = b.
Proof.
  intros (A1 & A2 & A3) (B1 & B2 & B3).
  destruct (Qlt_le_dec 1 change) as [Hup | Hup];
    [transitivity bullish; [apply A1 | symmetry; apply B1]; assumption |].
  destruct (Qlt_le_dec change (-1)) as [Hdown | Hdown];
    [transitivity bearish; [apply A2 | symmetry; apply B2]; assumption |].
  transitivity neutral; [apply A3 | symmetry; apply B3]; split; assumption.
Qed.

Lemma strictly_greatest_cases (votes : list (MarketCondition * Q)) :
  (exists b, Spec.strictly_greatest b votes) \/
  (forall b, ~ Spec.strictly_greatest b votes).
Proof.
  unfold Spec.strictly_greatest.
  destruct (Qlt_le_dec (Spec.weightedSum bullish votes)
              (Spec.weightedSum bearish votes)) as [H1 | H1];
  destruct (Qlt_le_dec (Spec.weightedSum neutral votes)
              (Spec.weightedSum bearish votes)) as [H2 | H2];
  destruct (Qlt_le_dec (Spec.weightedSum bearish votes)
              (Spec.weightedSum bullish votes)) as [H3 | H3];
  destruct (Qlt_le_dec (Spec.weightedSum neutral votes)
              (Spec.weightedSum bullish votes)) as [H4 | H4];
  destruct (Qlt_le_dec (Spec.weightedSum bearish votes)
              (Spec.weightedSum neutral votes)) as [H5 | H5];
  destruct (Qlt_le_dec (Spec.weightedSum bullish votes)
              (Spec.weightedSum neutral votes)) as [H6 | H6];
  first
    [ exfalso; lra
    | left; exists bearish; intros b' Hb'; destruct b';
      [congruence | assumption | assumption]
    | left; exists bullish; intros b' Hb'; destruct b';
      [assumption | assumption | congruence]
    | left; exists neutral; intros b' Hb'; destruct b';
      [assumption | congruence | assumption]
    | right; intros b Hb;
      pose proof (Hb bearish) as Gbear;
      pose proof (Hb bullish) as Gbull;
      pose proof (Hb neutral) as Gneut;
      destruct b;
      first [ assert (H := Gbear ltac:(discriminate)); lra
            | assert (H := Gbull ltac:(discriminate)); lra
            | assert (H := Gneut ltac:(discriminate)); lra ] ].
Qed.

Lemma winner_functional (votes : list (MarketCondition * Q))
    (a b : MarketCondition) :
  Spec.winner votes a -> Spec.winner votes b -> a = b.
Proof.
  intros (A1 & A2) (B1 & B2).
  destruct (strictly_greatest_cases votes) as [(c & Hc) | Hnone].
  - transitivity c; [apply A1 | symmetry; apply B1]; exact Hc.
  - transitivity neutral; [apply A2 | symmetry; apply B2]; exact Hnone.
Qed.

Lemma weighted_vote_functional
    (vix change : Q) (t : Trend) (trendConfidence : Q)
    (score sentimentConfidence : Q) (a b : MarketCondition) :
  Spec.weighted_vote vix change t trendConfidence score sentimentConfidence a ->
  Spec.weighted_vote vix change t trendConfidence score sentimentConfidence b ->
  a = b.
Proof.
  intros (v & p & s & c & Hv & Hp & Hs & Hc & Hwin)
         (v' & p' & s' & c' & Hv' & Hp' & Hs' & Hc' & Hwin').
  rewrite (volatility_rule_functional _ _ _ Hv' Hv) in Hwin'.
  rewrite (trend_rule_functional _ _ _ _ Hp' Hp) in Hwin'.
  rewrite (sentiment_rule_functional _ _ _ _ Hs' Hs) in Hwin'.
  rewrite (change_rule_functional _ _ _ Hc' Hc) in Hwin'.
  exact (winner_functional _ _ _ Hwin Hwin').
Qed.

(** C2.  When both sources answer, the classifier maps the volatility, the
    trend prediction, the sentiment and the recent change to a signal each
    by the stated thresholds, weights them 1.0, 1.5, 1.0 and 1.2, and
    returns the bucket whose weighted sum is strictly the greatest, neutral
    when there is a tie for the greatest. *)
Theorem classifier_weighted_vote :
  forall (World : Type)
         (predictMarketMovement :
            string -> Z -> Async.M World Prediction.MarketPrediction)
         (analyzeNewsSentiment :
            string -> Async.M World Prediction.SentimentAnalysis)
         (vixValue mainIndexChange : Q) (mainIndexSymbol : string)
         (w w1 w2 : World)
         (marketPrediction : Prediction.MarketPrediction)
         (sentimentAnalysis : Prediction.SentimentAnalysis),
    predictMarketMovement mainIndexSymbol 5%Z w = (Some marketPrediction, w1) ->
    analyzeNewsSentiment mainIndexSymbol w1 = (Some sentimentAnalysis, w2) ->
    exists result : MarketCondition,
      Market.determineMarketCondition predictMarketMovement
        analyzeNewsSentiment vixValue mainIndexChange mainIndexSymbol w
      = (Some result, w2) /\
      Spec.weighted_vote vixValue mainIndexChange
        (Prediction.trend marketPrediction)
        (Prediction.confidence marketPrediction)
        (Prediction.score sentimentAnalysis)
        (Prediction.sentiment_confidence sentimentAnalysis)
        result.
Proof.
  intros World predict analyze vix chg sym w w1 w2 p s Hp Hs.
  exists (Market.finalCondition
            (Market.weightedScores (Market.signals vix chg p s))).
  split.
  - unfold Market.determineMarketCondition, Async.try_catch, Async.bind.
    rewrite Hp, Hs. reflexivity.
  - exists (Market.vixSignal vix), (Market.predictionSignal p),
      (Market.sentimentSignal s), (Market.currentSignal chg).
    split; [apply vixSignal_rule |].
    split; [apply predictionSignal_rule |].
    split; [apply sentimentSignal_rule |].
    split; [apply currentSignal_rule |].
    apply (finalCondition_winner (Market.signals vix chg p s)).
Qed.

Lemma classifier_weighted_vote_witness :
  Sample.answers Sample.risingPrediction 0%nat
  = (Some Sample.risingPrediction, 1%nat) /\
  Sample.answers Sample.calmSentiment 1%nat
  = (Some Sample.calmSentiment, 2%nat) /\
  exists result : MarketCondition,
    Market.determineMarketCondition
      (fun _ _ => Sample.answers Sample.risingPrediction)
      (fun _ => Sample.answers Sample.calmSentiment)
      12 2 "^NSEI" 0%nat
    = (Some result, 2%nat) /\
    Spec.weighted_vote 12 2 up 0.8 0 0.1 result.
Proof.
  split; [reflexivity | split; [reflexivity |]].
  apply (classifier_weighted_vote Sample.World
           (fun _ _ => Sample.answers Sample.risingPrediction)
           (fun _ => Sample.answers Sample.calmSentiment)
           12 2 "^NSEI"%string 0%nat 1%nat 2%nat
           Sample.risingPrediction Sample.calmSentiment);
    reflexivity.
Defined.

Lemma fallbackCondition_rule (vixValue mainIndexChange : Q) :
  Spec.fallback_rule vixValue mainIndexChange
    (Market.fallbackCondition vixValue mainIndexChange).
Proof.
  unfold Spec.fallback_rule, Market.fallbackCondition.
  destruct (Js.gt vixValue 25) eqn:Hhigh;
    [apply gt_true_iff in Hhigh | apply gt_false_iff in Hhigh];
  (destruct (Js.lt vixValue 15) eqn:Hlow;
    [apply lt_true_iff in Hlow | apply lt_false_iff in Hlow]);
  (destruct (Js.lt mainIndexChange (-0.5)) eqn:Hfall;
    [apply lt_true_iff in Hfall | apply lt_false_iff in Hfall]);
  (destruct (Js.gt mainIndexChange 0.5) eqn:Hrise;
    [apply gt_true_iff in Hrise | apply gt_false_iff in Hrise]);
  (destruct (Js.gt mainIndexChange 1) eqn:Hup;
    [apply gt_true_iff in Hup | apply gt_false_iff in Hup]);
  (destruct (Js.lt mainIndexChange (-1)) eqn:Hdown;
    [apply lt_true_iff in Hdown | apply lt_false_iff in Hdown]);
  repeat split; intros; try reflexivity; exfalso; lra.
Qed.

(** C3, as the specification words it, fails: with both sources
    unavailable, a volatility of 30 and a flat recent change, the two-signal
    model of the specification says bearish and the classifier returns
    neutral. *)
Lemma fallback_differs_from_two_signal_model :
  Market.determineMarketCondition
    (fun _ _ => Sample.unavailable) (fun _ => Sample.unavailable)
    30 0 "^NSEI" 0%nat
  = (Some neutral, 1%nat) /\
  Spec.two_signal_model 30 0 = bearish.
Proof. split; reflexivity. Qed.

(** C3, amended.  When the trend source or the sentiment source throws, the
    classifier returns the value of a two-signal table over the volatility
    and the recent change alone: above 25 it is bearish if the change is
    below -0.5 and neutral otherwise, below 15 it is bullish if the change
    is above 0.5 and neutral otherwise, and in the band from 15 to 25 the
    change decides with the thresholds 1 and -1 of the full model.  So
    (30, -2) is bearish, (10, 2) bullish and (20, 0) neutral. *)
Theorem fallback_two_signal_table :
  forall (World : Type)
         (predictMarketMovement :
            string -> Z -> Async.M World Prediction.MarketPrediction)
         (analyzeNewsSentiment :
            string -> Async.M World Prediction.SentimentAnalysis)
         (vixValue mainIndexChange : Q) (mainIndexSymbol : string)
         (w w' : World),
    (predictMarketMovement mainIndexSymbol 5%Z w = (None, w') \/
     exists marketPrediction w1,
       predictMarketMovement mainIndexSymbol 5%Z w
       = (Some marketPrediction, w1) /\
       analyzeNewsSentiment mainIndexSymbol w1 = (None, w')) ->
    exists result : MarketCondition,
      Market.determineMarketCondition predictMarketMovement
        analyzeNewsSentiment vixValue mainIndexChange mainIndexSymbol w
      = (Some result, w') /\
      result = Market.fallbackCondition vixValue mainIndexChange /\
      Spec.fallback_rule vixValue mainIndexChange result /\
      (vixValue == 30 -> mainIndexChange == -2 -> result = bearish) /\
      (vixValue == 10 -> mainIndexChange == 2 -> result = bullish) /\
      (vixValue == 20 -> mainIndexChange == 0 -> result = neutral).
Proof.
  intros World predict analyze vix chg sym w w' Hfail.
  exists (Market.fallbackCondition vix chg).
  pose proof (fallbackCondition_rule vix chg)
    as (R1 & R2 & R3 & R4 & R5 & R6 & R7).
  split; [| split; [reflexivity | split; [| split; [| split]]]].
  - unfold Market.determineMarketCondition, Async.try_catch, Async.bind.
    destruct Hfail as [Hp | (p & w1 & Hp & Hs)].
    + rewrite Hp. reflexivity.
    + rewrite Hp, Hs. reflexivity.
  - apply fallbackCondition_rule.
  - intros Hv Hc. apply R1; lra.
  - intros Hv Hc. apply R3; lra.
  - intros Hv Hc. apply R7; lra.
Qed.

Lemma fallback_two_signal_table_witness :
  (@Sample.unavailable Prediction.MarketPrediction 0%nat = (None, 1%nat) \/
   exists marketPrediction w1,
     @Sample.unavailable Prediction.MarketPrediction 0%nat
     = (Some marketPrediction, w1) /\
     Sample.answers Sample.calmSentiment w1 = (None, 1%nat)) /\
  exists result : MarketCondition,
    Market.determineMarketCondition
      (fun _ _ => Sample.unavailable)
      (fun _ => Sample.answers Sample.calmSentiment)
      30 (-2) "^NSEI" 0%nat
    = (Some result, 1%nat) /\
    result = Market.fallbackCondition 30 (-2) /\
    Spec.fallback_rule 30 (-2) result /\
    (30 == 30 -> -2 == -2 -> result = bearish) /\
    (30 == 10 -> -2 == 2 -> result = bullish) /\
    (30 == 20 -> -2 == 0 -> result = neutral).
Proof.
  split; [left; reflexivity |].
  apply (fallback_two_signal_table Sample.World
           (fun _ _ => Sample.unavailable)
           (fun _ => Sample.answers Sample.calmSentiment)
           30 (-2) "^NSEI"%string 0%nat 1%nat).
  left. reflexivity.
Defined.

(** ** The route that optimizes a portfolio *)

Lemma includes_three (a b c : string) (v : Routes.JsValue) :
  Routes.includes [a; b; c] v = true ->
  v = Routes.JString a \/ v = Routes.JString b \/ v = Routes.JString c.
Proof.
  destruct v as [| | flag | q | s |]; simpl; try discriminate.
  rewrite !orb_true_iff, !String.eqb_eq.
  intros [H | [H | [H | H]]]; subst; auto; discriminate.
Qed.

(** A request that names a risk profile and a market condition is answered
    with the optimized portfolio. *)
Lemma optimizeRoute_accepts :
  Routes.optimizeRoute
    (Routes.mkBody (Routes.JString "moderate") (Routes.JString "bullish"))
  = {| Routes.status := 200;
       Routes.json :=
         Routes.PortfolioJson (Prediction.optimizePortfolio moderate bullish) |}.
Proof. reflexivity. Qed.

(** C5.  A request whose risk profile is not one of conservative, moderate,
    aggressive, or whose market condition is not one of bearish, neutral,
    bullish, is answered with status 400 and an error message, and with no
    allocation. *)
Theorem optimizeRoute_rejects_invalid_input :
  forall body : Routes.OptimizeBody,
    ~ Spec.valid_riskProfile (Routes.riskProfile body) \/
    ~ Spec.valid_marketCondition (Routes.marketCondition body) ->
    Routes.status (Routes.optimizeRoute body) = 400%Z /\
    exists error : string,
      Routes.json (Routes.optimizeRoute body) = Routes.ErrorJson error.
Proof.
  intros [riskProfile marketCondition] Hinvalid.
  unfold Routes.optimizeRoute.
  cbn [Routes.riskProfile Routes.marketCondition] in *.
  destruct (negb (Routes.truthy riskProfile)
            || negb (Routes.truthy marketCondition));
    [split; [reflexivity | eexists; reflexivity] |].
  destruct (Routes.includes ["conservative"; "moderate"; "aggressive"]%string
              riskProfile) eqn:Hrisk; cbn [negb];
    [| split; [reflexivity | eexists; reflexivity]].
  destruct (Routes.includes ["bearish"; "neutral"; "bullish"]%string
              marketCondition) eqn:Hmarket; cbn [negb];
    [| split; [reflexivity | eexists; reflexivity]].
  exfalso. apply includes_three in Hrisk, Hmarket.
  destruct Hinvalid as [H | H]; apply H; assumption.
Qed.

Lemma optimizeRoute_rejects_invalid_input_witness :
  (~ Spec.valid_riskProfile (Routes.JString "reckless") \/
   ~ Spec.valid_marketCondition (Routes.JString "bullish")) /\
  Routes.status
    (Routes.optimizeRoute
       (Routes.mkBody (Routes.JString "reckless") (Routes.JString "bullish")))
  = 400%Z /\
  exists error : string,
    Routes.json
      (Routes.optimizeRoute
         (Routes.mkBody (Routes.JString "reckless") (Routes.JString "bullish")))
    = Routes.ErrorJson error.
Proof.
  assert (Hinvalid :
            ~ Spec.valid_riskProfile (Routes.JString "reckless") \/
            ~ Spec.valid_marketCondition (Routes.JString "bullish")).
  { left. intros [H | [H | H]]; discriminate H. }
  split; [exact Hinvalid |].
  exact (optimizeRoute_rejects_invalid_input
           (Routes.mkBody (Routes.JString "reckless") (Routes.JString "bullish"))
           Hinvalid).
Defined.

(** ** Locales *)

Lemma MARKET_SYMBOLS_unsupported (locale : string) :
  ~ In locale Spec.supported_locales ->
  Market.MARKET_SYMBOLS !! locale = None.
Proof.
  intros Hnot. unfold Market.MARKET_SYMBOLS.
  apply not_elem_of_list_to_map_1.
  rewrite list_elem_of_In. exact Hnot.
Qed.

Lemma MARKET_SYMBOLS_supported (locale : string) :
  In locale Spec.supported_locales ->
  exists symbols, Market.MARKET_SYMBOLS !! locale = Some symbols.
Proof.
  intros [H | [H | [H | [H | []]]]]; subst locale; eexists; reflexivity.
Qed.

Section Locale.

Context {World : Type}.
Variable toUpperCase : string -> string.
Variable yf_quote : string -> Async.M World Market.Quote.
Variable predictMarketMovement :
  string -> Z -> Async.M World Prediction.MarketPrediction.
Variable analyzeNewsSentiment :
  string -> Async.M World Prediction.SentimentAnalysis.

Lemma normalizeLocale_unsupported (locale : string) :
  ~ In (toUpperCase locale) Spec.supported_locales ->
  Market.normalizeLocale toUpperCase locale = "IN"%string.
Proof.
  intros Hnot. unfold Market.normalizeLocale.
  rewrite (MARKET_SYMBOLS_unsupported _ Hnot). reflexivity.
Qed.

Lemma normalizeLocale_supported (locale : string) :
  In (toUpperCase locale) Spec.supported_locales ->
  Market.normalizeLocale toUpperCase locale = toUpperCase locale.
Proof.
  intros Hin. unfold Market.normalizeLocale.
  destruct (MARKET_SYMBOLS_supported _ Hin) as (symbols & ->). reflexivity.
Qed.

(** A successful fetch reports the locale it was asked for. *)
Lemma fetchMarketData_locale (locale : string) (w w' : World)
    (data : Market.MarketData) :
  Market.fetchMarketData yf_quote predictMarketMovement analyzeNewsSentiment
    locale w = (Some data, w') ->
  Market.locale data = locale.
Proof.
  unfold Market.fetchMarketData, Async.bind, Async.throw, Async.ret.
  repeat match goal with
         | |- context [match ?c with _ => _ end] =>
             destruct c as [[?|] ?] eqn:? || destruct c eqn:?
         end;
    intros H; inversion H; reflexivity.
Qed.

(** [getMarketCondition] never throws, and reports the normalized
    locale. *)
Lemma getMarketCondition_total (locale : option string) (w : World) :
  exists (data : Market.MarketData) (w' : World),
    Market.getMarketCondition toUpperCase yf_quote predictMarketMovement
      analyzeNewsSentiment locale w = (Some data, w') /\
    Market.locale data
    = Market.normalizeLocale toUpperCase (default "IN"%string locale).
Proof.
  unfold Market.getMarketCondition, Async.try_catch.
  set (normalized := Market.normalizeLocale toUpperCase _).
  destruct (Market.fetchMarketData yf_quote predictMarketMovement
              analyzeNewsSentiment normalized w)
    as [[data |] w'] eqn:Hfetch.
  - exists data, w'. split; [reflexivity |].
    apply (fetchMarketData_locale _ _ _ _ Hfetch).
  - eexists _, _. split; reflexivity.
Qed.

End Locale.

(** C10.  [getMarketCondition] upper-cases its locale, and a locale that is
    then none of US, IN, UK, SG is treated as IN: with the same
    collaborators and the same world, the call returns what the call with
    ["IN"] returns, and it returns market data for IN instead of failing. *)
Theorem unsupported_locale_is_IN :
  forall (World : Type)
         (toUpperCase : string -> string)
         (yf_quote : string -> Async.M World Market.Quote)
         (predictMarketMovement :
            string -> Z -> Async.M World Prediction.MarketPrediction)
         (analyzeNewsSentiment :
            string -> Async.M World Prediction.SentimentAnalysis)
         (locale : string) (w : World),
    toUpperCase "IN"%string = "IN"%string ->
    ~ In (toUpperCase locale) Spec.supported_locales ->
    Market.getMarketCondition toUpperCase yf_quote predictMarketMovement
      analyzeNewsSentiment (Some locale) w
    = Market.getMarketCondition toUpperCase yf_quote predictMarketMovement
        analyzeNewsSentiment (Some "IN"%string) w /\
    exists (data : Market.MarketData) (w' : World),
      Market.getMarketCondition toUpperCase yf_quote predictMarketMovement
        analyzeNewsSentiment (Some locale) w = (Some data, w') /\
      Market.locale data = "IN"%string.
Proof.
  intros World toUpperCase yf_quote predict analyze locale w HIN Hnot.
  pose proof (normalizeLocale_unsupported toUpperCase locale Hnot) as Hlocale.
  assert (HINnorm : Market.normalizeLocale toUpperCase "IN" = "IN"%string).
  { rewrite normalizeLocale_supported; rewrite HIN;
      [reflexivity | simpl; auto]. }
  split.
  - unfold Market.getMarketCondition. cbn [from_option id].
    rewrite Hlocale, HINnorm. reflexivity.
  - destruct (getMarketCondition_total toUpperCase yf_quote predict analyze
                (Some locale) w) as (data & w' & Hrun & Hdata).
    exists data, w'. split; [exact Hrun |].
    rewrite Hdata. cbn [from_option id]. exact Hlocale.
Qed.

Lemma unsupported_locale_is_IN_witness :
  Sample.toUpperCase "IN" = "IN"%string /\
  ~ In (Sample.toUpperCase "fr") Spec.supported_locales /\
  Market.getMarketCondition Sample.toUpperCase
    (fun _ => Sample.answers Sample.flatQuote)
    (fun _ _ => Sample.answers Sample.risingPrediction)
    (fun _ => Sample.unavailable)
    (Some "fr"%string) 0%nat
  = Market.getMarketCondition Sample.toUpperCase
      (fun _ => Sample.answers Sample.flatQuote)
      (fun _ _ => Sample.answers Sample.risingPrediction)
      (fun _ => Sample.unavailable)
      (Some "IN"%string) 0%nat /\
  exists (data : Market.MarketData) (w' : Sample.World),
    Market.getMarketCondition Sample.toUpperCase
      (fun _ => Sample.answers Sample.flatQuote)
      (fun _ _ => Sample.answers Sample.risingPrediction)
      (fun _ => Sample.unavailable)
      (Some "fr"%string) 0%nat = (Some data, w') /\
    Market.locale data = "IN"%string.
Proof.
  assert (Hnot : ~ In (Sample.toUpperCase "fr") Spec.supported_locales).
  { vm_compute. intros [H | [H | [H | [H | []]]]]; discriminate H. }
  split; [reflexivity | split; [exact Hnot |]].
  exact (unsupported_locale_is_IN Sample.World Sample.toUpperCase
           (fun _ => Sample.answers Sample.flatQuote)
           (fun _ _ => Sample.answers Sample.risingPrediction)
           (fun _ => Sample.unavailable)
           "fr"%string 0%nat eq_refl Hnot).
Defined.

(** ** The portfolio model *)

Lemma matchAllocation_in_step
    (target : Utils.AssetAllocation) (l : list Model.Asset) :
  Model.in_step target (map (Model.matchAllocation target) l).
Proof.
  unfold Model.in_step.
  induction l as [| asset rest IH]; cbn [map]; constructor; [| exact IH].
  unfold Model.matchAllocation.
  destruct (Model.type asset) eqn:Htype; cbn; rewrite Htype; reflexivity.
Qed.

Lemma matchAllocation_identity (target : Utils.AssetAllocation)
    (l : list Model.Asset) :
  map Model.id (map (Model.matchAllocation target) l) = map Model.id l /\
  map Model.name (map (Model.matchAllocation target) l) = map Model.name l /\
  map Model.type (map (Model.matchAllocation target) l) = map Model.type l.
Proof.
  rewrite !map_map. repeat split; apply map_ext; intros asset;
    unfold Model.matchAllocation;
    destruct (Model.type asset) eqn:Htype; cbn; try rewrite Htype;
    reflexivity.
Qed.

Lemma matchAllocation_twice (a b : Utils.AssetAllocation)
    (l : list Model.Asset) :
  map (Model.matchAllocation b) (map (Model.matchAllocation a) l)
  = map (Model.matchAllocation b) l.
Proof.
  rewrite map_map. apply map_ext. intros asset.
  unfold Model.matchAllocation.
  destruct (Model.type asset) eqn:Htype; cbn; rewrite Htype; reflexivity.
Qed.

(** X1.  [optimizePortfolio] of the model replaces the base and the current
    allocation by the optimizer's result for the model's risk profile; the
    current allocation then adds up to 100, every asset carries the
    percentage of the bucket of its type, and the assets keep their
    identifiers, names, types and order. *)
Theorem model_optimizePortfolio_consistent :
  forall (model : Model.PortfolioModel) (marketCondition : MarketCondition),
    let model' := Model.optimizePortfolio model marketCondition in
    Model.currentAllocation model'
    = Utils.calculateOptimalAllocation (Model.riskProfile model)
        marketCondition /\
    Model.baseAllocation model' = Model.currentAllocation model' /\
    Utils.sumOf (Model.currentAllocation model') == 100 /\
    Model.in_step (Model.currentAllocation model') (Model.assets model') /\
    map Model.id (Model.assets model') = map Model.id (Model.assets model) /\
    map Model.name (Model.assets model') = map Model.name (Model.assets model) /\
    map Model.type (Model.assets model') = map Model.type (Model.assets model).
Proof.
  intros model marketCondition model'. subst model'.
  unfold Model.optimizePortfolio.
  cbn [Model.currentAllocation Model.baseAllocation Model.assets].
  split; [reflexivity | split; [reflexivity | split; [apply allocate_total |]]].
  split; [apply matchAllocation_in_step | apply matchAllocation_identity].
Qed.

(** X2.  [rebalancePortfolio] and [changeRiskProfile] leave every asset with
    the percentage of the bucket of its type in the new current allocation;
    rebalancing keeps the base allocation, changing the risk profile resets
    base and current allocation to the default row of the new profile. *)
Theorem model_rebalance_and_profile_in_step :
  forall (model : Model.PortfolioModel),
    (forall targetAllocation : Utils.AssetAllocation,
        let model' := Model.rebalancePortfolio model targetAllocation in
        Model.currentAllocation model' = targetAllocation /\
        Model.baseAllocation model' = Model.baseAllocation model /\
        Model.in_step targetAllocation (Model.assets model')) /\
    (forall riskProfile : RiskProfile,
        let model' := Model.changeRiskProfile model riskProfile in
        Model.riskProfile model' = riskProfile /\
        Model.currentAllocation model' = Model.DEFAULT_ALLOCATIONS riskProfile /\
        Model.baseAllocation model' = Model.DEFAULT_ALLOCATIONS riskProfile /\
        Utils.sumOf (Model.currentAllocation model') == 100 /\
        Model.in_step (Model.currentAllocation model') (Model.assets model')).
Proof.
  intros model. split.
  - intros targetAllocation model'. subst model'.
    repeat split. apply matchAllocation_in_step.
  - intros riskProfile model'. subst model'.
    split; [reflexivity | split; [reflexivity | split; [reflexivity |]]].
    split; [destruct riskProfile; by_evaluation |].
    apply matchAllocation_in_step.
Qed.

(** X3.  The last optimization wins: optimizing for one market condition
    and then for another gives the model that optimizing for the second
    alone gives; in particular optimizing twice for the same condition
    changes nothing the second time.  The same holds for rebalancing. *)
Theorem model_last_operation_wins :
  forall (model : Model.PortfolioModel),
    (forall c1 c2 : MarketCondition,
        Model.optimizePortfolio (Model.optimizePortfolio model c1) c2
        = Model.optimizePortfolio model c2) /\
    (forall a b : Utils.AssetAllocation,
        Model.rebalancePortfolio (Model.rebalancePortfolio model a) b
        = Model.rebalancePortfolio model b).
Proof.
  intros model. split.
  - intros c1 c2. unfold Model.optimizePortfolio.
    cbn [Model.userId Model.riskProfile Model.assets].
    rewrite matchAllocation_twice. reflexivity.
  - intros a b. unfold Model.rebalancePortfolio.
    cbn [Model.userId Model.riskProfile Model.baseAllocation Model.assets].
    rewrite matchAllocation_twice. reflexivity.
Qed.

(** X4.  The table of default allocations of the model and the base table of
    the optimizer agree: optimizing a model for a neutral market is the same
    as resetting it to its own risk profile. *)
Theorem model_optimize_neutral_is_reset :
  forall model : Model.PortfolioModel,
    Model.optimizePortfolio model neutral
    = Model.changeRiskProfile model (Model.riskProfile model).
Proof.
  intros model. unfold Model.optimizePortfolio, Model.changeRiskProfile.
  assert (Hrow : Utils.calculateOptimalAllocation (Model.riskProfile model)
                   neutral
                 = Model.DEFAULT_ALLOCATIONS (Model.riskProfile model)).
  { destruct (Model.riskProfile model); by_evaluation. }
  rewrite Hrow. reflexivity.
Qed.

Lemma filter_other_ids_fresh (assetId : string) (l : list Model.Asset) :
  Forall (fun asset => Model.id asset <> assetId) l ->
  List.filter (fun asset => negb (String.eqb (Model.id asset) assetId)) l = l.
Proof.
  induction 1 as [| asset rest Hfresh _ IH]; cbn [List.filter];
    [reflexivity |].
  apply String.eqb_neq in Hfresh. rewrite Hfresh. cbn [negb].
  rewrite IH. reflexivity.
Qed.

(** X5.  [removeAsset] removes every asset that has the identifier and no
    other: afterwards no asset has it, the remaining assets are those with
    another identifier, in their order, and allocations and risk profile
    are as before; removing the same identifier again changes nothing. *)
Theorem model_removeAsset_removes_all :
  forall (model : Model.PortfolioModel) (assetId : string),
    let model' := Model.removeAsset model assetId in
    Forall (fun asset => Model.id asset <> assetId) (Model.assets model') /\
    (forall asset : Model.Asset,
        In asset (Model.assets model') <->
        In asset (Model.assets model) /\ Model.id asset <> assetId) /\
    sublist (Model.assets model') (Model.assets model) /\
    Model.currentAllocation model' = Model.currentAllocation model /\
    Model.baseAllocation model' = Model.baseAllocation model /\
    Model.removeAsset model' assetId = model'.
Proof.
  intros model assetId model'. subst model'. unfold Model.removeAsset.
  cbn [Model.assets Model.currentAllocation Model.baseAllocation
       Model.userId Model.riskProfile].
  assert (Hgone :
            Forall (fun asset => Model.id asset <> assetId)
              (List.filter
                 (fun asset => negb (String.eqb (Model.id asset) assetId))
                 (Model.assets model))).
  { apply List.Forall_forall. intros asset Hin.
    apply List.filter_In in Hin as [_ Hid].
    apply negb_true_iff, String.eqb_neq in Hid. exact Hid. }
  split; [exact Hgone |].
  split; [| split; [| split; [reflexivity | split; [reflexivity |]]]].
  - intros asset. rewrite List.filter_In, negb_true_iff, String.eqb_neq.
    reflexivity.
  - clear Hgone.
    induction (Model.assets model) as [| asset rest IH]; cbn [List.filter].
    + constructor.
    + destruct (negb (String.eqb (Model.id asset) assetId)).
      * apply sublist_skip, IH.
      * apply sublist_cons, IH.
  - rewrite (filter_other_ids_fresh _ _ Hgone). reflexivity.
Qed.

(** X6.  Adding an asset whose identifier no asset of the model has, and
    then removing that identifier, gives the model back. *)
Theorem model_add_then_remove :
  forall (model : Model.PortfolioModel) (asset : Model.Asset),
    Forall (fun other => Model.id other <> Model.id asset)
      (Model.assets model) ->
    Model.removeAsset (Model.addAsset model asset) (Model.id asset) = model.
Proof.
  intros [userId riskProfile base current assets] asset Hfresh.
  unfold Model.removeAsset, Model.addAsset.
  cbn [Model.assets Model.currentAllocation Model.baseAllocation
       Model.userId Model.riskProfile] in *.
  rewrite List.filter_app, (filter_other_ids_fresh _ _ Hfresh).
  cbn [List.filter]. rewrite String.eqb_refl. cbn [negb].
  rewrite app_nil_r. reflexivity.
Qed.

Lemma model_add_then_remove_witness :
  Forall (fun other => Model.id other <> "gold-2"%string)
    [Model.mkAsset "eq-1" "Core Equity ETF" Model.equity 50 10 Model.medium] /\
  Model.removeAsset
    (Model.addAsset
       (Model.mkModel 7 moderate (Model.DEFAULT_ALLOCATIONS moderate)
          (Model.DEFAULT_ALLOCATIONS moderate)
          [Model.mkAsset "eq-1" "Core Equity ETF" Model.equity 50 10
             Model.medium])
       (Model.mkAsset "gold-2" "Gold ETF" Model.gold 12 6 Model.medium))
    "gold-2"
  = Model.mkModel 7 moderate (Model.DEFAULT_ALLOCATIONS moderate)
      (Model.DEFAULT_ALLOCATIONS moderate)
      [Model.mkAsset "eq-1" "Core Equity ETF" Model.equity 50 10 Model.medium].
Proof.
  assert (Hfresh :
            Forall (fun other => Model.id other <> "gold-2"%string)
              [Model.mkAsset "eq-1" "Core Equity ETF" Model.equity 50 10
                 Model.medium]).
  { repeat constructor. cbn. discriminate. }
  split; [exact Hfresh |].
  exact (model_add_then_remove
           (Model.mkModel 7 moderate (Model.DEFAULT_ALLOCATIONS moderate)
              (Model.DEFAULT_ALLOCATIONS moderate)
              [Model.mkAsset "eq-1" "Core Equity ETF" Model.equity 50 10
                 Model.medium])
           (Model.mkAsset "gold-2" "Gold ETF" Model.gold 12 6 Model.medium)
           Hfresh).
Defined.

(** The reducer of [updateAssetAllocation] leaves in each bucket the
    percentage of the last asset of that type, and what the bucket held
    when there is no such asset. *)
Lemma fold_recordAllocation (l : list Model.Asset) :
  forall (acc : Utils.AssetAllocation) (t : Model.AssetType),
    Model.bucket (fold_left Model.recordAllocation l acc) t
    = match last (Model.ofType t l) with
      | Some asset => Model.allocation asset
      | None => Model.bucket acc t
      end.
Proof.
  induction l as [| asset rest IH]; intros acc t; [reflexivity |].
  cbn [fold_left]. rewrite IH. unfold Model.ofType. cbn [List.filter].
  fold (Model.ofType t rest).
  unfold Model.recordAllocation.
  destruct (Model.type asset), t; cbn [Model.bucket Utils.equity Utils.debt
                                        Utils.gold Utils.cash];
    try reflexivity;
    rewrite last_cons; destruct (last (Model.ofType _ rest)); reflexivity.
Qed.

Lemma update_map_unknown (assetId : string) (allocation : Q)
    (l : list Model.Asset) :
  Forall (fun asset => Model.id asset <> assetId) l ->
  map (fun asset =>
         if String.eqb (Model.id asset) assetId
         then Model.withAllocation asset allocation
         else asset) l = l.
Proof.
  induction 1 as [| asset rest Hfresh _ IH]; cbn [map]; [reflexivity |].
  apply String.eqb_neq in Hfresh. rewrite Hfresh, IH. reflexivity.
Qed.

(** X7.  [updateAssetAllocation] recomputes the current allocation from the
    assets alone: each bucket gets the percentage of the last asset of its
    type and 0 when the model has no asset of that type, whatever the
    current allocation was; nothing is rescaled.  The base allocation, the
    identifiers and the types of the assets are kept. *)
Theorem model_updateAssetAllocation_recomputes :
  forall (model : Model.PortfolioModel) (assetId : string) (allocation : Q)
         (t : Model.AssetType),
    let model' := Model.updateAssetAllocation model assetId allocation in
    Model.bucket (Model.currentAllocation model') t
    = match last (Model.ofType t (Model.assets model')) with
      | Some asset => Model.allocation asset
      | None => 0
      end /\
    Model.baseAllocation model' = Model.baseAllocation model /\
    map Model.id (Model.assets model') = map Model.id (Model.assets model) /\
    map Model.type (Model.assets model') = map Model.type (Model.assets model).
Proof.
  intros model assetId allocation t model'. subst model'.
  unfold Model.updateAssetAllocation.
  cbn [Model.currentAllocation Model.baseAllocation Model.assets].
  split; [| split; [reflexivity |]].
  - rewrite fold_recordAllocation.
    destruct (last _); [reflexivity | destruct t; reflexivity].
  - rewrite !map_map. split; apply map_ext; intros asset;
      destruct (String.eqb (Model.id asset) assetId); reflexivity.
Qed.

(** X8.  An identifier that no asset has makes [updateAssetAllocation] keep
    the assets as they are; the current allocation is recomputed from them
    all the same. *)
Theorem model_updateAssetAllocation_unknown :
  forall (model : Model.PortfolioModel) (assetId : string) (allocation : Q),
    Forall (fun asset => Model.id asset <> assetId) (Model.assets model) ->
    Model.assets (Model.updateAssetAllocation model assetId allocation)
    = Model.assets model /\
    Model.currentAllocation
      (Model.updateAssetAllocation model assetId allocation)
    = fold_left Model.recordAllocation (Model.assets model)
        {| Utils.equity := 0; Utils.debt := 0;
           Utils.gold := 0; Utils.cash := 0 |}.
Proof.
  intros model assetId allocation Hfresh.
  unfold Model.updateAssetAllocation.
  cbn [Model.assets Model.currentAllocation].
  rewrite (update_map_unknown _ _ _ Hfresh). split; reflexivity.
Qed.

Lemma model_updateAssetAllocation_unknown_witness :
  Forall (fun asset => Model.id asset <> "none"%string)
    [Model.mkAsset "eq-1" "Core Equity ETF" Model.equity 40 10 Model.medium] /\
  Model.assets
    (Model.updateAssetAllocation
       (Model.mkModel 7 moderate (Model.DEFAULT_ALLOCATIONS moderate)
          (Model.DEFAULT_ALLOCATIONS moderate)
          [Model.mkAsset "eq-1" "Core Equity ETF" Model.equity 40 10
             Model.medium])
       "none" 90)
  = [Model.mkAsset "eq-1" "Core Equity ETF" Model.equity 40 10 Model.medium] /\
  Model.currentAllocation
    (Model.updateAssetAllocation
       (Model.mkModel 7 moderate (Model.DEFAULT_ALLOCATIONS moderate)
          (Model.DEFAULT_ALLOCATIONS moderate)
          [Model.mkAsset "eq-1" "Core Equity ETF" Model.equity 40 10
             Model.medium])
       "none" 90)
  = fold_left Model.recordAllocation
      [Model.mkAsset "eq-1" "Core Equity ETF" Model.equity 40 10 Model.medium]
      {| Utils.equity := 0; Utils.debt := 0; Utils.gold := 0; Utils.cash := 0 |}.
Proof.
  assert (Hfresh :
            Forall (fun asset => Model.id asset <> "none"%string)
              [Model.mkAsset "eq-1" "Core Equity ETF" Model.equity 40 10
                 Model.medium]).
  { repeat constructor. cbn. discriminate. }
  split; [exact Hfresh |].
  exact (model_updateAssetAllocation_unknown
           (Model.mkModel 7 moderate (Model.DEFAULT_ALLOCATIONS moderate)
              (Model.DEFAULT_ALLOCATIONS moderate)
              [Model.mkAsset "eq-1" "Core Equity ETF" Model.equity 40 10
                 Model.medium])
           "none"%string 90 Hfresh).
Defined.

Lemma ofType_none (t : Model.AssetType) (l : list Model.Asset) :
  (forall other, In other l -> Model.type other <> t) ->
  Model.ofType t l = [].
Proof.
  unfold Model.ofType.
  induction l as [| other rest IH]; intros Hnone; [reflexivity |].
  cbn [List.filter].
  pose proof (Hnone other (or_introl eq_refl)) as Hdiff.
  rewrite IH by (intros x Hx; apply Hnone; right; exact Hx).
  destruct (Model.type other), t;
    first [reflexivity | exfalso; apply Hdiff; reflexivity].
Qed.

Lemma ofType_single (l : list Model.Asset) :
  NoDup (map Model.type l) ->
  forall asset : Model.Asset,
    In asset l -> Model.ofType (Model.type asset) l = [asset].
Proof.
  induction l as [| first rest IH]; intros Hnodup asset Hin; [destruct Hin |].
  cbn [map] in Hnodup. apply NoDup_cons in Hnodup as [Hfirst Hrest].
  assert (Hnone : forall other,
             In other rest -> Model.type other <> Model.type first).
  { intros other Hother Heq. apply Hfirst. rewrite <- Heq.
    apply list_elem_of_In, in_map, Hother. }
  unfold Model.ofType. cbn [List.filter].
  fold (Model.ofType (Model.type asset) rest).
  destruct Hin as [-> | Hin].
  - rewrite (ofType_none _ _ Hnone).
    destruct (Model.type asset); reflexivity.
  - rewrite (IH Hrest asset Hin).
    pose proof (Hnone asset Hin) as Hdiff.
    destruct (Model.type first), (Model.type asset);
      first [reflexivity | exfalso; apply Hdiff; reflexivity].
Qed.

(** X9.  In a model with at most one asset per type, as
    [createPortfolioModel] builds it, [updateAssetAllocation] leaves every
    asset with the percentage of the bucket of its type in the recomputed
    current allocation. *)
Theorem model_updateAssetAllocation_in_step :
  forall (model : Model.PortfolioModel) (assetId : string) (allocation : Q),
    NoDup (map Model.type (Model.assets model)) ->
    let model' := Model.updateAssetAllocation model assetId allocation in
    Model.in_step (Model.currentAllocation model') (Model.assets model').
Proof.
  intros model assetId allocation Hnodup model'. subst model'.
  unfold Model.updateAssetAllocation.
  cbn [Model.currentAllocation Model.assets].
  set (newAssets := map _ (Model.assets model)).
  assert (Htypes : NoDup (map Model.type newAssets)).
  { replace (map Model.type newAssets)
      with (map Model.type (Model.assets model)); [exact Hnodup |].
    subst newAssets. rewrite map_map. apply map_ext. intros asset.
    destruct (String.eqb (Model.id asset) assetId); reflexivity. }
  apply List.Forall_forall. intros asset Hin.
  rewrite fold_recordAllocation, (ofType_single _ Htypes asset Hin).
  reflexivity.
Qed.

Lemma model_updateAssetAllocation_in_step_witness :
  NoDup
    (map Model.type
       [Model.mkAsset "eq-1" "Core Equity ETF" Model.equity 50 10 Model.medium;
        Model.mkAsset "au-1" "Gold ETF" Model.gold 12 6 Model.medium]) /\
  Model.in_step
    (Model.currentAllocation
       (Model.updateAssetAllocation
          (Model.mkModel 7 moderate (Model.DEFAULT_ALLOCATIONS moderate)
             (Model.DEFAULT_ALLOCATIONS moderate)
             [Model.mkAsset "eq-1" "Core Equity ETF" Model.equity 50 10
                Model.medium;
              Model.mkAsset "au-1" "Gold ETF" Model.gold 12 6 Model.medium])
          "eq-1" 65))
    (Model.assets
       (Model.updateAssetAllocation
          (Model.mkModel 7 moderate (Model.DEFAULT_ALLOCATIONS moderate)
             (Model.DEFAULT_ALLOCATIONS moderate)
             [Model.mkAsset "eq-1" "Core Equity ETF" Model.equity 50 10
                Model.medium;
              Model.mkAsset "au-1" "Gold ETF" Model.gold 12 6 Model.medium])
          "eq-1" 65)).
Proof.
  assert (Hnodup :
            NoDup
              (map Model.type
                 [Model.mkAsset "eq-1" "Core Equity ETF" Model.equity 50 10
                    Model.medium;
                  Model.mkAsset "au-1" "Gold ETF" Model.gold 12 6
                    Model.medium])).
  { cbn [map Model.type].
    apply NoDup_cons; split.
    - intros Hin. apply list_elem_of_In in Hin.
      destruct Hin as [Heq | []]; discriminate Heq.
    - apply NoDup_cons; split; [intros Hin; inversion Hin | apply NoDup_nil_2]. }
  split; [exact Hnodup |].
  exact (model_updateAssetAllocation_in_step
           (Model.mkModel 7 moderate (Model.DEFAULT_ALLOCATIONS moderate)
              (Model.DEFAULT_ALLOCATIONS moderate)
              [Model.mkAsset "eq-1" "Core Equity ETF" Model.equity 50 10
                 Model.medium;
               Model.mkAsset "au-1" "Gold ETF" Model.gold 12 6 Model.medium])
           "eq-1"%string 65 Hnodup).
Defined.

(** X10.  A model created without options has the default row of its risk
    profile (moderate when none is given) as base and current allocation,
    adding up to 100, and four assets, one per type in the order equity,
    debt, gold, cash, each with the percentage of its bucket; it draws
    exactly four identifiers.  Assets passed in the options are taken as
    they are and no identifier is drawn. *)
Theorem createPortfolioModel_default :
  forall (World : Type) (generateId : World -> string * World)
         (userId : Z) (riskProfile : option RiskProfile) (w : World),
    let created := Model.createPortfolioModel generateId userId riskProfile None w in
    let model := fst created in
    Model.riskProfile model = default moderate riskProfile /\
    Model.baseAllocation model = Model.DEFAULT_ALLOCATIONS (Model.riskProfile model) /\
    Model.currentAllocation model = Model.baseAllocation model /\
    Utils.sumOf (Model.currentAllocation model) == 100 /\
    map Model.type (Model.assets model)
    = [Model.equity; Model.debt; Model.gold; Model.cash] /\
    Model.in_step (Model.currentAllocation model) (Model.assets model) /\
    map Model.id (Model.assets model)
    = [ fst (generateId w);
        fst (generateId (snd (generateId w)));
        fst (generateId (snd (generateId (snd (generateId w)))));
        fst (generateId
               (snd (generateId (snd (generateId (snd (generateId w))))))) ] /\
    snd created
    = snd (generateId
             (snd (generateId (snd (generateId (snd (generateId w))))))) /\
    (forall (assets : list Model.Asset),
        Model.createPortfolioModel generateId userId riskProfile
          (Some (Model.mkOptions None None (Some assets))) w
        = ({| Model.userId := userId;
              Model.riskProfile := default moderate riskProfile;
              Model.baseAllocation :=
                Model.DEFAULT_ALLOCATIONS (default moderate riskProfile);
              Model.currentAllocation :=
                Model.DEFAULT_ALLOCATIONS (default moderate riskProfile);
              Model.assets := assets |}, w)).
Proof.
  intros World generateId userId riskProfile w created model.
  subst model created.
  unfold Model.createPortfolioModel, Model.defaultAssets.
  cbn [mbind option_bind from_option id].
  destruct (generateId w) as [id1 w1]. cbn [fst snd].
  destruct (generateId w1) as [id2 w2]. cbn [fst snd].
  destruct (generateId w2) as [id3 w3]. cbn [fst snd].
  destruct (generateId w3) as [id4 w4].
  cbn [fst snd Model.riskProfile Model.baseAllocation Model.currentAllocation
       Model.assets map Model.type Model.id].
  repeat split.
  - destruct riskProfile as [[] |]; by_evaluation.
  - repeat constructor.
Qed.

(** ** The portfolio protocol *)

Lemma reduce_listeners (p : Protocol.Protocol)
    (action : Protocol.PortfolioAction) :
  Protocol.listeners (Protocol.reduce p action) = Protocol.listeners p.
Proof. destruct action; reflexivity. Qed.

(** The state reached by an action does not depend on who listens. *)
Lemma reduce_getState (p q : Protocol.Protocol)
    (action : Protocol.PortfolioAction) :
  Protocol.getState p = Protocol.getState q ->
  Protocol.getState (Protocol.reduce p action)
  = Protocol.getState (Protocol.reduce q action).
Proof.
  destruct p as [pm pc pl], q as [qm qc ql]. unfold Protocol.getState.
  cbn [Protocol.model Protocol.context]. intros Heq.
  injection Heq as -> ->. destruct action; reflexivity.
Qed.

Lemma statesAfter_getState (actions : list Protocol.PortfolioAction) :
  forall p q : Protocol.Protocol,
    Protocol.getState p = Protocol.getState q ->
    Protocol.statesAfter p actions = Protocol.statesAfter q actions.
Proof.
  induction actions as [| action rest IH]; intros p q Heq; [reflexivity |].
  cbn [Protocol.statesAfter].
  rewrite (reduce_getState p q action Heq).
  rewrite (IH _ _ (reduce_getState p q action Heq)). reflexivity.
Qed.

Lemma dispatchAll_cons (p : Protocol.Protocol)
    (action : Protocol.PortfolioAction)
    (rest : list Protocol.PortfolioAction) :
  Protocol.dispatchAll p (action :: rest)
  = (fst (Protocol.dispatchAll (Protocol.reduce p action) rest),
     Protocol.notifyListeners (Protocol.reduce p action)
     ++ snd (Protocol.dispatchAll (Protocol.reduce p action) rest)).
Proof.
  cbn [Protocol.dispatchAll Protocol.dispatch].
  destruct (Protocol.dispatchAll (Protocol.reduce p action) rest).
  reflexivity.
Qed.

Lemma dispatchAll_listeners (actions : list Protocol.PortfolioAction) :
  forall p : Protocol.Protocol,
    Protocol.listeners (fst (Protocol.dispatchAll p actions))
    = Protocol.listeners p.
Proof.
  induction actions as [| action rest IH]; intros p; [reflexivity |].
  rewrite dispatchAll_cons. cbn [fst].
  rewrite IH. apply reduce_listeners.
Qed.

Lemma dispatchAll_app (a b : list Protocol.PortfolioAction) :
  forall p : Protocol.Protocol,
    Protocol.dispatchAll p (a ++ b)
    = (fst (Protocol.dispatchAll (fst (Protocol.dispatchAll p a)) b),
       snd (Protocol.dispatchAll p a)
       ++ snd (Protocol.dispatchAll (fst (Protocol.dispatchAll p a)) b)).
Proof.
  induction a as [| action rest IH]; intros p.
  - cbn [app Protocol.dispatchAll fst snd].
    destruct (Protocol.dispatchAll p b). reflexivity.
  - rewrite <- app_comm_cons, !dispatchAll_cons, IH. cbn [fst snd].
    rewrite app_assoc. reflexivity.
Qed.

Lemma received_app (listener : Protocol.Listener)
    (a b : list Protocol.Call) :
  Protocol.received listener (a ++ b)
  = Protocol.received listener a ++ Protocol.received listener b.
Proof.
  unfold Protocol.received. rewrite List.filter_app, map_app. reflexivity.
Qed.

(** A notification calls a listener once for each time it is subscribed. *)
Lemma received_notifyListeners (listener : Protocol.Listener)
    (p : Protocol.Protocol) :
  Protocol.received listener (Protocol.notifyListeners p)
  = repeat (Protocol.getState p)
      (count_occ Nat.eq_dec (Protocol.listeners p) listener).
Proof.
  unfold Protocol.received, Protocol.notifyListeners.
  induction (Protocol.listeners p) as [| x rest IH]; [reflexivity |].
  cbn [map List.filter fst count_occ].
  destruct (Nat.eq_dec x listener) as [-> | Hneq].
  - rewrite Nat.eqb_refl. cbn [map snd repeat]. rewrite IH. reflexivity.
  - apply Nat.eqb_neq in Hneq. rewrite Hneq. exact IH.
Qed.

Lemma received_dispatchAll (listener : Protocol.Listener) (n : nat)
    (actions : list Protocol.PortfolioAction) :
  forall p : Protocol.Protocol,
    count_occ Nat.eq_dec (Protocol.listeners p) listener = n ->
    Protocol.received listener (snd (Protocol.dispatchAll p actions))
    = flat_map (fun state => repeat state n) (Protocol.statesAfter p actions).
Proof.
  induction actions as [| action rest IH]; intros p Hcount; [reflexivity |].
  rewrite dispatchAll_cons. cbn [snd Protocol.statesAfter flat_map].
  rewrite received_app, received_notifyListeners, reduce_listeners, Hcount.
  rewrite IH; [reflexivity |]. rewrite reduce_listeners. exact Hcount.
Qed.

Lemma flat_map_repeat_0 {A : Type} (l : list A) :
  flat_map (fun x => repeat x 0) l = [].
Proof. induction l as [| x rest IH]; [reflexivity | exact IH]. Qed.

Lemma flat_map_repeat_1 {A : Type} (l : list A) :
  flat_map (fun x => repeat x 1) l = l.
Proof.
  induction l as [| x rest IH]; [reflexivity |].
  simpl. f_equal. exact IH.
Qed.

Lemma removeFirst_fresh (listener : Protocol.Listener)
    (l : list Protocol.Listener) :
  ~ In listener l -> Protocol.removeFirst listener (l ++ [listener]) = l.
Proof.
  induction l as [| x rest IH]; intros Hfresh; cbn [app Protocol.removeFirst].
  - rewrite Nat.eqb_refl. reflexivity.
  - destruct (Nat.eqb x listener) eqn:Heq.
    + apply Nat.eqb_eq in Heq. exfalso. apply Hfresh. left. exact Heq.
    + rewrite IH; [reflexivity |]. intros Hin. apply Hfresh. right. exact Hin.
Qed.

Lemma removeFirst_present (listener : Protocol.Listener)
    (l : list Protocol.Listener) :
  In listener l ->
  Protocol.removeFirst listener (l ++ [listener])
  = Protocol.removeFirst listener l ++ [listener] /\
  Permutation (listener :: Protocol.removeFirst listener l) l.
Proof.
  induction l as [| x rest IH]; intros Hin; [destruct Hin |].
  cbn [app Protocol.removeFirst].
  destruct (Nat.eqb x listener) eqn:Heq.
  - apply Nat.eqb_eq in Heq. subst x. split; reflexivity.
  - apply Nat.eqb_neq in Heq.
    destruct Hin as [Hx | Hin]; [contradiction |].
    destruct (IH Hin) as [Happ Hperm]. split.
    + rewrite Happ. reflexivity.
    + rewrite Permutation_swap. constructor. exact Hperm.
Qed.

(** X11.  A listener that subscribes while it is not yet subscribed, and
    unsubscribes later, is called exactly once at the subscription, with the
    current state, and once after each action dispatched in between, with
    the state that action led to; it is called for no action dispatched
    after it unsubscribed, and the list of listeners is then as it was. *)
Theorem protocol_subscription_lifetime :
  forall (p : Protocol.Protocol) (listener : Protocol.Listener)
         (before after : list Protocol.PortfolioAction),
    ~ In listener (Protocol.listeners p) ->
    let subscribed := Protocol.subscribe p listener in
    let ran := Protocol.dispatchAll (fst subscribed) before in
    let left := Protocol.unsubscribe (fst ran) listener in
    let finished := Protocol.dispatchAll left after in
    Protocol.received listener (snd subscribed ++ snd ran ++ snd finished)
    = Protocol.getState p :: Protocol.statesAfter p before /\
    Protocol.listeners (fst finished) = Protocol.listeners p.
Proof.
  intros p listener before after Hfresh subscribed ran left finished.
  assert (Hleft : Protocol.listeners left = Protocol.listeners p).
  { subst left ran subscribed. unfold Protocol.unsubscribe.
    cbn [Protocol.listeners]. rewrite dispatchAll_listeners.
    cbn [Protocol.subscribe fst Protocol.listeners].
    apply removeFirst_fresh, Hfresh. }
  assert (Hzero : count_occ Nat.eq_dec (Protocol.listeners p) listener = 0%nat).
  { apply count_occ_not_In, Hfresh. }
  split.
  - rewrite !received_app. subst finished ran.
    rewrite (received_dispatchAll listener 0 after left)
      by (rewrite Hleft; exact Hzero).
    rewrite (received_dispatchAll listener 1 before (fst subscribed)).
    + rewrite flat_map_repeat_0, flat_map_repeat_1, app_nil_r.
      subst subscribed. unfold Protocol.received.
      cbn [Protocol.subscribe fst snd List.filter map].
      rewrite Nat.eqb_refl. cbn [map snd app].
      f_equal. apply statesAfter_getState. reflexivity.
    + subst subscribed. cbn [Protocol.subscribe fst Protocol.listeners].
      unfold Protocol.Listener in *.
      rewrite count_occ_app, Hzero. cbn [count_occ].
      destruct (Nat.eq_dec listener listener) as [_ | Hneq];
        [reflexivity | contradiction].
  - subst finished. rewrite dispatchAll_listeners. exact Hleft.
Qed.

Lemma protocol_subscription_lifetime_witness :
  ~ In 2%nat (Protocol.listeners Fixtures.watched) /\
  Protocol.received 2%nat
    (snd (Protocol.subscribe Fixtures.watched 2%nat)
     ++ snd (Protocol.dispatchAll
               (fst (Protocol.subscribe Fixtures.watched 2%nat))
               [Protocol.OPTIMIZE_PORTFOLIO bullish])
     ++ snd (Protocol.dispatchAll
               (Protocol.unsubscribe
                  (fst (Protocol.dispatchAll
                          (fst (Protocol.subscribe Fixtures.watched 2%nat))
                          [Protocol.OPTIMIZE_PORTFOLIO bullish]))
                  2%nat)
               [Protocol.REMOVE_ASSET "au-1"]))
  = Protocol.getState Fixtures.watched
    :: Protocol.statesAfter Fixtures.watched
         [Protocol.OPTIMIZE_PORTFOLIO bullish] /\
  Protocol.listeners
    (fst (Protocol.dispatchAll
            (Protocol.unsubscribe
               (fst (Protocol.dispatchAll
                       (fst (Protocol.subscribe Fixtures.watched 2%nat))
                       [Protocol.OPTIMIZE_PORTFOLIO bullish]))
               2%nat)
            [Protocol.REMOVE_ASSET "au-1"]))
  = Protocol.listeners Fixtures.watched.
Proof.
  assert (Hfresh : ~ In 2%nat (Protocol.listeners Fixtures.watched)).
  { cbn. intros [H | []]. discriminate H. }
  split; [exact Hfresh |].
  exact (protocol_subscription_lifetime Fixtures.watched 2%nat
           [Protocol.OPTIMIZE_PORTFOLIO bullish]
           [Protocol.REMOVE_ASSET "au-1"%string] Hfresh).
Defined.

(** X12.  Subscribing a listener and unsubscribing it at once leaves model
    and context alone and the same listeners subscribed, as many times each;
    the list itself is as before when the listener was not subscribed, and
    otherwise it is the earlier subscription that is dropped: the listener
    moves to the end of the list. *)
Theorem protocol_subscribe_unsubscribe :
  forall (p : Protocol.Protocol) (listener : Protocol.Listener),
    let p' := Protocol.unsubscribe (fst (Protocol.subscribe p listener))
                listener in
    Protocol.getState p' = Protocol.getState p /\
    Permutation (Protocol.listeners p') (Protocol.listeners p) /\
    (~ In listener (Protocol.listeners p) ->
     Protocol.listeners p' = Protocol.listeners p) /\
    (In listener (Protocol.listeners p) ->
     Protocol.listeners p'
     = Protocol.removeFirst listener (Protocol.listeners p) ++ [listener]).
Proof.
  intros p listener p'. subst p'.
  unfold Protocol.unsubscribe, Protocol.subscribe.
  cbn [fst Protocol.listeners Protocol.model Protocol.context].
  split; [reflexivity |].
  assert (Hcases :
            In listener (Protocol.listeners p)
            \/ ~ In listener (Protocol.listeners p)).
  { destruct (in_dec Nat.eq_dec listener (Protocol.listeners p));
      [left | right]; assumption. }
  split; [| split].
  - destruct Hcases as [Hin | Hfresh].
    + destruct (removeFirst_present listener _ Hin) as [-> Hperm].
      rewrite <- Hperm at 2.
      rewrite Permutation_app_comm. reflexivity.
    + rewrite (removeFirst_fresh listener _ Hfresh). reflexivity.
  - intros Hfresh. apply removeFirst_fresh, Hfresh.
  - intros Hin. apply removeFirst_present, Hin.
Qed.

Lemma dispatchAll_state (actions : list Protocol.PortfolioAction) :
  forall p : Protocol.Protocol,
    Protocol.marketCondition (Protocol.context (fst (Protocol.dispatchAll p actions)))
    = Protocol.lastOptimized (Protocol.marketCondition (Protocol.context p))
        actions /\
    Protocol.userAge (Protocol.context (fst (Protocol.dispatchAll p actions)))
    = Protocol.userAge (Protocol.context p) /\
    Protocol.userGoals (Protocol.context (fst (Protocol.dispatchAll p actions)))
    = Protocol.userGoals (Protocol.context p) /\
    Model.userId (Protocol.model (fst (Protocol.dispatchAll p actions)))
    = Model.userId (Protocol.model p).
Proof.
  induction actions as [| action rest IH]; intros p;
    [repeat split; reflexivity |].
  rewrite dispatchAll_cons. cbn [fst].
  destruct (IH (Protocol.reduce p action)) as (-> & -> & -> & ->).
  destruct action; repeat split; reflexivity.
Qed.

(** X13.  Whatever actions are dispatched, the market condition of the
    context is the one of the last [OPTIMIZE_PORTFOLIO] among them (the
    initial one when there is none), the age and the goals of the context
    and the user of the model never change, and no action subscribes or
    unsubscribes a listener. *)
Theorem protocol_context_follows_optimize :
  forall (p : Protocol.Protocol) (actions : list Protocol.PortfolioAction),
    let p' := fst (Protocol.dispatchAll p actions) in
    Protocol.marketCondition (Protocol.context p')
    = Protocol.lastOptimized (Protocol.marketCondition (Protocol.context p))
        actions /\
    Protocol.userAge (Protocol.context p') = Protocol.userAge (Protocol.context p) /\
    Protocol.userGoals (Protocol.context p')
    = Protocol.userGoals (Protocol.context p) /\
    Model.userId (Protocol.model p') = Model.userId (Protocol.model p) /\
    Protocol.listeners p' = Protocol.listeners p.
Proof.
  intros p actions p'. subst p'.
  destruct (dispatchAll_state actions p) as (H1 & H2 & H3 & H4).
  repeat split; try assumption. apply dispatchAll_listeners.
Qed.

(** X14.  Whatever was dispatched before, once [OPTIMIZE_PORTFOLIO] is
    dispatched the context has its market condition, the current allocation
    of the model is the base allocation and adds up to 100, every asset has
    the percentage of the bucket of its type, and each subscribed listener
    has been handed this very state last. *)
Theorem protocol_optimize_restores_consistency :
  forall (p : Protocol.Protocol) (actions : list Protocol.PortfolioAction)
         (marketCondition : MarketCondition),
    let outcome :=
      Protocol.dispatchAll p
        (actions ++ [Protocol.OPTIMIZE_PORTFOLIO marketCondition]) in
    let model' := Protocol.model (fst outcome) in
    Protocol.marketCondition (Protocol.context (fst outcome)) = marketCondition /\
    Model.baseAllocation model' = Model.currentAllocation model' /\
    Utils.sumOf (Model.currentAllocation model') == 100 /\
    Model.in_step (Model.currentAllocation model') (Model.assets model') /\
    (forall listener : Protocol.Listener,
        In listener (Protocol.listeners p) ->
        last (Protocol.received listener (snd outcome))
        = Some (Protocol.getState (fst outcome))).
Proof.
  intros p actions marketCondition outcome model'. subst model' outcome.
  rewrite dispatchAll_app.
  set (before := Protocol.dispatchAll p actions).
  cbn [fst snd Protocol.dispatchAll Protocol.dispatch Protocol.reduce
       Protocol.model Protocol.context Protocol.marketCondition].
  split; [reflexivity |].
  split;
    [unfold Model.optimizePortfolio;
     cbn [Model.currentAllocation Model.baseAllocation]; reflexivity |].
  split; [apply allocate_total | split; [apply matchAllocation_in_step |]].
  intros listener Hin.
  rewrite received_app, app_nil_r, received_notifyListeners.
  cbn [Protocol.listeners].
  assert (Hcount : (0 < count_occ Nat.eq_dec
                          (Protocol.listeners (fst before)) listener)%nat).
  { subst before. rewrite dispatchAll_listeners.
    apply count_occ_In, Hin. }
  unfold Protocol.Listener in *.
  destruct (count_occ Nat.eq_dec (Protocol.listeners (fst before)) listener)
    as [| n]; [lia |].
  rewrite last_app.
  replace (S n) with (n + 1)%nat by lia.
  rewrite repeat_app, last_app. reflexivity.
Qed.

(** ** Market data *)

(** In the two-signal table, a bullish outcome needs a recent change above
    0.5 and a bearish one a recent change below -0.5, which is what the
    simple trend calls up and down. *)
Lemma fallbackCondition_simpleTrend (vixValue mainIndexChange : Q) :
  (Market.fallbackCondition vixValue mainIndexChange = bullish ->
   Market.simpleTrend mainIndexChange = up) /\
  (Market.fallbackCondition vixValue mainIndexChange = bearish ->
   Market.simpleTrend mainIndexChange = down).
Proof.
  unfold Market.fallbackCondition, Market.simpleTrend.
  destruct (Js.gt vixValue 25);
  destruct (Js.lt vixValue 15);
  (destruct (Js.lt mainIndexChange (-0.5)) eqn:Hfall;
    [apply lt_true_iff in Hfall | apply lt_false_iff in Hfall]);
  (destruct (Js.gt mainIndexChange 0.5) eqn:Hrise;
    [apply gt_true_iff in Hrise | apply gt_false_iff in Hrise]);
  (destruct (Js.gt mainIndexChange 1) eqn:Hup;
    [apply gt_true_iff in Hup | apply gt_false_iff in Hup]);
  (destruct (Js.lt mainIndexChange (-1)) eqn:Hdown;
    [apply lt_true_iff in Hdown | apply lt_false_iff in Hdown]);
  split; intros Hcondition; try reflexivity; try discriminate Hcondition;
  exfalso; lra.
Qed.

Section MarketData.

Context {World : Type}.
Variable toUpperCase : string -> string.
Variable yf_quote : string -> Async.M World Market.Quote.
Variable predictMarketMovement :
  string -> Z -> Async.M World Prediction.MarketPrediction.
Variable analyzeNewsSentiment :
  string -> Async.M World Prediction.SentimentAnalysis.

(** What a successful fetch reports comes from the two determinations, made
    on the same recent change. *)
Lemma fetchMarketData_determined (locale : string) (w w' : World)
    (data : Market.MarketData) :
  Market.fetchMarketData yf_quote predictMarketMovement analyzeNewsSentiment
    locale w = (Some data, w') ->
  exists (vixValue mainIndexChange : Q) (symbol : string) (w1 w2 : World),
    Market.determineMarketCondition predictMarketMovement analyzeNewsSentiment
      vixValue mainIndexChange symbol w1
    = (Some (Market.condition data), w2) /\
    Market.determineMarketTrend predictMarketMovement mainIndexChange symbol w2
    = (Some (Market.indicator_trend (Market.indicators data)), w').
Proof.
  unfold Market.fetchMarketData, Async.bind, Async.throw, Async.ret.
  repeat match goal with
         | |- context [match ?c with _ => _ end] =>
             destruct c as [[?|] ?] eqn:? || destruct c eqn:?
         end;
    intros H; inversion H; subst; clear H.
  cbn [Market.condition Market.indicators Market.indicator_trend].
  do 5 eexists. split; eassumption.
Qed.

Lemma normalizeLocale_has_symbols (locale : string) :
  exists symbols : Market.Symbols,
    Market.MARKET_SYMBOLS !! Market.normalizeLocale toUpperCase locale
    = Some symbols.
Proof.
  unfold Market.normalizeLocale.
  destruct (Market.MARKET_SYMBOLS !! toUpperCase locale) as [symbols |] eqn:E.
  - exists symbols. exact E.
  - eexists. reflexivity.
Qed.

End MarketData.

(** X15.  While the trend source is unavailable, the market data never
    contradict themselves: a bullish condition comes with an upward trend
    and a bearish condition with a downward trend, whatever the quotes
    are. *)
Theorem market_data_coherent_without_trend_source :
  forall (World : Type)
         (toUpperCase : string -> string)
         (yf_quote : string -> Async.M World Market.Quote)
         (predictMarketMovement :
            string -> Z -> Async.M World Prediction.MarketPrediction)
         (analyzeNewsSentiment :
            string -> Async.M World Prediction.SentimentAnalysis)
         (locale : option string) (w : World),
    (forall symbol days w0, fst (predictMarketMovement symbol days w0) = None) ->
    exists (data : Market.MarketData) (w' : World),
      Market.getMarketCondition toUpperCase yf_quote predictMarketMovement
        analyzeNewsSentiment locale w = (Some data, w') /\
      (Market.condition data = bullish ->
       Market.indicator_trend (Market.indicators data) = up) /\
      (Market.condition data = bearish ->
       Market.indicator_trend (Market.indicators data) = down).
Proof.
  intros World toUpperCase yf_quote predict analyze locale w Hdown.
  unfold Market.getMarketCondition, Async.try_catch.
  set (normalized := Market.normalizeLocale toUpperCase _).
  destruct (Market.fetchMarketData yf_quote predict analyze normalized w)
    as [[data |] w'] eqn:Hfetch.
  - exists data, w'. split; [reflexivity |].
    apply fetchMarketData_determined in Hfetch
      as (vix & chg & symbol & w1 & w2 & Hcondition & Htrend).
    unfold Market.determineMarketCondition, Async.try_catch, Async.bind
      in Hcondition.
    unfold Market.determineMarketTrend, Async.try_catch, Async.bind in Htrend.
    pose proof (Hdown symbol 5%Z w1) as H1.
    pose proof (Hdown symbol 5%Z w2) as H2.
    destruct (predict symbol 5%Z w1) as [r1 w1']. cbn [fst] in H1. subst r1.
    destruct (predict symbol 5%Z w2) as [r2 w2']. cbn [fst] in H2. subst r2.
    cbn [Async.ret] in Hcondition, Htrend.
    unfold Async.ret in Hcondition, Htrend.
    injection Hcondition as Hc _. injection Htrend as Ht _.
    rewrite <- Hc, <- Ht. apply fallbackCondition_simpleTrend.
  - eexists _, _. split; [reflexivity |].
    cbn. split; discriminate.
Qed.

Lemma market_data_coherent_without_trend_source_witness :
  (forall (symbol : string) (days : Z) (w0 : Sample.World),
      fst (@Sample.unavailable Prediction.MarketPrediction w0) = None) /\
  exists (data : Market.MarketData) (w' : Sample.World),
    Market.getMarketCondition Sample.toUpperCase
      (fun _ => Sample.answers Sample.flatQuote)
      (fun _ _ => Sample.unavailable)
      (fun _ => Sample.answers Sample.calmSentiment)
      (Some "us"%string) 0%nat = (Some data, w') /\
    (Market.condition data = bullish ->
     Market.indicator_trend (Market.indicators data) = up) /\
    (Market.condition data = bearish ->
     Market.indicator_trend (Market.indicators data) = down).
Proof.
  split; [intros symbol days w0; reflexivity |].
  apply (market_data_coherent_without_trend_source Sample.World
           Sample.toUpperCase
           (fun _ => Sample.answers Sample.flatQuote)
           (fun _ _ => Sample.unavailable)
           (fun _ => Sample.answers Sample.calmSentiment)
           (Some "us"%string) 0%nat).
  intros symbol days w0. reflexivity.
Defined.

(** X16.  When the quote of the volatility index throws, [getMarketCondition]
    gives up on live data altogether after that one call: the condition is
    neutral, the trend sideways, and the figures are the defaults of the
    United States for the locale US and those of India for every other
    locale, UK and SG included. *)
Theorem market_data_defaults_when_quote_fails :
  forall (World : Type)
         (toUpperCase : string -> string)
         (yf_quote : string -> Async.M World Market.Quote)
         (predictMarketMovement :
            string -> Z -> Async.M World Prediction.MarketPrediction)
         (analyzeNewsSentiment :
            string -> Async.M World Prediction.SentimentAnalysis)
         (locale : option string) (w w1 : World),
    (forall symbols : Market.Symbols,
        Market.MARKET_SYMBOLS
          !! Market.normalizeLocale toUpperCase (default "IN"%string locale)
        = Some symbols ->
        yf_quote (Market.volatilityIndex symbols) w = (None, w1)) ->
    exists data : Market.MarketData,
      Market.getMarketCondition toUpperCase yf_quote predictMarketMovement
        analyzeNewsSentiment locale w = (Some data, w1) /\
      Market.locale data
      = Market.normalizeLocale toUpperCase (default "IN"%string locale) /\
      Market.condition data = neutral /\
      Market.indicator_trend (Market.indicators data) = sideways /\
      (Market.locale data = "US"%string ->
       Market.indicator_volatilityIndex (Market.indicators data) = 20 /\
       Market.indicator_mainIndex (Market.indicators data) = 4000 /\
       map Market.index_name (Market.localIndices data)
       = ["NASDAQ"; "Dow Jones"]%string) /\
      (Market.locale data <> "US"%string ->
       Market.indicator_volatilityIndex (Market.indicators data) = 16 /\
       Market.indicator_mainIndex (Market.indicators data) = 21500 /\
       map Market.index_name (Market.localIndices data)
       = ["Sensex"; "Bank Nifty"]%string).
Proof.
  intros World toUpperCase yf_quote predict analyze locale w w1 Hquote.
  unfold Market.getMarketCondition, Async.try_catch.
  set (normalized := Market.normalizeLocale toUpperCase _) in *.
  destruct (normalizeLocale_has_symbols toUpperCase
              (default "IN"%string locale)) as (symbols & Hsymbols).
  fold normalized in Hsymbols.
  specialize (Hquote symbols Hsymbols).
  unfold Market.fetchMarketData. rewrite Hsymbols.
  unfold Async.bind at 1. rewrite Hquote.
  exists (Market.defaultMarketData normalized).
  split; [reflexivity |].
  unfold Market.defaultMarketData.
  cbn [Market.locale Market.condition Market.indicators
       Market.indicator_trend Market.indicator_volatilityIndex
       Market.indicator_mainIndex Market.localIndices].
  split; [reflexivity | split; [reflexivity | split; [reflexivity |]]].
  split; intros Hlocale.
  - rewrite Hlocale. repeat split.
  - apply String.eqb_neq in Hlocale. rewrite Hlocale. repeat split.
Qed.

Lemma market_data_defaults_when_quote_fails_witness :
  (forall symbols : Market.Symbols,
      Market.MARKET_SYMBOLS
        !! Market.normalizeLocale Sample.toUpperCase
             (default "IN"%string (Some "uk"%string))
      = Some symbols ->
      @Sample.unavailable Market.Quote 0%nat = (None, 1%nat)) /\
  exists data : Market.MarketData,
    Market.getMarketCondition Sample.toUpperCase
      (fun _ => Sample.unavailable)
      (fun _ _ => Sample.answers Sample.risingPrediction)
      (fun _ => Sample.answers Sample.calmSentiment)
      (Some "uk"%string) 0%nat = (Some data, 1%nat) /\
    Market.locale data
    = Market.normalizeLocale Sample.toUpperCase
        (default "IN"%string (Some "uk"%string)) /\
    Market.condition data = neutral /\
    Market.indicator_trend (Market.indicators data) = sideways /\
    (Market.locale data = "US"%string ->
     Market.indicator_volatilityIndex (Market.indicators data) = 20 /\
     Market.indicator_mainIndex (Market.indicators data) = 4000 /\
     map Market.index_name (Market.localIndices data)
     = ["NASDAQ"; "Dow Jones"]%string) /\
    (Market.locale data <> "US"%string ->
     Market.indicator_volatilityIndex (Market.indicators data) = 16 /\
     Market.indicator_mainIndex (Market.indicators data) = 21500 /\
     map Market.index_name (Market.localIndices data)
     = ["Sensex"; "Bank Nifty"]%string).
Proof.
  split; [intros symbols _; reflexivity |].
  apply (market_data_defaults_when_quote_fails Sample.World
           Sample.toUpperCase
           (fun _ => Sample.unavailable)
           (fun _ _ => Sample.answers Sample.risingPrediction)
           (fun _ => Sample.answers Sample.calmSentiment)
           (Some "uk"%string) 0%nat 1%nat).
  intros symbols _. reflexivity.
Defined.

(** X17.  The loop over the additional indices never throws, whatever the
    quotes do: an index whose quote throws, or has no price or the price 0,
    is skipped.  The indices it reports are appended in the order of the
    table, each under the name the table gives it and with a price that is
    not 0. *)
Theorem additionalQuotes_skips_failures :
  forall (World : Type) (yf_quote : string -> Async.M World Market.Quote)
         (indices : list Market.IndexSymbol)
         (localIndices : list Market.MarketIndices) (w : World),
    exists (reported : list Market.MarketIndices) (w' : World),
      Market.additionalQuotes yf_quote indices localIndices w
      = (Some (localIndices ++ reported), w') /\
      sublist (map Market.index_name reported) (map Market.name indices) /\
      Forall (fun index => ~ Market.value index == 0) reported.
Proof.
  intros World yf_quote indices.
  induction indices as [| index rest IH]; intros localIndices w.
  - exists [], w. rewrite app_nil_r.
    split; [reflexivity | split; constructor].
  - cbn [Market.additionalQuotes].
    unfold Async.bind at 1. unfold Async.try_catch, Async.bind, Async.ret.
    destruct (yf_quote (Market.symbol index) w) as [[result |] w1].
    + destruct (Market.regularMarketPrice result) as [price |].
      * destruct (Js.neq price 0) eqn:Hprice.
        -- destruct (IH (localIndices ++
                         [ {| Market.index_name := Market.name index;
                              Market.value := price;
                              Market.change :=
                                Js.or_else
                                  (Market.regularMarketChangePercent result) 0 |} ])
                        w1) as (reported & w' & Hrun & Hnames & Hvalues).
           eexists (_ :: reported), w'. rewrite Hrun, <- app_assoc.
           split; [reflexivity | split].
           ++ cbn [map Market.index_name]. apply sublist_skip, Hnames.
           ++ constructor; [| exact Hvalues].
              cbn [Market.value]. intros Hzero.
              apply neq_false_iff in Hzero. congruence.
        -- destruct (IH localIndices w1)
             as (reported & w' & Hrun & Hnames & Hvalues).
           exists reported, w'. rewrite Hrun.
           split; [reflexivity | split; [| exact Hvalues]].
           cbn [map]. apply sublist_cons, Hnames.
      * destruct (IH localIndices w1)
          as (reported & w' & Hrun & Hnames & Hvalues).
        exists reported, w'. rewrite Hrun.
        split; [reflexivity | split; [| exact Hvalues]].
        cbn [map]. apply sublist_cons, Hnames.
    + destruct (IH localIndices w1)
        as (reported & w' & Hrun & Hnames & Hvalues).
      exists reported, w'. rewrite Hrun.
      split; [reflexivity | split; [| exact Hvalues]].
      cbn [map]. apply sublist_cons, Hnames.
Qed.

(** X18.  In the weighted vote no single signal decides: a bullish or
    bearish outcome has at least two of the four signals behind it.  And
    when the trend prediction and the recent change vote alike, their
    common vote is the outcome, whatever volatility and sentiment say. *)
Theorem classifier_needs_two_votes :
  forall (vixValue mainIndexChange : Q)
         (marketPrediction : Prediction.MarketPrediction)
         (sentimentAnalysis : Prediction.SentimentAnalysis),
    let votes :=
      Market.signals vixValue mainIndexChange marketPrediction
        sentimentAnalysis in
    let result := Market.finalCondition (Market.weightedScores votes) in
    (result <> neutral ->
     (2 <= length
             (List.filter
                (fun signal =>
                   MarketCondition_eqb (Market.signal_value signal) result)
                votes))%nat) /\
    (Market.predictionSignal marketPrediction
     = Market.currentSignal mainIndexChange ->
     result = Market.currentSignal mainIndexChange).
Proof.
  intros vix chg p s votes result. subst result votes.
  unfold Market.signals.
  generalize (Market.vixSignal vix) (Market.predictionSignal p)
    (Market.sentimentSignal s) (Market.currentSignal chg).
  intros v t n c.
  destruct v, t, n, c; split; intros H;
    first [ discriminate H
          | exfalso; apply H; vm_compute; reflexivity
          | vm_compute; reflexivity
          | vm_compute; lia ].
Qed.

(** ** The trend and sentiment sources *)

Lemma string_length_append (a b : string) :
  String.length (a ++ b)%string = (String.length a + String.length b)%nat.
Proof.
  induction a as [| c rest IH]; [reflexivity |].
  simpl. f_equal. exact IH.
Qed.

(** The emotion and the vote of a sentiment follow its score. *)
Lemma sentiment_emotion_coherent (normalizedScore confidence : Q) :
  let sentiment :=
    {| Prediction.score := normalizedScore;
       Prediction.emotion :=
         if Js.gt normalizedScore 1 then Prediction.positive
         else if Js.lt normalizedScore (-1) then Prediction.negative
         else Prediction.neutral_emotion;
       Prediction.sentiment_confidence := confidence |} in
  (Prediction.emotion sentiment = Prediction.positive
   <-> 1 < Prediction.score sentiment) /\
  (Prediction.emotion sentiment = Prediction.negative
   <-> Prediction.score sentiment < -1) /\
  (Market.sentimentSignal sentiment = bullish ->
   Prediction.emotion sentiment = Prediction.positive) /\
  (Market.sentimentSignal sentiment = bearish ->
   Prediction.emotion sentiment = Prediction.negative).
Proof.
  intros sentiment. subst sentiment. unfold Market.sentimentSignal.
  cbn [Prediction.score Prediction.emotion Prediction.sentiment_confidence].
  destruct (Js.gt normalizedScore 1) eqn:Hpos;
    [apply gt_true_iff in Hpos | apply gt_false_iff in Hpos];
  (destruct (Js.lt normalizedScore (-1)) eqn:Hneg;
    [apply lt_true_iff in Hneg | apply lt_false_iff in Hneg]);
  (destruct (Js.gt normalizedScore 1.5) eqn:Hbull;
    [apply gt_true_iff in Hbull | apply gt_false_iff in Hbull]);
  (destruct (Js.lt normalizedScore (-1.5)) eqn:Hbear;
    [apply lt_true_iff in Hbear | apply lt_false_iff in Hbear]);
  destruct (Js.gt confidence 0.4); cbn [andb];
  repeat split; intros H; try reflexivity; try discriminate H;
  first [ assumption | exfalso; lra ].
Qed.

(** X19.  [analyzeNewsSentiment] never throws, whatever its services do.
    The score it returns is within -5 and 5 and the confidence within 0
    and 1; the emotion is positive exactly for a score above 1 and negative
    exactly for a score below -1; and a sentiment that votes bullish in the
    classifier is positive, one that votes bearish negative. *)
Theorem analyzeNewsSentiment_bounded :
  forall (World : Type) (services : Sources.Services World)
         (symbol : string) (w : World),
    exists (sentiment : Prediction.SentimentAnalysis) (w' : World),
      Sources.analyzeNewsSentiment services symbol w = (Some sentiment, w') /\
      -5 <= Prediction.score sentiment <= 5 /\
      0 <= Prediction.sentiment_confidence sentiment <= 1 /\
      (Prediction.emotion sentiment = Prediction.positive
       <-> 1 < Prediction.score sentiment) /\
      (Prediction.emotion sentiment = Prediction.negative
       <-> Prediction.score sentiment < -1) /\
      (Market.sentimentSignal sentiment = bullish ->
       Prediction.emotion sentiment = Prediction.positive) /\
      (Market.sentimentSignal sentiment = bearish ->
       Prediction.emotion sentiment = Prediction.negative).
Proof.
  intros World services symbol w.
  unfold Sources.analyzeNewsSentiment, Async.try_catch, Async.bind, Async.ret.
  destruct (Sources.quoteSummary services symbol w) as [[stockData |] w1].
  - destruct (Sources.sentimentAnalyzer_analyze services
                (Sources.analysedText symbol stockData) w1)
      as [[result_score |] w2].
    + eexists _, _. split; [reflexivity |].
      cbn [Prediction.score Prediction.sentiment_confidence].
      split; [apply clamp_between; by_evaluation |].
      split; [| apply sentiment_emotion_coherent].
      unfold Js.Math_min. split.
      * apply Q.min_glb; [by_evaluation |].
        apply Qle_shift_div_l; [by_evaluation |].
        rewrite Qmult_0_l. rewrite <- (Zle_Qle 0). lia.
      * apply Q.le_min_l.
    + eexists _, _. split; [reflexivity |].
      repeat split; intros; try by_evaluation; try discriminate.
  - eexists _, _. split; [reflexivity |].
    repeat split; intros; try by_evaluation; try discriminate.
Qed.

Lemma genericText_length (symbol : string) :
  String.length (Sources.genericText symbol)
  = (86 + String.length symbol)%nat.
Proof.
  unfold Sources.genericText. rewrite !string_length_append.
  cbn [String.length]. lia.
Qed.

(** A text of at most 400 characters gives a confidence of at most 0.4. *)
Lemma short_text_confidence (n : nat) :
  (n <= 400)%nat ->
  Js.Math_min 1 (inject_Z (Z.of_nat n) / 1000) <= 0.4.
Proof.
  intros Hshort. unfold Js.Math_min.
  apply (Qle_trans _ (inject_Z (Z.of_nat n) / 1000)); [apply Q.le_min_r |].
  apply Qle_shift_div_r; [by_evaluation |].
  apply (Qle_trans _ (inject_Z 400)); [| by_evaluation].
  rewrite <- Zle_Qle. lia.
Qed.

(** At a confidence of 0.4 or below the sentiment does not vote. *)
Lemma sentimentSignal_low_confidence
    (sentiment : Prediction.SentimentAnalysis) :
  Prediction.sentiment_confidence sentiment <= 0.4 ->
  Market.sentimentSignal sentiment = neutral.
Proof.
  intros Hlow. apply gt_false_iff in Hlow.
  unfold Market.sentimentSignal. rewrite Hlow, !andb_false_r. reflexivity.
Qed.

(** X20.  The sentiment votes only on a long text.  For a symbol of at most
    300 characters, unless the provider answers with a business summary of
    more than 400 characters, [analyzeNewsSentiment] returns a confidence of
    0.4 or below, and the sentiment signal of the classifier is neutral,
    whatever the score. *)
Theorem sentiment_silent_on_short_text :
  forall (World : Type) (services : Sources.Services World)
         (symbol : string) (w : World),
    (String.length symbol <= 300)%nat ->
    (forall (stockData : Sources.StockData) (w1 : World)
            (profile : Sources.SummaryProfile) (summary : string),
        Sources.quoteSummary services symbol w = (Some stockData, w1) ->
        Sources.summaryProfile stockData = Some profile ->
        Sources.longBusinessSummary profile = Some summary ->
        (String.length summary <= 400)%nat) ->
    exists (sentiment : Prediction.SentimentAnalysis) (w' : World),
      Sources.analyzeNewsSentiment services symbol w = (Some sentiment, w') /\
      Prediction.sentiment_confidence sentiment <= 0.4 /\
      Market.sentimentSignal sentiment = neutral.
Proof.
  intros World services symbol w Hsymbol Hsummary.
  cut (exists (sentiment : Prediction.SentimentAnalysis) (w' : World),
          Sources.analyzeNewsSentiment services symbol w
          = (Some sentiment, w') /\
          Prediction.sentiment_confidence sentiment <= 0.4).
  { intros (sentiment & w' & Hrun & Hlow).
    exists sentiment, w'.
    split; [exact Hrun | split; [exact Hlow |]].
    apply sentimentSignal_low_confidence, Hlow. }
  unfold Sources.analyzeNewsSentiment, Async.try_catch, Async.bind, Async.ret.
  destruct (Sources.quoteSummary services symbol w) as [[stockData |] w1]
    eqn:Hquote; [| eexists _, _; split; [reflexivity | by_evaluation]].
  assert (Hshort :
            (String.length (Sources.analysedText symbol stockData) <= 400)%nat).
  { unfold Sources.analysedText.
    destruct (Sources.summaryProfile stockData) as [profile |] eqn:Hprofile;
      [| rewrite genericText_length; lia].
    destruct (Sources.longBusinessSummary profile) as [summary |] eqn:Hlong;
      [| rewrite genericText_length; lia].
    destruct (String.eqb summary ""); [rewrite genericText_length; lia |].
    exact (Hsummary stockData w1 profile summary eq_refl Hprofile Hlong). }
  destruct (Sources.sentimentAnalyzer_analyze services
              (Sources.analysedText symbol stockData) w1)
    as [[result_score |] w2];
    [| eexists _, _; split; [reflexivity | by_evaluation]].
  eexists _, _. split; [reflexivity |].
  cbn [Prediction.sentiment_confidence].
  exact (short_text_confidence _ Hshort).
Qed.

Lemma sentiment_silent_on_short_text_witness :
  (String.length "^NSEI" <= 300)%nat /\
  (forall (stockData : Sources.StockData) (w1 : Sample.World)
          (profile : Sources.SummaryProfile) (summary : string),
      Sources.quoteSummary Fixtures.services "^NSEI" 0%nat
      = (Some stockData, w1) ->
      Sources.summaryProfile stockData = Some profile ->
      Sources.longBusinessSummary profile = Some summary ->
      (String.length summary <= 400)%nat) /\
  exists (sentiment : Prediction.SentimentAnalysis) (w' : Sample.World),
    Sources.analyzeNewsSentiment Fixtures.services "^NSEI" 0%nat
    = (Some sentiment, w') /\
    Prediction.sentiment_confidence sentiment <= 0.4 /\
    Market.sentimentSignal sentiment = neutral.
Proof.
  assert (Hsymbol : (String.length "^NSEI" <= 300)%nat) by (cbn; lia).
  assert (Hsummary :
            forall (stockData : Sources.StockData) (w1 : Sample.World)
                   (profile : Sources.SummaryProfile) (summary : string),
              Sources.quoteSummary Fixtures.services "^NSEI" 0%nat
              = (Some stockData, w1) ->
              Sources.summaryProfile stockData = Some profile ->
              Sources.longBusinessSummary profile = Some summary ->
              (String.length summary <= 400)%nat).
  { intros stockData w1 profile summary Hquote Hprofile _.
    cbn in Hquote. injection Hquote as <- _. discriminate Hprofile. }
  split; [exact Hsymbol | split; [exact Hsummary |]].
  exact (sentiment_silent_on_short_text Sample.World Fixtures.services
           "^NSEI"%string 0%nat Hsymbol Hsummary).
Defined.

Lemma randomWalk_length {World : Type} (services : Sources.Services World)
    (n : nat) :
  forall (lastPrice : Q) (w : World),
    length (fst (Sources.randomWalk services n lastPrice w)) = n.
Proof.
  induction n as [| n IH]; intros lastPrice w; [reflexivity |].
  cbn [Sources.randomWalk].
  destruct (Sources.Math_random services w) as [random w1].
  specialize (IH (lastPrice * (1 + (random * 2 - 1) / 100)) w1).
  destruct (Sources.randomWalk services n _ w1) as [predictions w2].
  cbn [fst length] in *. rewrite IH. reflexivity.
Qed.

(** [generateSimplePrediction] never throws; it returns five values and a
    confidence of 0.3 or 0. *)
Lemma generateSimplePrediction_total {World : Type}
    (services : Sources.Services World) (symbol : string) (w : World) :
  exists (prediction : Prediction.MarketPrediction) (w' : World),
    Sources.generateSimplePrediction services symbol w
    = (Some prediction, w') /\
    length (Prediction.prediction prediction) = 5%nat /\
    (Prediction.confidence prediction = 0.3 \/
     Prediction.confidence prediction = 0).
Proof.
  unfold Sources.generateSimplePrediction, Async.try_catch, Async.bind,
    Async.ret.
  destruct (Sources.quote services symbol w) as [[quote |] w1].
  - pose proof (randomWalk_length services 5
                  (Js.or_else (Market.regularMarketPrice quote) 0) w1)
      as Hlength.
    destruct (Sources.randomWalk services 5 _ w1) as [predictions w2].
    eexists _, _. split; [reflexivity |].
    cbn [Prediction.prediction Prediction.confidence fst] in *.
    split; [exact Hlength | left; reflexivity].
  - eexists _, _. split; [reflexivity |].
    split; [reflexivity | right; reflexivity].
Qed.

Lemma predictDays_length {World : Type} (services : Sources.Services World)
    (regression : Sources.Regression services) (lastDayIndex : Z) (n : nat) :
  forall (i : Z) (w w' : World) (predictions : list Q),
    Sources.predictDays services regression lastDayIndex i n w
    = (Some predictions, w') ->
    length predictions = n.
Proof.
  induction n as [| n IH]; intros i w w' predictions Hrun.
  - cbn in Hrun. injection Hrun as <- _. reflexivity.
  - cbn [Sources.predictDays] in Hrun.
    unfold Async.bind at 1 in Hrun.
    destruct (Sources.regression_predict services regression _ w)
      as [[value |] w1]; [| discriminate Hrun].
    unfold Async.bind at 1 in Hrun.
    destruct (Sources.predictDays services regression lastDayIndex (i + 1) n w1)
      as [[rest |] w2] eqn:Hrest; [| discriminate Hrun].
    cbn in Hrun. injection Hrun as <- _.
    cbn [length]. rewrite (IH _ _ _ _ Hrest). reflexivity.
Qed.

(** What the regression path returns, when it returns a prediction. *)
Lemma regressionPrediction_some {World : Type}
    (services : Sources.Services World) (symbol : string) (days : Z)
    (w w' : World) (prediction : Prediction.MarketPrediction) :
  Sources.regressionPrediction services symbol days w
  = (Some (Some prediction), w') ->
  length (Prediction.prediction prediction) = Z.to_nat days.
Proof.
  unfold Sources.regressionPrediction.
  unfold Async.bind at 1.
  destruct (Sources.historical services symbol w) as [[[closes |] |] w1];
    try (cbn; discriminate).
  destruct (length closes <? 10)%nat; [cbn; discriminate |].
  unfold Async.bind at 1.
  destruct (Sources.PolynomialRegression services _ closes 3%Z w1)
    as [[regression |] w2]; [| discriminate].
  unfold Async.bind at 1.
  destruct (Sources.predictDays services regression _ 1 (Z.to_nat days) w2)
    as [[predictions |] w3] eqn:Hdays; [| discriminate].
  unfold Async.bind at 1.
  destruct (Sources.regression_score services regression _ closes w3)
    as [[rSquared |] w4]; [| discriminate].
  cbn. intros Hrun. injection Hrun as <- _.
  cbn [Prediction.prediction].
  exact (predictDays_length _ _ _ _ _ _ _ _ Hdays).
Qed.

(** [predictMarketMovement] never throws: it returns the prediction of the
    regression, or else what [generateSimplePrediction] returns. *)
Lemma predictMarketMovement_returns {World : Type}
    (services : Sources.Services World) (symbol : string) (days : Z)
    (w : World) :
  exists (prediction : Prediction.MarketPrediction) (w' : World),
    Sources.predictMarketMovement services symbol days w
    = (Some prediction, w') /\
    (length (Prediction.prediction prediction) = Z.to_nat days \/
     length (Prediction.prediction prediction) = 5%nat).
Proof.
  unfold Sources.predictMarketMovement.
  unfold Async.bind at 1. unfold Async.try_catch.
  destruct (Sources.regressionPrediction services symbol days w)
    as [[[prediction |] |] w1] eqn:Hregression.
  - exists prediction, w1. split; [reflexivity |].
    left. exact (regressionPrediction_some _ _ _ _ _ _ Hregression).
  - destruct (generateSimplePrediction_total services symbol w1)
      as (prediction & w' & Hrun & Hlength & _).
    exists prediction, w'. cbn [Async.ret]. unfold Async.ret.
    split; [exact Hrun | right; exact Hlength].
  - destruct (generateSimplePrediction_total services symbol w1)
      as (prediction & w' & Hrun & Hlength & _).
    exists prediction, w'. unfold Async.ret.
    split; [exact Hrun | right; exact Hlength].
Qed.

Lemma analyzeNewsSentiment_returns {World : Type}
    (services : Sources.Services World) (symbol : string) (w : World) :
  exists (sentiment : Prediction.SentimentAnalysis) (w' : World),
    Sources.analyzeNewsSentiment services symbol w = (Some sentiment, w').
Proof.
  unfold Sources.analyzeNewsSentiment, Async.try_catch, Async.bind, Async.ret.
  destruct (Sources.quoteSummary services symbol w) as [[stockData |] w1];
    [| eexists _, _; reflexivity].
  destruct (Sources.sentimentAnalyzer_analyze services _ w1)
    as [[result_score |] w2]; eexists _, _; reflexivity.
Qed.


(** X22.  Without ten days of price history the prediction never counts.
    When the history cannot be fetched, is missing or has fewer than ten
    rows, [predictMarketMovement] returns what [generateSimplePrediction]
    returns: five values, however many days were asked for, with a
    confidence too low for its trend to vote in the classifier or to be
    used by [determineMarketTrend], which answers with the simple trend of
    the recent change. *)
Theorem prediction_without_history_never_counts :
  forall (World : Type) (services : Sources.Services World)
         (symbol : string) (days : Z) (change : Q) (w w1 : World),
    (Sources.historical services symbol w = (None, w1) \/
     Sources.historical services symbol w = (Some None, w1) \/
     exists closes : list Q,
       Sources.historical services symbol w = (Some (Some closes), w1) /\
       (length closes < 10)%nat) ->
    exists (prediction : Prediction.MarketPrediction) (w' : World),
      Sources.predictMarketMovement services symbol days w
      = (Some prediction, w') /\
      Sources.generateSimplePrediction services symbol w1
      = (Some prediction, w') /\
      length (Prediction.prediction prediction) = 5%nat /\
      Market.predictionSignal prediction = neutral /\
      Market.determineMarketTrend (Sources.predictMarketMovement services)
        change symbol w
      = (Some (Market.simpleTrend change), w').
Proof.
  intros World services symbol days change w w1 Hhistory.
  destruct (generateSimplePrediction_total services symbol w1)
    as (prediction & w' & Hsimple & Hlength & Hconfidence).
  assert (Hregression :
            forall n : Z,
              Async.try_catch
                (Sources.regressionPrediction services symbol n)
                (Async.ret None) w = (Some None, w1)).
  { intros n. unfold Async.try_catch, Sources.regressionPrediction.
    unfold Async.bind at 1.
    destruct Hhistory as [-> | [-> | (closes & -> & Hshort)]];
      try reflexivity.
    apply Nat.ltb_lt in Hshort. rewrite Hshort. reflexivity. }
  assert (Hrun : forall n : Z,
             Sources.predictMarketMovement services symbol n w
             = (Some prediction, w')).
  { intros n. unfold Sources.predictMarketMovement. unfold Async.bind at 1.
    rewrite Hregression. exact Hsimple. }
  exists prediction, w'.
  split; [apply Hrun | split; [exact Hsimple | split; [exact Hlength |]]].
  split.
  - unfold Market.predictionSignal.
    destruct Hconfidence as [-> | ->];
      destruct (Prediction.trend prediction); reflexivity.
  - unfold Market.determineMarketTrend, Async.try_catch, Async.bind.
    rewrite Hrun. destruct Hconfidence as [-> | ->]; reflexivity.
Qed.

Lemma prediction_without_history_never_counts_witness :
  (Sources.historical Fixtures.services "^NSEI" 0%nat = (None, 1%nat) \/
   Sources.historical Fixtures.services "^NSEI" 0%nat = (Some None, 1%nat) \/
   exists closes : list Q,
     Sources.historical Fixtures.services "^NSEI" 0%nat
     = (Some (Some closes), 1%nat) /\
     (length closes < 10)%nat) /\
  exists (prediction : Prediction.MarketPrediction) (w' : Sample.World),
    Sources.predictMarketMovement Fixtures.services "^NSEI" 3 0%nat
    = (Some prediction, w') /\
    Sources.generateSimplePrediction Fixtures.services "^NSEI" 1%nat
    = (Some prediction, w') /\
    length (Prediction.prediction prediction) = 5%nat /\
    Market.predictionSignal prediction = neutral /\
    Market.determineMarketTrend
      (Sources.predictMarketMovement Fixtures.services) 2 "^NSEI" 0%nat
    = (Some (Market.simpleTrend 2), w').
Proof.
  split; [left; reflexivity |].
  apply (prediction_without_history_never_counts Sample.World
           Fixtures.services "^NSEI"%string 3%Z 2 0%nat 1%nat).
  left. reflexivity.
Defined.

(** X23.  With the sources of the repository itself the classifier never
    takes its two-signal fallback, and the trend determination never its
    [catch] block: neither source throws, whatever the data provider and
    the libraries do, so the market condition is always the outcome of the
    weighted vote on what the two sources return. *)
Theorem classifier_never_falls_back_on_own_sources :
  forall (World : Type) (services : Sources.Services World)
         (vixValue mainIndexChange : Q) (mainIndexSymbol : string)
         (w : World),
    exists (marketPrediction : Prediction.MarketPrediction)
           (sentimentAnalysis : Prediction.SentimentAnalysis)
           (w1 w2 : World),
      Sources.predictMarketMovement services mainIndexSymbol 5%Z w
      = (Some marketPrediction, w1) /\
      Sources.analyzeNewsSentiment services mainIndexSymbol w1
      = (Some sentimentAnalysis, w2) /\
      Market.determineMarketCondition
        (Sources.predictMarketMovement services)
        (Sources.analyzeNewsSentiment services)
        vixValue mainIndexChange mainIndexSymbol w
      = (Some
           (Market.finalCondition
              (Market.weightedScores
                 (Market.signals vixValue mainIndexChange marketPrediction
                    sentimentAnalysis))),
         w2) /\
      Market.determineMarketTrend (Sources.predictMarketMovement services)
        mainIndexChange mainIndexSymbol w
      = (Some
           (if Js.gt (Prediction.confidence marketPrediction) 0.5
            then Prediction.trend marketPrediction
            else Market.simpleTrend mainIndexChange),
         w1).
Proof.
  intros World services vix chg symbol w.
  destruct (predictMarketMovement_returns services symbol 5%Z w)
    as (prediction & w1 & Hprediction & _).
  destruct (analyzeNewsSentiment_returns services symbol w1)
    as (sentiment & w2 & Hsentiment).
  exists prediction, sentiment, w1, w2.
  split; [exact Hprediction | split; [exact Hsentiment | split]].
  - unfold Market.determineMarketCondition, Async.try_catch, Async.bind.
    rewrite Hprediction, Hsentiment. reflexivity.
  - unfold Market.determineMarketTrend, Async.try_catch, Async.bind.
    rewrite Hprediction.
    destruct (Js.gt (Prediction.confidence prediction) 0.5); reflexivity.
Qed.

(** ** Routes *)

Lemma valid_riskProfile_includes (v : Routes.JsValue) :
  Spec.valid_riskProfile v ->
  Routes.truthy v = true /\
  Routes.includes ["conservative"; "moderate"; "aggressive"]%string v = true /\
  exists r : RiskProfile, Routes.asRiskProfile v = Some r.
Proof.
  intros [-> | [-> | ->]]; repeat split; eexists; reflexivity.
Qed.

Lemma valid_marketCondition_includes (v : Routes.JsValue) :
  Spec.valid_marketCondition v ->
  Routes.truthy v = true /\
  Routes.includes ["bearish"; "neutral"; "bullish"]%string v = true /\
  exists c : MarketCondition, Routes.asMarketCondition v = Some c.
Proof.
  intros [-> | [-> | ->]]; repeat split; eexists; reflexivity.
Qed.

(** X24.  The route that optimizes a portfolio answers 200 exactly when the
    body names a risk profile and a market condition, and 400 otherwise; it
    never answers 500.  A portfolio it sends is the one [optimizePortfolio]
    computes for the two names, with four percentages that add up to
    100. *)
Theorem optimizeRoute_status :
  forall body : Routes.OptimizeBody,
    let response := Routes.optimizeRoute body in
    (Routes.status response = 200%Z \/ Routes.status response = 400%Z) /\
    (Routes.status response = 200%Z <->
     Spec.valid_riskProfile (Routes.riskProfile body) /\
     Spec.valid_marketCondition (Routes.marketCondition body)) /\
    (Routes.status response = 200%Z ->
     exists (r : RiskProfile) (c : MarketCondition),
       Routes.asRiskProfile (Routes.riskProfile body) = Some r /\
       Routes.asMarketCondition (Routes.marketCondition body) = Some c /\
       Routes.json response
       = Routes.PortfolioJson (Prediction.optimizePortfolio r c) /\
       Spec.total
         (map Prediction.percentage
            (Prediction.allocation (Prediction.optimizePortfolio r c)))
       == 100).
Proof.
  intros [riskProfile marketCondition] response. subst response.
  unfold Routes.optimizeRoute.
  cbn [Routes.riskProfile Routes.marketCondition].
  destruct (negb (Routes.truthy riskProfile)
            || negb (Routes.truthy marketCondition)) eqn:Hmissing.
  { cbn [Routes.status]. split; [right; reflexivity |].
    split; [split; [discriminate |] | discriminate].
    intros [Hrisk Hmarket].
    apply valid_riskProfile_includes in Hrisk as (Hr & _).
    apply valid_marketCondition_includes in Hmarket as (Hm & _).
    rewrite Hr, Hm in Hmissing. discriminate Hmissing. }
  destruct (Routes.includes ["conservative"; "moderate"; "aggressive"]%string
              riskProfile) eqn:Hrisk; cbn [negb].
  2:{ cbn [Routes.status]. split; [right; reflexivity |].
      split; [split; [discriminate |] | discriminate].
      intros [Hvalid _].
      apply valid_riskProfile_includes in Hvalid as (_ & Hin & _).
      rewrite Hin in Hrisk. discriminate Hrisk. }
  destruct (Routes.includes ["bearish"; "neutral"; "bullish"]%string
              marketCondition) eqn:Hmarket; cbn [negb].
  2:{ cbn [Routes.status]. split; [right; reflexivity |].
      split; [split; [discriminate |] | discriminate].
      intros [_ Hvalid].
      apply valid_marketCondition_includes in Hvalid as (_ & Hin & _).
      rewrite Hin in Hmarket. discriminate Hmarket. }
  apply includes_three in Hrisk, Hmarket.
  destruct (valid_riskProfile_includes _ Hrisk) as (_ & _ & r & Hr).
  destruct (valid_marketCondition_includes _ Hmarket) as (_ & _ & c & Hc).
  rewrite Hr, Hc. cbn [Routes.status Routes.json].
  split; [left; reflexivity |].
  split; [split; [intros _; split; assumption | reflexivity] |].
  intros _. exists r, c.
  split; [reflexivity | split; [reflexivity | split; [reflexivity |]]].
  destruct r, c; by_evaluation.
Qed.

Lemma includes_supported (code : string) :
  MarketRoute.includes ["IN"; "US"; "UK"; "SG"]%string code = true ->
  In code Spec.supported_locales.
Proof.
  unfold MarketRoute.includes. cbn [existsb].
  rewrite !orb_true_iff, !String.eqb_eq. cbn.
  intros [-> | [-> | [-> | [-> | H]]]]; auto. discriminate H.
Qed.

Lemma selectLocale_supported (toUpperCase : string -> string)
    (query : MarketRoute.Query) :
  In (MarketRoute.selectLocale toUpperCase query) Spec.supported_locales.
Proof.
  unfold MarketRoute.selectLocale.
  destruct (MarketRoute.truthy (MarketRoute.query_locale query)).
  - destruct (MarketRoute.includes _ _) eqn:Hin;
      [apply includes_supported, Hin | cbn; auto].
  - destruct (MarketRoute.truthy (MarketRoute.query_location query));
      [| cbn; auto].
    destruct (negb _); cbn [andb]; [| cbn; auto].
    destruct (MarketRoute.includes _ _) eqn:Hin;
      [apply includes_supported, Hin | cbn; auto].
Qed.

(** X25.  The route that reports the market condition always asks for one
    of the four supported locales: an unsupported locale parameter, or
    country code at the end of the location, gives IN.  A locale parameter
    that is present decides alone, even when it is unsupported and the
    location is not.  Where upper-casing leaves the four codes as they are,
    the response carries exactly the locale selected. *)
Theorem marketConditionRoute_locale :
  forall (World : Type)
         (toUpperCase : string -> string)
         (yf_quote : string -> Async.M World Market.Quote)
         (predictMarketMovement :
            string -> Z -> Async.M World Prediction.MarketPrediction)
         (analyzeNewsSentiment :
            string -> Async.M World Prediction.SentimentAnalysis)
         (query : MarketRoute.Query) (w : World),
    (forall code, In code Spec.supported_locales -> toUpperCase code = code) ->
    In (MarketRoute.selectLocale toUpperCase query) Spec.supported_locales /\
    (MarketRoute.truthy (MarketRoute.query_locale query) = true ->
     forall location : option string,
       MarketRoute.selectLocale toUpperCase
         (MarketRoute.mkQuery (MarketRoute.query_locale query) location)
       = MarketRoute.selectLocale toUpperCase query) /\
    exists (data : Market.MarketData) (w' : World),
      MarketRoute.marketConditionRoute toUpperCase yf_quote
        predictMarketMovement analyzeNewsSentiment query w
      = (Some data, w') /\
      Market.locale data = MarketRoute.selectLocale toUpperCase query.
Proof.
  intros World toUpperCase yf_quote predict analyze query w Hfixed.
  pose proof (selectLocale_supported toUpperCase query) as Hsupported.
  split; [exact Hsupported | split].
  - intros Hlocale location. unfold MarketRoute.selectLocale.
    cbn [MarketRoute.query_locale]. rewrite Hlocale. reflexivity.
  - unfold MarketRoute.marketConditionRoute.
    destruct (getMarketCondition_total toUpperCase yf_quote predict analyze
                (Some (MarketRoute.selectLocale toUpperCase query)) w)
      as (data & w' & Hrun & Hlocale).
    exists data, w'. split; [exact Hrun |].
    rewrite Hlocale. cbn [from_option id].
    rewrite normalizeLocale_supported;
      rewrite (Hfixed _ Hsupported); [reflexivity | exact Hsupported].
Qed.

Lemma toUpperCase_supported (code : string) :
  In code Spec.supported_locales -> Sample.toUpperCase code = code.
Proof.
  intros [<- | [<- | [<- | [<- | []]]]]; reflexivity.
Qed.

Lemma marketConditionRoute_locale_witness :
  (forall code,
      In code Spec.supported_locales -> Sample.toUpperCase code = code) /\
  In (MarketRoute.selectLocale Sample.toUpperCase
        (MarketRoute.mkQuery (Some "fr"%string) (Some "london_uk"%string)))
    Spec.supported_locales /\
  (MarketRoute.truthy
     (MarketRoute.query_locale
        (MarketRoute.mkQuery (Some "fr"%string) (Some "london_uk"%string)))
   = true ->
   forall location : option string,
     MarketRoute.selectLocale Sample.toUpperCase
       (MarketRoute.mkQuery
          (MarketRoute.query_locale
             (MarketRoute.mkQuery (Some "fr"%string) (Some "london_uk"%string)))
          location)
     = MarketRoute.selectLocale Sample.toUpperCase
         (MarketRoute.mkQuery (Some "fr"%string) (Some "london_uk"%string))) /\
  exists (data : Market.MarketData) (w' : Sample.World),
    MarketRoute.marketConditionRoute Sample.toUpperCase
      (fun _ => Sample.answers Sample.flatQuote)
      (fun _ _ => Sample.answers Sample.risingPrediction)
      (fun _ => Sample.answers Sample.calmSentiment)
      (MarketRoute.mkQuery (Some "fr"%string) (Some "london_uk"%string))
      0%nat
    = (Some data, w') /\
    Market.locale data
    = MarketRoute.selectLocale Sample.toUpperCase
        (MarketRoute.mkQuery (Some "fr"%string) (Some "london_uk"%string)).
Proof.
  split; [exact toUpperCase_supported |].
  exact (marketConditionRoute_locale Sample.World Sample.toUpperCase
           (fun _ => Sample.answers Sample.flatQuote)
           (fun _ _ => Sample.answers Sample.risingPrediction)
           (fun _ => Sample.answers Sample.calmSentiment)
           (MarketRoute.mkQuery (Some "fr"%string) (Some "london_uk"%string))
           0%nat toUpperCase_supported).
Defined.

(** ** The optimizer on arbitrary tables *)





(** The scaling step of the code is the rounding of the exact products, and
    the exact products are within the tolerance of themselves. *)
Lemma normalize_round_exactly (adjusted : Utils.AssetAllocation) :
  Utils.normalize adjusted = Doubles.round (Doubles.exactly adjusted).
Proof. reflexivity. Qed.




(** ** Goals and charts *)

(** X27.  Whatever the goal, the allocation proposed for it consists of the
    four slices Equity, Debt, Gold and Cash, in this order, each above 0,
    adding up to 100. *)
Theorem goal_allocation_sums_to_100 :
  forall goal : Charts.Goal,
    let slices := Charts.getPortfolioAllocationForGoal goal in
    map Charts.name slices = ["Equity"; "Debt"; "Gold"; "Cash"]%string /\
    Forall (fun item => 0 < Charts.value item) slices /\
    Spec.total (map Charts.value slices) == 100.
Proof.
  intros goal slices. subst slices.
  unfold Charts.getPortfolioAllocationForGoal.
  destruct (Js.gt (Charts.timeframe goal) 15);
    destruct (Js.lt (Charts.timeframe goal) 5);
    destruct (Charts.type goal);
    destruct (Js.lt (Charts.timeframe goal) 3);
    (split; [reflexivity | split; [repeat constructor | by_evaluation]]).
Qed.

(** X28.  More time means more equity: of two goals of the same type, the
    one with the longer time frame is proposed at least as much equity and
    at most as much debt. *)
Theorem goal_allocation_monotone :
  forall sooner later : Charts.Goal,
    Charts.type sooner = Charts.type later ->
    Charts.timeframe sooner <= Charts.timeframe later ->
    Charts.slice "Equity" (Charts.getPortfolioAllocationForGoal sooner)
    <= Charts.slice "Equity" (Charts.getPortfolioAllocationForGoal later) /\
    Charts.slice "Debt" (Charts.getPortfolioAllocationForGoal later)
    <= Charts.slice "Debt" (Charts.getPortfolioAllocationForGoal sooner).
Proof.
  intros sooner later Htype Htime.
  unfold Charts.getPortfolioAllocationForGoal. rewrite Htype.
  destruct (Js.gt (Charts.timeframe sooner) 15) eqn:S15;
    [apply gt_true_iff in S15 | apply gt_false_iff in S15];
  (destruct (Js.lt (Charts.timeframe sooner) 5) eqn:S5;
    [apply lt_true_iff in S5 | apply lt_false_iff in S5]);
  (destruct (Js.lt (Charts.timeframe sooner) 3) eqn:S3;
    [apply lt_true_iff in S3 | apply lt_false_iff in S3]);
  (destruct (Js.gt (Charts.timeframe later) 15) eqn:L15;
    [apply gt_true_iff in L15 | apply gt_false_iff in L15]);
  (destruct (Js.lt (Charts.timeframe later) 5) eqn:L5;
    [apply lt_true_iff in L5 | apply lt_false_iff in L5]);
  (destruct (Js.lt (Charts.timeframe later) 3) eqn:L3;
    [apply lt_true_iff in L3 | apply lt_false_iff in L3]);
  try (exfalso; lra);
  destruct (Charts.type later); split; by_evaluation.
Qed.

Lemma goal_allocation_monotone_witness :
  Charts.type (Charts.mkGoal Charts.education 500000 2 "College fund")
  = Charts.type (Charts.mkGoal Charts.education 500000 12 "College fund") /\
  Charts.timeframe (Charts.mkGoal Charts.education 500000 2 "College fund")
  <= Charts.timeframe (Charts.mkGoal Charts.education 500000 12 "College fund") /\
  Charts.slice "Equity"
    (Charts.getPortfolioAllocationForGoal
       (Charts.mkGoal Charts.education 500000 2 "College fund"))
  <= Charts.slice "Equity"
       (Charts.getPortfolioAllocationForGoal
          (Charts.mkGoal Charts.education 500000 12 "College fund")) /\
  Charts.slice "Debt"
    (Charts.getPortfolioAllocationForGoal
       (Charts.mkGoal Charts.education 500000 12 "College fund"))
  <= Charts.slice "Debt"
       (Charts.getPortfolioAllocationForGoal
          (Charts.mkGoal Charts.education 500000 2 "College fund")).
Proof.
  assert (Htime :
            Charts.timeframe
              (Charts.mkGoal Charts.education 500000 2 "College fund")
            <= Charts.timeframe
                 (Charts.mkGoal Charts.education 500000 12 "College fund"))
    by by_evaluation.
  split; [reflexivity | split; [exact Htime |]].
  exact (goal_allocation_monotone
           (Charts.mkGoal Charts.education 500000 2 "College fund")
           (Charts.mkGoal Charts.education 500000 12 "College fund")
           eq_refl Htime).
Defined.

(** X29.  The dynamic portfolio chart never drops a slice: for every risk
    profile, a missing one included, and every market condition, each of
    the four buckets of the optimizer is above 0, so that the chart data
    have the four slices, adding up to 100; and so do the data drawn while
    there is nothing to show yet. *)
Theorem chart_has_four_slices :
  forall (riskProfile : option RiskProfile) (marketCondition : MarketCondition),
    map Charts.name (Charts.chartData riskProfile marketCondition)
    = ["Equity"; "Debt"; "Gold"; "Cash"]%string /\
    Spec.total (map Charts.value (Charts.chartData riskProfile marketCondition))
    == 100 /\
    Forall (fun item => 0 < Charts.value item)
      (Charts.defaultData marketCondition) /\
    Spec.total (map Charts.value (Charts.defaultData marketCondition)) == 100.
Proof.
  intros riskProfile marketCondition.
  destruct riskProfile as [[] |], marketCondition;
    (split; [by_evaluation | split; [by_evaluation | split]]);
    first [ by_evaluation | repeat constructor ].
Qed.
